(** * Session orchestration of the consultation server (src/server/index.js)

    A shallow embedding of the in-memory room / connection state of
    [src/server/index.js] and of the handlers that mutate it: the socket
    rate limiter, the room HTTP endpoints, the upload endpoint with its
    two delayed callbacks, and the socket.io handlers (join-room, the
    video-call events, chat-message, disconnect).

    Conventions of the embedding.
    - JavaScript strings are [string], one character for one code unit,
      and [String.length] stands for [.length].  [toLowerCase] and [trim]
      are functions of the runtime, over all of Unicode: they are
      parameters of the model ([Js.Engine]), and the general statements
      hold for every such pair of functions.  The examples are computed
      with [Js.ascii_engine], which is what the runtime does on texts of
      ASCII characters; the texts of the examples are such texts.
    - [rooms] and [roomInvitations] are plain objects: a key that is the
      name of a property of [Object.prototype] ([Js.inherited]) and not an
      own property reads an object of the runtime, a function or
      [Object.prototype] itself.  The handlers are described for such keys
      too.  Such an object is not part of the state, which is the four
      variables of the server: what a handler writes onto it is not kept,
      and the state describes the server as long as no handler has written
      there ([writes_runtime_object] says which events do).  A statement
      about one call of a handler is about a call made before any such
      write; the statements about runs are about runs without one.
    - [Date.now()] and the results of the external collaborators (text
      extraction, the language model, [JSON.parse]) are arguments of the
      handlers: a handler is a function of the state before it, of its
      request and of those results, and returns the state after it and
      the events it emitted.
    - A handler that [await]s an external call is cut at the [await]:
      each part runs to completion, as on the single-threaded runtime.
    - socket.io puts every connection in a room named by its id, and
      [socket.join] lets a connection join a room of any name, the id of
      another connection too: [io.to(socket.id)] is [ToRoom] of that id,
      [socket.emit] is [ToSocket]. *)

From Stdlib Require Import ZArith String Ascii List Bool Lia.
From stdpp Require Import gmap strings list pretty.

Local Open Scope string_scope.
Local Open Scope Z_scope.

(** ** The socket rate limiter: [checkSocketRateLimit] *)

Module RateLimit.

(** [parseInt(process.env.X) || dflt]: [None] is NaN (variable unset or
    not a number); NaN and 0 are falsy and give the default. *)
Definition env_or (env : option Z) (dflt : Z) : Z :=
  match env with
  | Some 0 | None => dflt
  | Some n => n
  end.

Record Config := {
  RATE_LIMIT_MAX : Z;
  RATE_LIMIT_WINDOW_MS : Z
}.

Definition config_of_env (max window : option Z) : Config :=
  {| RATE_LIMIT_MAX := env_or max 10;
     RATE_LIMIT_WINDOW_MS := env_or window (6 * 60 * 60 * 1000) |}.

Definition default_config : Config := config_of_env None None.

(** An entry of [socketRateLimits]: [{ count, resetTime }]. *)
Record Limit := { count : Z; resetTime : Z }.

Section Limiter.
Variable cfg : Config.

(** [checkSocketRateLimit(ip)] at [Date.now() = now]: the map after
    the call and the boolean it returns. *)
Definition checkSocketRateLimit (limits : gmap string Limit) (ip : string) (now : Z)
  : gmap string Limit * bool :=
  match limits !! ip with
  | None =>
      (<[ip := {| count := 1; resetTime := now + RATE_LIMIT_WINDOW_MS cfg |}]> limits, true)
  | Some limit =>
      if resetTime limit <? now then
        (<[ip := {| count := 1; resetTime := now + RATE_LIMIT_WINDOW_MS cfg |}]> limits, true)
      else if RATE_LIMIT_MAX cfg <=? count limit then
        (limits, false)
      else
        (<[ip := {| count := count limit + 1; resetTime := resetTime limit |}]> limits, true)
  end.

(** A run of checks, each from a source at a time, oldest first; the
    answers come back in the same order. *)
Fixpoint run (limits : gmap string Limit) (reqs : list (string * Z))
  : gmap string Limit * list bool :=
  match reqs with
  | [] => (limits, [])
  | (ip, now) :: rest =>
      let '(limits', ok) := checkSocketRateLimit limits ip now in
      let '(limits'', oks) := run limits' rest in
      (limits'', ok :: oks)
  end.

(** The answers given to one source in a run. *)
Fixpoint answers_for (ip : string) (reqs : list (string * Z)) (oks : list bool) : list bool :=
  match reqs, oks with
  | (ip', _) :: reqs', ok :: oks' =>
      if decide (ip' = ip) then ok :: answers_for ip reqs' oks'
      else answers_for ip reqs' oks'
  | _, _ => []
  end.

(** [ip] starts a fresh window at its next check at [now]: it has no
    entry, or its entry's reset time has passed. *)
Definition fresh_at (limits : gmap string Limit) (ip : string) (now : Z) : Prop :=
  match limits !! ip with
  | None => True
  | Some limit => resetTime limit < now
  end.

(** Every check of [ip] in [reqs] is made no later than [deadline]. *)
Definition within (ip : string) (deadline : Z) (reqs : list (string * Z)) : Prop :=
  Forall (fun r => r.1 = ip -> r.2 <= deadline) reqs.

(** The number of checks of [ip] in [reqs]. *)
Definition checks_of (ip : string) (reqs : list (string * Z)) : nat :=
  length (filter (fun r => r.1 = ip) reqs).

End Limiter.

End RateLimit.

(** ** JavaScript values and string helpers *)

Module Js.

Definition lower_ascii (c : ascii) : ascii :=
  let n := nat_of_ascii c in
  if ((65 <=? n)%nat && (n <=? 90)%nat)%bool then ascii_of_nat (n + 32) else c.

(** The letters A to Z folded: [s.toLowerCase()] for a text of ASCII
    characters. *)
Fixpoint ascii_toLowerCase (s : string) : string :=
  match s with
  | EmptyString => EmptyString
  | String c t => String (lower_ascii c) (ascii_toLowerCase t)
  end.

Definition is_space (c : ascii) : bool :=
  let n := nat_of_ascii c in
  ((9 <=? n)%nat && (n <=? 13)%nat) || (n =? 32)%nat.

Fixpoint trim_start (s : string) : string :=
  match s with
  | String c t => if is_space c then trim_start t else s
  | EmptyString => EmptyString
  end.

(** The end of [s] without its trailing blanks. *)
Fixpoint trim_end (s : string) : string :=
  match s with
  | EmptyString => EmptyString
  | String c t =>
      match trim_end t with
      | EmptyString => if is_space c then EmptyString else String c EmptyString
      | t' => String c t'
      end
  end.

(** The ASCII blanks stripped: [s.trim()] for a text of ASCII
    characters. *)
Definition ascii_trim (s : string) : string := trim_end (trim_start s).

(** [String.prototype.toLowerCase] and [String.prototype.trim]: code of
    the runtime, not of the repository, taken as parameters.  The one fact
    used about them: [toLowerCase] gives the empty string for the empty
    string and for no other. *)
Class Engine := {
  toLowerCase : string -> string;
  trim : string -> string;
  toLowerCase_empty : forall s, toLowerCase s = EmptyString <-> s = EmptyString
}.

(** The two functions on texts of ASCII characters: the engine of the
    examples. *)
Definition ascii_engine : Engine.
Proof.
  refine {| toLowerCase := ascii_toLowerCase; trim := ascii_trim |}.
  intros s. split; [by destruct s | by intros ->].
Defined.

(** The names of the properties of [Object.prototype]: [o[k]] is an
    object of the runtime (a function, or the prototype itself), and so
    truthy, for each of them on a plain object [o] without an own property
    [k]. *)
Definition prototype_names : list string :=
  ["constructor"; "__proto__"; "toString"; "toLocaleString"; "valueOf";
   "hasOwnProperty"; "isPrototypeOf"; "propertyIsEnumerable";
   "__defineGetter__"; "__defineSetter__"; "__lookupGetter__"; "__lookupSetter__"].

Definition inherited (k : string) : bool := bool_decide (k ∈ prototype_names).

(** [hay.includes(needle)] *)
Fixpoint includes (needle hay : string) : bool :=
  String.prefix needle hay ||
  match hay with
  | EmptyString => false
  | String _ t => includes needle t
  end.

(** [s.substring(0, n)] *)
Definition substring0 (n : nat) (s : string) : string := String.substring 0 n s.

(** A string-valued slot that may be [undefined] or [null]. *)
Definition truthy_str (o : option string) : bool :=
  match o with
  | Some s => negb (String.eqb s "")
  | None => false
  end.

(** [a || b] on such slots. *)
Definition or_str (a b : option string) : option string :=
  if truthy_str a then a else b.

(** [a || dflt] where [dflt] is a string literal. *)
Definition or_lit (a : option string) (dflt : string) : string :=
  match a with
  | Some s => if String.eqb s "" then dflt else s
  | None => dflt
  end.

(** The line feed of the template literals. *)
Definition nl : string := String (ascii_of_nat 10) EmptyString.

(** The double quote of the template literals. *)
Definition dquote : string := String (ascii_of_nat 34) EmptyString.

(** [`${n}`] for an integer. *)
Definition decimal (n : Z) : string := pretty n.

(** What [JSON.parse] returns.  Arrays are objects: [JArr] carries the
    named properties set on the array besides its elements. *)
#[local] Unset Elimination Schemes.
Inductive JValue :=
| JNull
| JBool (b : bool)
| JNum (n : Z)
| JStr (s : string)
| JArr (elems : list JValue) (props : list (string * JValue))
| JObj (props : list (string * JValue)).
#[local] Set Elimination Schemes.

(** Truthiness; [None] is [undefined]. *)
Definition truthy (v : option JValue) : bool :=
  match v with
  | None | Some JNull => false
  | Some (JBool b) => b
  | Some (JNum n) => negb (n =? 0)
  | Some (JStr s) => negb (String.eqb s "")
  | Some (JArr _ _) | Some (JObj _) => true
  end.

Fixpoint assoc (k : string) (ps : list (string * JValue)) : option JValue :=
  match ps with
  | [] => None
  | (k', v) :: rest => if String.eqb k' k then Some v else assoc k rest
  end.

(** [o[k] = v] on the own properties of an object: an existing key
    keeps its place, a new key goes last. *)
Fixpoint assoc_set (k : string) (v : JValue) (ps : list (string * JValue))
  : list (string * JValue) :=
  match ps with
  | [] => [(k, v)]
  | (k', v') :: rest =>
      if String.eqb k' k then (k, v) :: rest else (k', v') :: assoc_set k v rest
  end.

(** [v?.k] for one of the keys the server reads (none of them is a
    property of a prototype), on a value that may be [undefined]. *)
Definition get_opt (v : option JValue) (k : string) : option JValue :=
  match v with
  | Some (JObj ps) | Some (JArr _ ps) => assoc k ps
  | _ => None
  end.

(** [if (!v.k) v.k = d] on a non-null value; the module is not in
    strict mode, so the assignment to a primitive is dropped. *)
Definition fill_default (k : string) (d : JValue) (v : JValue) : JValue :=
  match v with
  | JObj ps => if truthy (assoc k ps) then v else JObj (assoc_set k d ps)
  | JArr es ps => if truthy (assoc k ps) then v else JArr es (assoc_set k d ps)
  | _ => v
  end.

End Js.

#[global] Existing Instance Js.ascii_engine.

(** ** The data of a session *)

(** A connection, known by its [socket.id]. *)
Inductive SocketId := Sid (s : string).

(** [socket.id], the name of the connection's own socket.io room. *)
Definition socket_id (sid : SocketId) : string :=
  match sid with Sid s => s end.

#[global] Instance SocketId_eq_dec : EqDecision SocketId.
Proof. solve_decision. Defined.

(** A JavaScript object used as a map from connection ids, with the
    insertion order that [Object.keys] follows. *)
Module Obj.
Section Obj.
Context {V : Type}.

Fixpoint get (o : list (SocketId * V)) (k : SocketId) : option V :=
  match o with
  | [] => None
  | (k', v) :: rest => if decide (k' = k) then Some v else get rest k
  end.

(** [o[k] = v] *)
Fixpoint set (o : list (SocketId * V)) (k : SocketId) (v : V) : list (SocketId * V) :=
  match o with
  | [] => [(k, v)]
  | (k', v') :: rest =>
      if decide (k' = k) then (k, v) :: rest else (k', v') :: set rest k v
  end.

(** [delete o[k]] *)
Fixpoint del (o : list (SocketId * V)) (k : SocketId) : list (SocketId * V) :=
  match o with
  | [] => []
  | (k', v') :: rest =>
      if decide (k' = k) then del rest k else (k', v') :: del rest k
  end.

(** [Object.keys(o)] *)
Definition keys (o : list (SocketId * V)) : list SocketId := o.*1.

(** [Object.keys(o).find(k => p(o[k]))] *)
Definition find_key (p : V -> bool) (o : list (SocketId * V)) : option SocketId :=
  List.find (fun k => match get o k with Some v => p v | None => false end) (keys o).
End Obj.
End Obj.

(** [fileData] of the "file uploaded" chat message. *)
Module FileData.
Record t := mk {
  name : string;
  url : string;
  type : string;
  analysis : string
}.
End FileData.

(** An element of [room.messages]; an absent property is [None] (or
    [false] for the two flags). *)
Module Message.
Record t := mk {
  role : string;
  nickname : option string;
  content : string;
  timestamp : Z;
  avatarUrl : option string;
  fileData : option FileData.t;
  isFile : bool;
  forRole : option string;
  isPrivate : bool
}.
End Message.

(** [documentSummary] of an uploaded file.  A critical finding, the
    string [`${f.parameter}: ${f.value}`], is kept as the pair of the two
    property values it is rendered from. *)
Module Summary.
Record t := mk {
  fileName : string;
  timestamp : Z;
  briefSummary : string;
  diagnosis : Js.JValue;
  riskLevel : Js.JValue;
  criticalFindings : list (option Js.JValue * option Js.JValue);
  fullAnalysis : string;
  rawContent : string
}.
End Summary.

(** An element of [room.files]. *)
Module FileInfo.
Record t := mk {
  name : string;
  path : string;
  url : string;
  type : string;
  content : string;
  analysis : string;
  documentSummary : option Summary.t;
  uploadedAt : Z;
  uploadedBy : string
}.
End FileInfo.

(** An entry of [users]: the binding of a connection. *)
Module User.
Record t := mk {
  roomId : string;
  nickname : string;
  role : string;
  avatarUrl : option string;
  email : option string
}.
End User.

(** An entry of [rooms].  The two e-mail properties exist only on rooms
    made by [/api/create-room]. *)
Module Room.
Record t := mk {
  messages : list Message.t;
  files : list FileInfo.t;
  patient : option string;
  doctor : option string;
  patientAvatar : option string;
  doctorAvatar : option string;
  healthMetrics : Js.JValue;
  allowedPatientEmail : option string;
  doctorEmail : option string;
  videoCallActive : bool;
  videoParticipants : list string
}.

(** The room literal of the join-room handler. *)
Definition fresh : t :=
  mk [] [] None None None None Js.JNull None None false [].

Definition push_message (m : Message.t) (r : t) : t :=
  mk (messages r ++ [m]) (files r) (patient r) (doctor r) (patientAvatar r)
     (doctorAvatar r) (healthMetrics r) (allowedPatientEmail r) (doctorEmail r)
     (videoCallActive r) (videoParticipants r).

Definition push_file (f : FileInfo.t) (r : t) : t :=
  mk (messages r) (files r ++ [f]) (patient r) (doctor r) (patientAvatar r)
     (doctorAvatar r) (healthMetrics r) (allowedPatientEmail r) (doctorEmail r)
     (videoCallActive r) (videoParticipants r).

Definition set_patient (n a : option string) (r : t) : t :=
  mk (messages r) (files r) n (doctor r) a
     (doctorAvatar r) (healthMetrics r) (allowedPatientEmail r) (doctorEmail r)
     (videoCallActive r) (videoParticipants r).

Definition set_doctor (n a : option string) (r : t) : t :=
  mk (messages r) (files r) (patient r) n (patientAvatar r)
     a (healthMetrics r) (allowedPatientEmail r) (doctorEmail r)
     (videoCallActive r) (videoParticipants r).

Definition set_healthMetrics (m : Js.JValue) (r : t) : t :=
  mk (messages r) (files r) (patient r) (doctor r) (patientAvatar r)
     (doctorAvatar r) m (allowedPatientEmail r) (doctorEmail r)
     (videoCallActive r) (videoParticipants r).

Definition set_video (active : bool) (ps : list string) (r : t) : t :=
  mk (messages r) (files r) (patient r) (doctor r) (patientAvatar r)
     (doctorAvatar r) (healthMetrics r) (allowedPatientEmail r) (doctorEmail r)
     active ps.
End Room.

(** An entry of [roomInvitations]. *)
Module Invitation.
Record t := mk {
  roomId : string;
  patientEmail : string;
  doctorEmail : string;
  createdAt : Z;
  videoEnabled : bool
}.
End Invitation.

(** ** The state of the server and the events it emits *)

(** [rooms], [users] and [roomInvitations] of the server, and the
    socket.io adapter: the connected sockets, each with the names of the
    rooms it has joined. *)
Record State := mkState {
  rooms : gmap string Room.t;
  users : list (SocketId * User.t);
  roomInvitations : gmap string Invitation.t;
  sockets : list (SocketId * list string)
}.

Definition initial : State := mkState ∅ [] ∅ [].

Definition with_rooms (rs : gmap string Room.t) (st : State) : State :=
  mkState rs (users st) (roomInvitations st) (sockets st).
Definition with_users (us : list (SocketId * User.t)) (st : State) : State :=
  mkState (rooms st) us (roomInvitations st) (sockets st).
Definition with_invitations (invs : gmap string Invitation.t) (st : State) : State :=
  mkState (rooms st) (users st) invs (sockets st).
Definition with_sockets (ss : list (SocketId * list string)) (st : State) : State :=
  mkState (rooms st) (users st) (roomInvitations st) ss.

(** The server-to-client events with their payloads. *)
Inductive Payload :=
| RoomHistory (messages : list Message.t) (files : list FileInfo.t)
| HealthMetricsUpdated (metrics : Js.JValue)
| VideoCallActive
| UserJoined (nickname role : string) (patient doctor patientAvatar doctorAvatar : option string)
| UserLeft (nickname role : string) (patient doctor : option string)
| ChatMessage (m : Message.t)
| AiMessage (message : string) (forRole : string) (isPrivate : bool)
| FilesUpdated (files : list FileInfo.t)
| VideoError (message : string)
| VideoCallStarted (startedBy roomId : string)
| VideoCallEnded (endedBy : string)
| UserJoinedVideo (peerId nickname role : string)
| ExistingVideoParticipants (participants : list string)
| UserLeftVideo (peerId nickname : string)
| UserTyping (nickname : string)
| DocumentationGenerated (documentation : string)
| RoomDeleted (message : string).

(** Where an event is sent: [io.to(room)], with [io.to(socket.id)]
    the room named by the id; [socket.emit]; and [socket.to(roomId)]. *)
Inductive Target :=
| ToRoom (roomId : string)
| ToSocket (sid : SocketId)
| ToRoomExcept (roomId : string) (sid : SocketId).

Record Emit := mkEmit { target : Target; payload : Payload }.

(** The connections in the socket.io room [roomId]: those that have
    joined it, and the connection whose id it is. *)
Definition room_members (st : State) (roomId : string) : list SocketId :=
  (filter (fun e : SocketId * list string => roomId ∈ e.2 \/ socket_id e.1 = roomId)
     (sockets st)).*1.

Definition connected (st : State) (sid : SocketId) : bool :=
  bool_decide (is_Some (Obj.get (sockets st) sid)).

(** The connections an event sent to [t] reaches. *)
Definition recipients (st : State) (t : Target) : list SocketId :=
  match t with
  | ToRoom roomId => room_members st roomId
  | ToSocket sid => if connected st sid then [sid] else []
  | ToRoomExcept roomId sid => filter (fun s => s ≠ sid) (room_members st roomId)
  end.

(** [io.on("connection")] *)
Definition connect (st : State) (sid : SocketId) : State :=
  match Obj.get (sockets st) sid with
  | Some _ => st
  | None => with_sockets (sockets st ++ [(sid, [])])%list st
  end.

(** [socket.join(roomId)] *)
Definition socket_join (sid : SocketId) (roomId : string) (ss : list (SocketId * list string))
  : list (SocketId * list string) :=
  let joined := default [] (Obj.get ss sid) in
  Obj.set ss sid (if bool_decide (roomId ∈ joined) then joined else (joined ++ [roomId])%list).

(** The predicate of the two history filters (join-room and
    [getAIResponse]): a message is shown to [role] unless it is an AI
    message whose [forRole] is set to something else. *)
Definition visible_to (role : string) (m : Message.t) : bool :=
  if negb (String.eqb (Message.role m) "AI Assistant") then true
  else negb (Js.truthy_str (Message.forRole m))
       || bool_decide (Message.forRole m = Some role).

Definition filteredMessages (role : string) (ms : list Message.t) : list Message.t :=
  List.filter (visible_to role) ms.

(** The slot a role writes: [role === "patient"] or anything else. *)
Definition is_patient (role : string) : bool := String.eqb role "patient".
Definition is_doctor (role : string) : bool := String.eqb role "doctor".

(** ** The document pipeline *)

(** The outcome of a language-model call whose reply goes through
    [JSON.parse]: the call or the parse threw, or a value was parsed. *)
Inductive LlmJson :=
| LlmThrew
| LlmParsed (v : Js.JValue).

(** The object returned by the [catch] of [extractHealthMetrics]. *)
Definition metrics_fallback : Js.JValue :=
  Js.JObj
    [("vitals", Js.JObj []);
     ("diagnosis",
      Js.JObj [("primary", Js.JStr "Analysis Error");
               ("confidence", Js.JNum 0);
               ("riskLevel", Js.JStr "low");
               ("summary", Js.JStr "Unable to extract metrics from document")]);
     ("keyFindings", Js.JArr [] []);
     ("recommendations",
      Js.JArr [Js.JStr "Please re-upload the document or check file format"] [])].

Definition default_diagnosis : Js.JValue :=
  Js.JObj [("primary", Js.JStr "Monitoring");
           ("confidence", Js.JNum 0);
           ("riskLevel", Js.JStr "low");
           ("summary", Js.JStr "No specific diagnosis identified")].

(** [extractHealthMetrics]: the value it returns, from the outcome of
    its model call.  Reading [metrics.vitals] of [null] throws inside the
    [try]. *)
Definition extractHealthMetrics (reply : LlmJson) : Js.JValue :=
  match reply with
  | LlmThrew => metrics_fallback
  | LlmParsed Js.JNull => metrics_fallback
  | LlmParsed metrics =>
      Js.fill_default "recommendations" (Js.JArr [] [])
        (Js.fill_default "keyFindings" (Js.JArr [] [])
           (Js.fill_default "diagnosis" default_diagnosis
              (Js.fill_default "vitals" (Js.JObj []) metrics)))
  end.

(** [a || dflt] on values. *)
Definition or_value (a : option Js.JValue) (dflt : Js.JValue) : Js.JValue :=
  match a with
  | Some v => if Js.truthy a then v else dflt
  | None => dflt
  end.

(** [metrics?.keyFindings?.slice(0, 3).map(f => ...) || []]; [None] is
    a TypeError: [slice] or [map] is not a function of the value, or a
    finding is [null]. *)
Definition criticalFindings (metrics : Js.JValue)
  : option (list (option Js.JValue * option Js.JValue)) :=
  match Js.get_opt (Some metrics) "keyFindings" with
  | None | Some Js.JNull => Some []
  | Some (Js.JArr elems _) =>
      mapM (fun f => match f with
                     | Js.JNull => None
                     | _ => Some (Js.get_opt (Some f) "parameter", Js.get_opt (Some f) "value")
                     end)
           (take 3 elems)
  | Some _ => None
  end.

(** [generateDocumentSummary]; [None] when it throws. *)
Definition generateDocumentSummary (content fileName analysis : string)
    (metrics : Js.JValue) (now : Z) : option Summary.t :=
  match criticalFindings metrics with
  | None => None
  | Some findings =>
      let diag := Js.get_opt (Some metrics) "diagnosis" in
      Some (Summary.mk fileName now
              (if String.eqb analysis "" then "No analysis available"
               else Js.substring0 500 analysis)
              (or_value (Js.get_opt diag "primary") (Js.JStr "Unknown"))
              (or_value (Js.get_opt diag "riskLevel") (Js.JStr "low"))
              findings
              analysis
              (Js.substring0 1000 content))
  end.

(** The file of a multipart upload, as multer hands it over. *)
Record UploadedFile := mkUploadedFile {
  originalname : string;
  file_path : string;
  filename : string;
  mimetype : string
}.

(** [req.body] of the upload. *)
Record UploadBody := mkUploadBody {
  body_roomId : option string;
  uploadedBy : option string;
  uploaderRole : option string
}.

(** What the external collaborators return during an upload: the
    extracted text, the analysis text ([performTemporalAnalysis] or
    [analyzeFileWithXAI], each of which turns a failed call into a fixed
    text), and the outcome of the metrics call. *)
Record UploadResults := mkUploadResults {
  extracted : string;
  analysisText : string;
  metricsReply : LlmJson
}.

(** The two [setTimeout] callbacks an upload may schedule. *)
Inductive Timer :=
| DoctorAnalysis (roomId analysis : string)
| PatientNotice (roomId : string) (uploadedBy : option string) (originalname : string).

Definition delay (t : Timer) : Z :=
  match t with
  | DoctorAnalysis _ _ => 1000
  | PatientNotice _ _ _ => 500
  end.

(** The answers of the HTTP endpoints. *)
Inductive Response :=
| Status400 (error : string)
| Status403 (error : string)
| Status404 (error : string)
| Status500 (error : string)
| RoomCreated (roomHash roomId inviteLink : string)
| RoomValid (roomId role patientEmail doctorEmail : string)
| RoomValidBare (role : string)
| RoomRemoved
| Uploaded (file : FileInfo.t).

(** [content && content.length > 20 && !content.includes("no text detected")] *)
Definition analysable (content : string) : bool :=
  (20 <? String.length content)%nat && negb (Js.includes "no text detected" content).

(** [content && content.length > 20] *)
Definition long_enough (content : string) : bool :=
  (20 <? String.length content)%nat.

Definition clinical_prefix : string :=
  "🔬 **Clinical Analysis** (with XAI)" ++ Js.nl ++ Js.nl.

Definition upload_prefix : string := "📎 Uploaded: ".

Definition fileMessage (body : UploadBody) (file : UploadedFile) (analysis : string) (now : Z)
  : Message.t :=
  Message.mk (Js.or_lit (uploadedBy body) "User") (uploadedBy body)
    (upload_prefix ++ originalname file) now None
    (Some (FileData.mk (originalname file) ("/uploads/" ++ filename file)
             (mimetype file) analysis))
    true None false.

Definition doctorAiMessage (analysis : string) (now : Z) : Message.t :=
  Message.mk "AI Assistant" None (clinical_prefix ++ analysis) now None None false
    (Some "doctor") true.

Definition patientAiMessage (originalname : string) (now : Z) : Message.t :=
  Message.mk "AI Assistant" None
    ("✅ I've received " ++ Js.dquote ++ originalname ++ Js.dquote
       ++ ". Your doctor will review it shortly.")
    now None None false (Some "patient") true.

(** ** The HTTP endpoints *)

(** [POST /api/create-room].  [roomHash] is the value of
    [generateRoomHash()]. *)
Definition create_room `{Js.Engine} (st : State) (doctorEmail patientEmail : option string)
    (roomHash : string) (now : Z) : State * Response :=
  if negb (Js.truthy_str doctorEmail) || negb (Js.truthy_str patientEmail) then
    (st, Status400 "Doctor email and Patient email are required")
  else
    let d := Js.toLowerCase (default "" doctorEmail) in
    let p := Js.toLowerCase (default "" patientEmail) in
    let roomId := "room_" ++ Js.decimal now in
    let room := Room.mk [] [] None None None None Js.JNull (Some p) (Some d) false [] in
    (with_invitations (<[roomHash := Invitation.mk roomId p d now false]> (roomInvitations st))
       (with_rooms (<[roomId := room]> (rooms st)) st),
     RoomCreated roomHash roomId ("/chat/" ++ roomHash)).

(** [POST /api/validate-room].  For a hash that names a property of
    [Object.prototype], [roomInvitations[roomHash]] is an object of the
    runtime without the fields of an invitation: its [doctorEmail] is
    [undefined], which is what [userEmail?.toLowerCase()] is for a request
    without e-mail, and the answer then carries the role alone. *)
Definition validate_room `{Js.Engine} (st : State) (roomHash : string)
    (userEmail : option string) : Response :=
  match roomInvitations st !! roomHash with
  | None =>
      if Js.inherited roomHash then
        match userEmail with
        | None => RoomValidBare "doctor"
        | Some _ => Status403 "You are not authorized to join this room"
        end
      else Status404 "Invalid room link"
  | Some invitation =>
      let email := Js.toLowerCase <$> userEmail in
      let isDoctor := bool_decide (email = Some (Invitation.doctorEmail invitation)) in
      let isInvitedPatient := bool_decide (email = Some (Invitation.patientEmail invitation)) in
      if negb isDoctor && negb isInvitedPatient then
        Status403 "You are not authorized to join this room"
      else
        RoomValid (Invitation.roomId invitation) (if isDoctor then "doctor" else "patient")
          (Invitation.patientEmail invitation) (Invitation.doctorEmail invitation)
  end.

(** What [delete-room] does once the ownership test has passed, for
    the room id [roomId] of the invitation: [rooms[roomId]] truthy sends
    the notice and deletes the room, which does nothing to a property that
    is not the object's own. *)
Definition remove_room (st : State) (roomId : string) : State * list Emit :=
  match rooms st !! roomId with
  | Some _ =>
      (with_rooms (delete roomId (rooms st)) st,
       [mkEmit (ToRoom roomId)
          (RoomDeleted "This consultation room has been deleted by the doctor")])
  | None =>
      if Js.inherited roomId
      then (st, [mkEmit (ToRoom roomId)
                   (RoomDeleted "This consultation room has been deleted by the doctor")])
      else (st, [])
  end.

(** [DELETE /api/delete-room/:hash].  For a hash that names a property
    of [Object.prototype] the invitation is an object of the runtime: its
    [doctorEmail] and [roomId] are [undefined], so a request without
    e-mail passes the ownership test, the room looked up is
    [rooms[undefined]], the room named "undefined", and deleting the
    invitation does nothing. *)
Definition delete_room `{Js.Engine} (st : State) (hash : string) (doctorEmail : option string)
  : State * list Emit * Response :=
  match roomInvitations st !! hash with
  | None =>
      if Js.inherited hash then
        match doctorEmail with
        | Some _ => (st, [], Status403 "Only the doctor who created this room can delete it")
        | None => (remove_room st "undefined", RoomRemoved)
        end
      else (st, [], Status404 "Room not found")
  | Some invitation =>
      if negb (bool_decide (Some (Invitation.doctorEmail invitation)
                            = (Js.toLowerCase <$> doctorEmail))) then
        (st, [], Status403 "Only the doctor who created this room can delete it")
      else
        let roomId := Invitation.roomId invitation in
        let st1 := with_invitations (delete hash (roomInvitations st)) st in
        match rooms st !! roomId with
        | Some _ =>
            (with_rooms (delete roomId (rooms st)) st1,
             [mkEmit (ToRoom roomId)
                (RoomDeleted "This consultation room has been deleted by the doctor")],
             RoomRemoved)
        | None =>
            (st1,
             if Js.inherited roomId
             then [mkEmit (ToRoom roomId)
                     (RoomDeleted "This consultation room has been deleted by the doctor")]
             else [],
             RoomRemoved)
        end
  end.

(** What an upload leaves behind. *)
Record UploadOutcome := mkUploadOutcome {
  up_state : State;
  up_emits : list Emit;
  up_timers : list Timer;
  up_response : Response
}.

(** [POST /upload], from the point where the external calls have
    returned [res], when no other handler has run while it awaited them:
    the handler tests [rooms[roomId]] before it awaits them and again
    after, and the tests are taken in the same state here ([upload_at]
    below takes them apart).  A throw inside the handler's [try] ends in
    the 500 answer; the one that the values of [res] can cause, in
    [generateDocumentSummary], comes before any write.  For a room id that
    names a property of [Object.prototype], [rooms[roomId]] is truthy: the
    metrics event of an analysed upload is sent, and [files.push] throws. *)
Definition upload (st : State) (body : UploadBody) (file : option UploadedFile)
    (res : UploadResults) (now : Z) : UploadOutcome :=
  match file, body_roomId body with
  | Some file, Some roomId =>
      if String.eqb roomId "" then mkUploadOutcome st [] [] (Status400 "File and roomId required")
      else
        let content := extracted res in
        let analysed := analysable content in
        let analysis := if analysed then analysisText res else "" in
        let metrics := extractHealthMetrics (metricsReply res) in
        let summary :=
          if analysed
          then option_map Some (generateDocumentSummary content (originalname file) analysis metrics now)
          else Some None in
        match summary with
        | None => mkUploadOutcome st [] [] (Status500 "Upload failed")
        | Some documentSummary =>
            let fileInfo :=
              FileInfo.mk (originalname file) (file_path file) ("/uploads/" ++ filename file)
                (mimetype file) (Js.substring0 5000 content) analysis documentSummary now
                (Js.or_lit (uploadedBy body) "Unknown") in
            match rooms st !! roomId with
            | None =>
                if Js.inherited roomId
                then mkUploadOutcome st
                       (if analysed
                        then [mkEmit (ToRoom roomId) (HealthMetricsUpdated metrics)] else [])
                       [] (Status500 "Upload failed")
                else mkUploadOutcome st [] [] (Uploaded fileInfo)
            | Some room =>
                let room1 := if analysed then Room.set_healthMetrics metrics room else room in
                let msg := fileMessage body file analysis now in
                let room2 := Room.push_message msg (Room.push_file fileInfo room1) in
                mkUploadOutcome
                  (with_rooms (<[roomId := room2]> (rooms st)) st)
                  ((if analysed then [mkEmit (ToRoom roomId) (HealthMetricsUpdated metrics)] else [])
                   ++ [mkEmit (ToRoom roomId) (ChatMessage msg);
                       mkEmit (ToRoom roomId) (FilesUpdated (Room.files room2))])
                  ((if long_enough content then [DoctorAnalysis roomId analysis] else [])
                   ++ (if bool_decide (uploaderRole body = Some "patient")
                       then [PatientNotice roomId (uploadedBy body) (originalname file)] else []))
                  (Uploaded fileInfo)
            end
        end
  | _, _ => mkUploadOutcome st [] [] (Status400 "File and roomId required")
  end.

(** [rooms[roomId]] is truthy: the room exists, or its id names a
    property of [Object.prototype]. *)
Definition room_truthy (st : State) (roomId : string) : bool :=
  bool_decide (is_Some (rooms st !! roomId)) || Js.inherited roomId.

(** [POST /upload] when other handlers run while it awaits its
    external calls.  [roomAtAnalysis] is the outcome of the test of
    [rooms[roomId]] before the analysis call, [roomAtMetrics] says whether
    [rooms[roomId]] was there when the metrics call was made (it reads
    [rooms[roomId].messages]), and [st] is the state in which the handler
    goes on after its last [await]: there it writes the metrics, when the
    first test had passed, and tests [rooms[roomId]] again. *)
Definition upload_at (roomAtAnalysis roomAtMetrics : bool) (st : State) (body : UploadBody)
    (file : option UploadedFile) (res : UploadResults) (now : Z) : UploadOutcome :=
  match file, body_roomId body with
  | Some file, Some roomId =>
      if String.eqb roomId "" then mkUploadOutcome st [] [] (Status400 "File and roomId required")
      else
        let content := extracted res in
        let analysed := analysable content in
        let analysis := if analysed then analysisText res else "" in
        let metrics := extractHealthMetrics (metricsReply res) in
        let written := analysed && roomAtAnalysis in
        if written && negb roomAtMetrics
        then mkUploadOutcome st [] [] (Status500 "Upload failed")
        else
          let summary :=
            if analysed
            then option_map Some
                   (generateDocumentSummary content (originalname file) analysis metrics now)
            else Some None in
          match summary with
          | None => mkUploadOutcome st [] [] (Status500 "Upload failed")
          | Some documentSummary =>
              let fileInfo :=
                FileInfo.mk (originalname file) (file_path file) ("/uploads/" ++ filename file)
                  (mimetype file) (Js.substring0 5000 content) analysis documentSummary now
                  (Js.or_lit (uploadedBy body) "Unknown") in
              let metricsEvent :=
                if written then [mkEmit (ToRoom roomId) (HealthMetricsUpdated metrics)] else [] in
              match rooms st !! roomId with
              | None =>
                  if Js.inherited roomId
                  then mkUploadOutcome st metricsEvent [] (Status500 "Upload failed")
                  else if written
                       then mkUploadOutcome st [] [] (Status500 "Upload failed")
                       else mkUploadOutcome st [] [] (Uploaded fileInfo)
              | Some room =>
                  let room1 := if written then Room.set_healthMetrics metrics room else room in
                  let msg := fileMessage body file analysis now in
                  let room2 := Room.push_message msg (Room.push_file fileInfo room1) in
                  mkUploadOutcome
                    (with_rooms (<[roomId := room2]> (rooms st)) st)
                    (metricsEvent
                     ++ [mkEmit (ToRoom roomId) (ChatMessage msg);
                         mkEmit (ToRoom roomId) (FilesUpdated (Room.files room2))])
                    ((if long_enough content then [DoctorAnalysis roomId analysis] else [])
                     ++ (if bool_decide (uploaderRole body = Some "patient")
                         then [PatientNotice roomId (uploadedBy body) (originalname file)]
                         else []))
                    (Uploaded fileInfo)
              end
          end
  | _, _ => mkUploadOutcome st [] [] (Status400 "File and roomId required")
  end.

(** The callback of the 1000 ms timer; [None] when it throws (no room
    of that name is left while a doctor is still bound to it). *)
Definition doctor_timer (st : State) (roomId analysis : string) (now : Z)
  : option (State * list Emit) :=
  match Obj.find_key
          (fun u => String.eqb (User.roomId u) roomId && is_doctor (User.role u))
          (users st) with
  | None => Some (st, [])
  | Some doctorSocketId =>
      match rooms st !! roomId with
      | None => None
      | Some room =>
          if Js.truthy_str (Room.doctor room) then
            let m := doctorAiMessage analysis now in
            Some (with_rooms (<[roomId := Room.push_message m room]> (rooms st)) st,
                  [mkEmit (ToRoom (socket_id doctorSocketId))
                     (AiMessage (Message.content m) "doctor" true)])
          else Some (st, [])
      end
  end.

(** The callback of the 500 ms timer; [None] when it throws. *)
Definition patient_timer (st : State) (roomId : string) (uploadedBy : option string)
    (originalname : string) (now : Z) : option (State * list Emit) :=
  match Obj.find_key
          (fun u => bool_decide (Some (User.nickname u) = uploadedBy)
                    && String.eqb (User.roomId u) roomId)
          (users st) with
  | None => Some (st, [])
  | Some patientSocketId =>
      match rooms st !! roomId with
      | None => None
      | Some room =>
          let m := patientAiMessage originalname now in
          Some (with_rooms (<[roomId := Room.push_message m room]> (rooms st)) st,
                [mkEmit (ToRoom (socket_id patientSocketId))
                   (AiMessage (Message.content m) "patient" true)])
      end
  end.

Definition fire (st : State) (t : Timer) (now : Z) : option (State * list Emit) :=
  match t with
  | DoctorAnalysis roomId analysis => doctor_timer st roomId analysis now
  | PatientNotice roomId uploadedBy originalname =>
      patient_timer st roomId uploadedBy originalname now
  end.

(** ** The socket.io handlers *)

(** The payload of join-room, as the client declares it. *)
Record JoinPayload := mkJoin {
  join_roomId : string;
  join_nickname : string;
  join_role : string;
  join_avatarUrl : option string;
  join_email : option string
}.

(** [socket.on("join-room")] for a room that exists or that the
    handler creates. *)
Definition join_room_plain (st : State) (sid : SocketId) (p : JoinPayload)
  : State * list Emit :=
  let roomId := join_roomId p in
  let room0 := default Room.fresh (rooms st !! roomId) in
  let room :=
    if is_patient (join_role p)
    then Room.set_patient (Some (join_nickname p)) (join_avatarUrl p) room0
    else Room.set_doctor (Some (join_nickname p)) (join_avatarUrl p) room0 in
  let st' :=
    mkState (<[roomId := room]> (rooms st))
      (Obj.set (users st) sid
         (User.mk roomId (join_nickname p) (join_role p) (join_avatarUrl p) (join_email p)))
      (roomInvitations st)
      (socket_join sid roomId (sockets st)) in
  (st',
   ([mkEmit (ToSocket sid)
       (RoomHistory (filteredMessages (join_role p) (Room.messages room)) (Room.files room))]
    ++ (if Js.truthy (Some (Room.healthMetrics room))
        then [mkEmit (ToSocket sid) (HealthMetricsUpdated (Room.healthMetrics room))] else [])
    ++ (if Room.videoCallActive room then [mkEmit (ToSocket sid) VideoCallActive] else [])
    ++ [mkEmit (ToRoom roomId)
          (UserJoined (join_nickname p) (join_role p) (Room.patient room) (Room.doctor room)
             (Room.patientAvatar room) (Room.doctorAvatar room))])%list).

(** [rooms[roomId]] is an object of the runtime: not the room's own
    property, and the name of a property of [Object.prototype]. *)
Definition reads_runtime_object (st : State) (roomId : string) : bool :=
  bool_decide (rooms st !! roomId = None) && Js.inherited roomId.

(** [socket.on("join-room")].  When [rooms[roomId]] is an object of the
    runtime, the test [!rooms[roomId]] fails and no room is made: the
    connection has joined the socket.io room and is bound, the slot is
    written onto that object, and [rooms[roomId].messages.filter] throws
    before anything is sent. *)
Definition join_room (st : State) (sid : SocketId) (p : JoinPayload) : State * list Emit :=
  if reads_runtime_object st (join_roomId p) then
    (mkState (rooms st)
       (Obj.set (users st) sid
          (User.mk (join_roomId p) (join_nickname p) (join_role p) (join_avatarUrl p)
             (join_email p)))
       (roomInvitations st)
       (socket_join sid (join_roomId p) (sockets st)),
     [])
  else join_room_plain st sid p.

(** [socket.on("start-video-call")].  When [rooms[roomId]] is an
    object of the runtime, the flag and the roster are written onto it and
    the event is sent. *)
Definition start_video_call (st : State) (sid : SocketId) (roomId : string)
  : State * list Emit :=
  match Obj.get (users st) sid with
  | Some user =>
      if is_doctor (User.role user) then
        match rooms st !! roomId with
        | Some room =>
            (with_rooms (<[roomId := Room.set_video true [] room]> (rooms st)) st,
             [mkEmit (ToRoom roomId) (VideoCallStarted (User.nickname user) roomId)])
        | None =>
            (st,
             if Js.inherited roomId
             then [mkEmit (ToRoom roomId) (VideoCallStarted (User.nickname user) roomId)]
             else [])
        end
      else (st, [mkEmit (ToSocket sid) (VideoError "Only doctors can start video calls")])
  | None => (st, [mkEmit (ToSocket sid) (VideoError "Only doctors can start video calls")])
  end.

(** [socket.on("join-video-call")].  When [rooms[roomId]] is an object
    of the runtime, its [videoParticipants] is read as never written:
    [undefined.includes] throws. *)
Definition join_video_call (st : State) (sid : SocketId) (roomId peerId : string)
  : State * list Emit :=
  match Obj.get (users st) sid, rooms st !! roomId with
  | Some user, Some room =>
      let ps := Room.videoParticipants room in
      let ps' := if bool_decide (peerId ∈ ps) then ps else (ps ++ [peerId])%list in
      (with_rooms (<[roomId := Room.set_video (Room.videoCallActive room) ps' room]> (rooms st)) st,
       [mkEmit (ToRoomExcept roomId sid)
          (UserJoinedVideo peerId (User.nickname user) (User.role user));
        mkEmit (ToSocket sid)
          (ExistingVideoParticipants (filter (fun id => id ≠ peerId) ps'))])
  | _, _ => (st, [])
  end.

(** [socket.on("end-video-call")]; on an object of the runtime as
    start-video-call. *)
Definition end_video_call (st : State) (sid : SocketId) (roomId : string)
  : State * list Emit :=
  match Obj.get (users st) sid with
  | Some user =>
      if is_doctor (User.role user) then
        match rooms st !! roomId with
        | Some room =>
            (with_rooms (<[roomId := Room.set_video false [] room]> (rooms st)) st,
             [mkEmit (ToRoom roomId) (VideoCallEnded (User.nickname user))])
        | None =>
            (st,
             if Js.inherited roomId
             then [mkEmit (ToRoom roomId) (VideoCallEnded (User.nickname user))]
             else [])
        end
      else (st, [])
  | None => (st, [])
  end.

(** [socket.on("leave-video-call")]; on an object of the runtime as
    join-video-call. *)
Definition leave_video_call (st : State) (sid : SocketId) (roomId peerId : string)
  : State * list Emit :=
  match Obj.get (users st) sid, rooms st !! roomId with
  | Some user, Some room =>
      (with_rooms
         (<[roomId := Room.set_video (Room.videoCallActive room)
                        (filter (fun id => id ≠ peerId) (Room.videoParticipants room)) room]>
            (rooms st)) st,
       [mkEmit (ToRoomExcept roomId sid) (UserLeftVideo peerId (User.nickname user))])
  | _, _ => (st, [])
  end.

(** [message.toLowerCase().includes("@ai")] *)
Definition isAiCall `{Js.Engine} (message : string) : bool :=
  Js.includes "@ai" (Js.toLowerCase message).

(** A call of [getAIResponse] that is waiting for the language model:
    what the rest of the chat-message handler needs once it returns. *)
Record AiRequest := mkAiRequest {
  ai_socket : SocketId;
  ai_roomId : string;
  ai_userMessage : string;
  ai_role : string
}.

(** What the first part of the chat-message handler leaves behind. *)
Record ChatOutcome := mkChatOutcome {
  chat_state : State;
  chat_emits : list Emit;
  chat_pending : option AiRequest
}.

(** [socket.on("chat-message")] up to the [await]; [None] when
    [rooms[roomId].messages.push] throws: the room does not exist (and
    [rooms[roomId]] is [undefined], or an object of the runtime, which has
    no [messages]). *)
Definition chat_message `{Js.Engine} (st : State) (sid : SocketId) (roomId message : string)
    (avatarUrl : option string) (now : Z) : option ChatOutcome :=
  match Obj.get (users st) sid with
  | None => Some (mkChatOutcome st [] None)
  | Some user =>
      match rooms st !! roomId with
      | None => None
      | Some room =>
          let chatMessage :=
            Message.mk (if is_doctor (User.role user) then "Doctor" else "Patient")
              (Some (User.nickname user)) message now
              (Js.or_str avatarUrl (User.avatarUrl user)) None false None false in
          let st' := with_rooms (<[roomId := Room.push_message chatMessage room]> (rooms st)) st in
          if negb (isAiCall message) then
            Some (mkChatOutcome st' [mkEmit (ToRoom roomId) (ChatMessage chatMessage)] None)
          else
            Some (mkChatOutcome st' [mkEmit (ToRoom (socket_id sid)) (ChatMessage chatMessage)]
                    (Some (mkAiRequest sid roomId message (User.role user))))
      end
  end.

(** The messages [getAIResponse] puts in the prompt for [userRole]:
    [roleMessages.slice(-5)]. *)
Definition roleMessages (userRole : string) (room : Room.t) : list Message.t :=
  let visible := filteredMessages userRole (Room.messages room) in
  drop (length visible - 5) visible.

(** The text [getAIResponse] resolves to, from the outcome of its one
    model call ([None]: the call threw). *)
Definition getAIResponse (reply : option string) : string :=
  default "I'm having trouble responding. Please try again." reply.

(** The chat-message handler after the [await]; [None] when
    [rooms[roomId].messages] throws. *)
Definition ai_reply (st : State) (req : AiRequest) (reply : option string) (now : Z)
  : option (State * list Emit) :=
  match rooms st !! ai_roomId req with
  | None => None
  | Some room =>
      let aiResponse := getAIResponse reply in
      let aiMessage :=
        Message.mk "AI Assistant" None aiResponse now None None false
          (Some (ai_role req)) true in
      Some (with_rooms (<[ai_roomId req := Room.push_message aiMessage room]> (rooms st)) st,
            [mkEmit (ToRoom (socket_id (ai_socket req)))
               (AiMessage aiResponse (ai_role req) true)])
  end.

(** [socket.on("typing")] *)
Definition typing (st : State) (sid : SocketId) (roomId : string) : list Emit :=
  match Obj.get (users st) sid with
  | Some user => [mkEmit (ToRoomExcept roomId sid) (UserTyping (User.nickname user))]
  | None => []
  end.

(** [socket.on("request-documentation")], from the point where the
    model call of [generateClinicalDocumentation] has returned [reply]
    ([None]: it threw); without the room no call is made (on an object of
    the runtime [room.messages.filter] throws before the call). *)
Definition request_documentation (st : State) (sid : SocketId) (roomId : string)
    (reply : option string) : list Emit :=
  match rooms st !! roomId with
  | None => []
  | Some _ =>
      if Js.truthy_str reply
      then [mkEmit (ToSocket sid) (DocumentationGenerated (default "" reply))]
      else []
  end.

(** [socket.on("disconnect")]: socket.io has taken the socket out of its
    rooms when the handler runs.  When [rooms[roomId]] is an object of the
    runtime, the slot is cleared on that object and the event is sent: the
    slot the handler has cleared is [null] in it, the other slot is read
    as never written. *)
Definition disconnect (st : State) (sid : SocketId) : State * list Emit :=
  let st0 := with_sockets (Obj.del (sockets st) sid) st in
  match Obj.get (users st) sid with
  | None => (st0, [])
  | Some user =>
      let roomId := User.roomId user in
      let st1 := with_users (Obj.del (users st) sid) st0 in
      match rooms st !! roomId with
      | None =>
          (st1,
           if Js.inherited roomId
           then [mkEmit (ToRoom roomId)
                   (UserLeft (User.nickname user) (User.role user) None None)]
           else [])
      | Some room =>
          let room' :=
            if is_patient (User.role user)
            then Room.set_patient None None room
            else Room.set_doctor None None room in
          (with_rooms (<[roomId := room']> (rooms st)) st1,
           [mkEmit (ToRoom roomId)
              (UserLeft (User.nickname user) (User.role user)
                 (Room.patient room') (Room.doctor room'))])
      end
  end.

(** ** Emergency detection *)

Definition EMERGENCY_KEYWORDS : list string :=
  ["chest pain"; "heart attack"; "can't breathe"; "breathless"; "severe bleeding";
   "unconscious"; "stroke"; "paralysis"; "severe headache"; "suicide";
   "overdose"; "seizure"; "choking"; "anaphylaxis"; "severe pain"].

(** [EMERGENCY_KEYWORDS.some(keyword => messageLower.includes(keyword))] *)
Definition hasEmergencyKeyword `{Js.Engine} (message : string) : bool :=
  existsb (fun keyword => Js.includes keyword (Js.toLowerCase message)) EMERGENCY_KEYWORDS.

(** A computation that may call the language model and go on with the
    outcome of the call. *)
Inductive Llm (A : Type) :=
| Ret (a : A)
| Invoke (prompt : string) (k : LlmJson -> Llm A).
Arguments Ret {A} a.
Arguments Invoke {A} prompt k.

(** Running such a computation against a model: its result and the
    number of calls it made. *)
Fixpoint run_llm {A : Type} (model : string -> LlmJson) (c : Llm A) : A * nat :=
  match c with
  | Ret a => (a, 0%nat)
  | Invoke prompt k =>
      let '(a, calls) := run_llm model (k (model prompt)) in (a, S calls)
  end.

(** What [detectEmergency] returns. *)
Record Emergency := mkEmergency {
  isEmergency : bool;
  level : option Js.JValue;
  reasoning : option Js.JValue;
  urgentAdvice : option Js.JValue
}.

Definition is_level (name : string) (v : option Js.JValue) : bool :=
  match v with
  | Some (Js.JStr s) => String.eqb s name
  | _ => false
  end.

(** [detectEmergency(message, userRole)]; the prompt is the triage
    template around the message, kept here as the message itself. *)
Definition detectEmergency `{Js.Engine} (message : string) : Llm Emergency :=
  if negb (hasEmergencyKeyword message) then Ret (mkEmergency false None None None)
  else
    Invoke message
      (fun reply =>
         Ret (match reply with
              | LlmThrew | LlmParsed Js.JNull =>
                  mkEmergency (hasEmergencyKeyword message) (Some (Js.JStr "HIGH"))
                    (Some (Js.JStr "Keyword detected")) None
              | LlmParsed result =>
                  let level := Js.get_opt (Some result) "level" in
                  mkEmergency (is_level "CRITICAL" level || is_level "HIGH" level) level
                    (Js.get_opt (Some result) "reasoning")
                    (Js.get_opt (Some result) "urgentAdvice")
              end)).

(** ** Runs of the server *)

(** What happens to the server, one handler (or one part of a handler
    cut at an [await], or one timer callback) at a time. *)
Inductive Event :=
| Connect (sid : SocketId)
| JoinRoom (sid : SocketId) (p : JoinPayload)
| Chat (sid : SocketId) (roomId message : string) (avatarUrl : option string) (now : Z)
| AiReply (req : AiRequest) (reply : option string) (now : Z)
| Upload (body : UploadBody) (file : option UploadedFile) (res : UploadResults) (now : Z)
| Fire (t : Timer) (now : Z)
| StartVideo (sid : SocketId) (roomId : string)
| JoinVideo (sid : SocketId) (roomId peerId : string)
| EndVideo (sid : SocketId) (roomId : string)
| LeaveVideo (sid : SocketId) (roomId peerId : string)
| Typing (sid : SocketId) (roomId : string)
| RequestDocumentation (sid : SocketId) (roomId : string) (reply : option string)
| Disconnect (sid : SocketId)
| CreateRoom (doctorEmail patientEmail : option string) (roomHash : string) (now : Z)
| DeleteRoom (hash : string) (doctorEmail : option string).

(** One event: the state after it and what it emitted.  A handler that
    throws stops there: the state and the events are those of the point
    where it threw. *)
Definition step `{Js.Engine} (st : State) (e : Event) : State * list Emit :=
  match e with
  | Connect sid => (connect st sid, [])
  | JoinRoom sid p => join_room st sid p
  | Chat sid roomId message avatarUrl now =>
      match chat_message st sid roomId message avatarUrl now with
      | Some out => (chat_state out, chat_emits out)
      | None => (st, [])
      end
  | AiReply req reply now => default (st, []) (ai_reply st req reply now)
  | Upload body file res now =>
      let out := upload st body file res now in (up_state out, up_emits out)
  | Fire t now => default (st, []) (fire st t now)
  | StartVideo sid roomId => start_video_call st sid roomId
  | JoinVideo sid roomId peerId => join_video_call st sid roomId peerId
  | EndVideo sid roomId => end_video_call st sid roomId
  | LeaveVideo sid roomId peerId => leave_video_call st sid roomId peerId
  | Typing sid roomId => (st, typing st sid roomId)
  | RequestDocumentation sid roomId reply => (st, request_documentation st sid roomId reply)
  | Disconnect sid => disconnect st sid
  | CreateRoom d p h now => ((create_room st d p h now).1, [])
  | DeleteRoom h d => let '(st', emits, _) := delete_room st h d in (st', emits)
  end.

(** An event as a connection receives it: the connection, its role in
    [users] when the event is sent, and the payload. *)
Record Delivery := mkDelivery {
  to : SocketId;
  to_role : option string;
  what : Payload
}.

Definition deliver (st : State) (e : Emit) : list Delivery :=
  (fun sid => mkDelivery sid (User.role <$> Obj.get (users st) sid) (payload e))
    <$> recipients st (target e).

Definition deliveries (st : State) (emits : list Emit) : list Delivery :=
  flat_map (deliver st) emits.

(** A run from a state: the final state and everything delivered, in
    order. *)
Fixpoint run `{Js.Engine} (st : State) (events : list Event) : State * list Delivery :=
  match events with
  | [] => (st, [])
  | e :: rest =>
      let '(st1, emits) := step st e in
      let '(st2, log) := run st1 rest in
      (st2, (deliveries st1 emits ++ log)%list)
  end.

(** The [forRole] tags a payload carries: of an [ai-message], of a
    [chat-message], of each message of a [room-history]. *)
Definition tag_of (m : Message.t) : list string :=
  match Message.forRole m with
  | Some r => if String.eqb r "" then [] else [r]
  | None => []
  end.

Definition forRole_tags (p : Payload) : list string :=
  match p with
  | AiMessage _ forRole _ => if String.eqb forRole "" then [] else [forRole]
  | ChatMessage m => tag_of m
  | RoomHistory messages _ => flat_map tag_of messages
  | _ => []
  end.

(** A delivery breaks role isolation when it carries a tag that is not
    the role of the connection that receives it. *)
Definition breaks_isolation (d : Delivery) : Prop :=
  exists r, r ∈ forRole_tags (what d) /\ to_role d <> Some r.

(** ** Notions the statements use *)

(** The timers of an upload in the order they fire: 500 ms before
    1000 ms. *)
Definition in_firing_order (ts : list Timer) : list Timer :=
  (filter (fun t => delay t = 500) ts ++ filter (fun t => delay t = 1000) ts)%list.

(** An upload followed by its timers, each at its delay after the
    upload, with nothing else in between. *)
Definition upload_events (st : State) (body : UploadBody) (file : option UploadedFile)
    (res : UploadResults) (now : Z) : list Event :=
  Upload body file res now
  :: ((fun t => Fire t (now + delay t))
        <$> in_firing_order (up_timers (upload st body file res now))).

(** The room [roomId] after a run, [Room.fresh] if there is none. *)
Definition room_of (st : State) (roomId : string) : Room.t :=
  default Room.fresh (rooms st !! roomId).

(** The connections bound to [roomId] with role [role], in the order of
    [Object.keys(users)]. *)
Definition bound_with_role (st : State) (roomId role : string) : list SocketId :=
  List.filter
    (fun sid => match Obj.get (users st) sid with
                | Some u => String.eqb (User.roomId u) roomId && String.eqb (User.role u) role
                | None => false
                end)
    (Obj.keys (users st)).

(** The requester of a video-call event is not a doctor: it is not
    bound, or the role it declared is not "doctor". *)
Definition non_doctor (st : State) (sid : SocketId) : Prop :=
  match Obj.get (users st) sid with
  | Some user => User.role user <> "doctor"
  | None => True
  end.

(** ** Invariants and admissible runs *)

(** Every bound connection is in the socket.io room it is bound to. *)
Definition bound_are_members (st : State) : Prop :=
  forall sid u, Obj.get (users st) sid = Some u -> sid ∈ room_members st (User.roomId u).

(** Every message of a log that carries a tag is an AI message. *)
Definition tagged_are_ai (st : State) : Prop :=
  forall roomId room m,
    rooms st !! roomId = Some room ->
    m ∈ Room.messages room ->
    tag_of m <> [] ->
    Message.role m = "AI Assistant".

(** A message that keeps the invariant when it is appended. *)
Definition harmless (m : Message.t) : Prop :=
  tag_of m = [] \/ Message.role m = "AI Assistant".

(** Every connection in the socket.io room named by the id of [sid] is
    bound with the role [role]. *)
Definition reaches_only (st : State) (sid : SocketId) (role : string) : Prop :=
  forall s,
    s ∈ room_members st (socket_id sid) ->
    (User.role <$> Obj.get (users st) s) = Some role.

(** The event makes its handler write a room property onto an object
    of the runtime: the slot of a join-room or of a disconnect, the
    metrics of an analysed upload, the call flag of a start or an end. *)
Definition writes_runtime_object (st : State) (e : Event) : bool :=
  match e with
  | JoinRoom _ p => reads_runtime_object st (join_roomId p)
  | Upload body (Some _) res _ =>
      match body_roomId body with
      | Some roomId => reads_runtime_object st roomId && analysable (extracted res)
      | None => false
      end
  | StartVideo sid roomId | EndVideo sid roomId =>
      match Obj.get (users st) sid with
      | Some user => is_doctor (User.role user) && reads_runtime_object st roomId
      | None => false
      end
  | Disconnect sid =>
      match Obj.get (users st) sid with
      | Some user => reads_runtime_object st (User.roomId user)
      | None => false
      end
  | _ => false
  end.

(** The places where a tagged message is sent to the socket.io room of
    a connection's id: the reply to an "@ai" message, sent to the room of
    the connection that asked, tagged with the role it had then; the
    notice of the 500 ms timer, sent to the room of the first connection
    of the consultation room that goes by the uploader's nickname; and the
    analysis of the 1000 ms timer, sent to the room of the first doctor of
    the consultation room.  An event is admissible when every connection
    in that room has the role of the tag, and when its handler writes
    nothing onto an object of the runtime: the state does not hold what is
    written there, so what later handlers read from such an object is
    described for the runs without such a write only. *)
Definition admissible (st : State) (e : Event) : Prop :=
  writes_runtime_object st e = false /\
  match e with
  | AiReply req _ _ => reaches_only st (ai_socket req) (ai_role req)
  | Fire (PatientNotice roomId uploadedBy _) _ =>
      forall sid,
        Obj.find_key
          (fun u => bool_decide (Some (User.nickname u) = uploadedBy)
                    && String.eqb (User.roomId u) roomId)
          (users st) = Some sid ->
        reaches_only st sid "patient"
  | Fire (DoctorAnalysis roomId _) _ =>
      forall sid,
        Obj.find_key
          (fun u => String.eqb (User.roomId u) roomId && is_doctor (User.role u))
          (users st) = Some sid ->
        reaches_only st sid "doctor"
  | _ => True
  end.

Fixpoint admissible_run `{Js.Engine} (st : State) (events : list Event) : Prop :=
  match events with
  | [] => True
  | e :: rest => admissible st e /\ admissible_run (step st e).1 rest
  end.

(** ** A consultation used in the examples *)

Module Ex.

Definition D : SocketId := Sid "kq3ZtW8xYb1LmN0pAAAB".
Definition P : SocketId := Sid "Xr7Gd2sVhQ9EoKc4AAAD".
Definition D2 : SocketId := Sid "b5TnJw6uRy3CfMa8AAAF".

Definition room : string := "room_1718000000000".

Definition doctor_join : JoinPayload :=
  mkJoin room "Alex" "doctor" None (Some "alex@clinic.example").
Definition patient_join : JoinPayload :=
  mkJoin room "Alex" "patient" None (Some "alex@mail.example").
Definition second_doctor_join : JoinPayload :=
  mkJoin room "Dr Rao" "doctor" None (Some "rao@clinic.example").

Definition report : UploadedFile :=
  mkUploadedFile "cbc.txt" "/srv/uploads/1718000001000-cbc.txt"
    "1718000001000-cbc.txt" "text/plain".

Definition by_patient : UploadBody :=
  mkUploadBody (Some room) (Some "Alex") (Some "patient").

Definition parsed_metrics : Js.JValue :=
  Js.JObj
    [("vitals", Js.JObj [("heartRate", Js.JObj [("value", Js.JNum 96)])]);
     ("diagnosis", Js.JObj [("primary", Js.JStr "Anaemia"); ("riskLevel", Js.JStr "medium")]);
     ("keyFindings",
      Js.JArr [Js.JObj [("parameter", Js.JStr "Hemoglobin"); ("value", Js.JStr "9.1 g/dL")]] []);
     ("recommendations", Js.JArr [Js.JStr "Iron studies"] [])].

Definition first_results : UploadResults :=
  mkUploadResults "Hemoglobin 9.1 g/dL (low); WBC 14.2" "Anaemia with leukocytosis"
    (LlmParsed parsed_metrics).

Definition second_results : UploadResults :=
  mkUploadResults "Follow-up: Hemoglobin 10.4 g/dL" "Haemoglobin is recovering" LlmThrew.

(** The doctor and then the patient join. *)
Definition both_joined : State :=
  (run initial [Connect D; JoinRoom D doctor_join; Connect P; JoinRoom P patient_join]).1.

(** Only the patient has joined. *)
Definition patient_alone : State :=
  (run initial [Connect P; JoinRoom P patient_join]).1.

(** Two connections have joined as doctor, [D2] last. *)
Definition two_doctors : State :=
  (run initial [Connect D; JoinRoom D doctor_join; Connect D2; JoinRoom D2 second_doctor_join]).1.

(** A room booked over HTTP for a doctor and a patient, and a
    connection that joins it as "doctor" under another e-mail. *)
Definition booked : State :=
  (create_room initial (Some "Rao@Clinic.example") (Some "alex@mail.example")
     "5d41402abc4b2a76b9719d911017c592" 1718000000000).1.

Definition stranger_join : JoinPayload :=
  mkJoin room "Sam" "doctor" None (Some "sam@elsewhere.example").

Definition stranger_joined : State :=
  (run booked [Connect D2; JoinRoom D2 stranger_join]).1.

Definition t_upload : Z := 1718000001000.

(** The patient uploads a report while alone in the room; the timers
    of the upload fire; the doctor joins afterwards. *)
Definition upload_while_alone : list Event :=
  upload_events patient_alone by_patient (Some report) first_results t_upload.

Definition doctor_joins_later : list Event :=
  (upload_while_alone ++ [Connect D; JoinRoom D doctor_join])%list.

(** The patient uploads the report while both are in the room. *)
Definition upload_with_both : list Event :=
  upload_events both_joined by_patient (Some report) first_results t_upload.

Definition emergency_text : string := "chest pain, can't breathe".

End Ex.

(** ** The analysis calls of an upload *)

(** An element of [previousReports]. *)
Record Report := mkReport {
  report_name : string;
  report_date : Z;
  report_keyFindings : string;
  report_content : string
}.

(** [extractTemporalData(room)] *)
Definition extractTemporalData (room : Room.t) : list Report :=
  if (length (Room.files room) <? 2)%nat then []
  else
    (fun f =>
       mkReport (FileInfo.name f) (FileInfo.uploadedAt f)
         (if String.eqb (FileInfo.analysis f) "" then "No analysis"
          else Js.substring0 200 (FileInfo.analysis f))
         (Js.substring0 500 (FileInfo.content f)))
    <$> Room.files room.

(** What a text prompt is built from; the wording around it is fixed. *)
Inductive Prompt :=
| XaiPrompt (fileName content : string) (previousReports : list Report)
| TemporalPrompt (fileName content : string) (previousReports : list Report)
| DocPrompt (conversationHistory filesSummary : string).

(** A computation that may call the language model for a text and go
    on with the reply ([None]: the call threw). *)
Inductive Ask (A : Type) :=
| Answer (a : A)
| Call (prompt : Prompt) (k : option string -> Ask A).
Arguments Answer {A} a.
Arguments Call {A} prompt k.

(** Running it against a model: the result and the prompts sent, in
    order. *)
Fixpoint run_ask {A : Type} (model : Prompt -> option string) (c : Ask A) : A * list Prompt :=
  match c with
  | Answer a => (a, [])
  | Call prompt k =>
      let '(a, calls) := run_ask model (k (model prompt)) in (a, prompt :: calls)
  end.

(** [analyzeFileWithXAI(content, fileName, previousReports)] *)
Definition analyzeFileWithXAI (content fileName : string) (previousReports : list Report)
  : Ask string :=
  Call (XaiPrompt fileName (Js.substring0 3000 content) previousReports)
    (fun reply => Answer (default "Unable to analyze with full explainability." reply)).

(** [performTemporalAnalysis(currentContent, fileName, room)] *)
Definition performTemporalAnalysis (currentContent fileName : string) (room : Room.t)
  : Ask string :=
  let previousReports := extractTemporalData room in
  if (length previousReports =? 0)%nat then analyzeFileWithXAI currentContent fileName []
  else
    Call (TemporalPrompt fileName (Js.substring0 2000 currentContent) previousReports)
      (fun reply =>
         match reply with
         | Some analysis => Answer analysis
         | None => analyzeFileWithXAI currentContent fileName previousReports
         end).

(** The analysis of an upload whose content is analysed: the choice
    between the two functions made by [POST /upload]. *)
Definition upload_analysis (st : State) (roomId fileName content : string) : Ask string :=
  match rooms st !! roomId with
  | Some room => performTemporalAnalysis content fileName room
  | None => analyzeFileWithXAI content fileName []
  end.

(** ** Text extraction *)

(** What the readers of the four formats return for the file at hand;
    [None] when the reader throws. *)
Record Readers := mkReaders {
  pdf_text : option string;
  word_text : option string;
  plain_text : option string;
  ocr_text : option string
}.

(** [extractTextFromImage(imagePath)] *)
Definition extractTextFromImage `{Js.Engine} (r : Readers) : string :=
  match ocr_text r with
  | Some text => Js.trim text
  | None => ""
  end.

(** [extractFileContent(filePath, mimeType)] *)
Definition extractFileContent `{Js.Engine} (r : Readers) (mimeType : string) : string :=
  if String.eqb mimeType "application/pdf" then default "[Extraction failed]" (pdf_text r)
  else if Js.includes "word" mimeType || Js.includes "document" mimeType
       then default "[Extraction failed]" (word_text r)
  else if Js.includes "text" mimeType then default "[Extraction failed]" (plain_text r)
  else if Js.includes "image" mimeType then
    let ocrText := extractTextFromImage r in
    if (10 <? String.length ocrText)%nat then ocrText else "[Image - no text detected]"
  else "[Unsupported format]".

(** ** Clinical documentation *)

(** [room.messages.filter(...).map(...).join('\n')] *)
Definition conversationHistory (room : Room.t) : string :=
  String.concat Js.nl
    ((fun m => Message.role m ++ ": " ++ Message.content m)
     <$> List.filter
           (fun m => String.eqb (Message.role m) "Patient"
                     || String.eqb (Message.role m) "Doctor")
           (Room.messages room)).

(** [room.files.map(...).join('\n')] *)
Definition filesSummary (room : Room.t) : string :=
  String.concat Js.nl
    ((fun f => "- " ++ FileInfo.name f ++ ": "
               ++ (if String.eqb (FileInfo.analysis f) "" then "No analysis"
                   else FileInfo.analysis f))
     <$> Room.files room).

(** [generateClinicalDocumentation(roomId)]; [None] is [null]. *)
Definition generateClinicalDocumentation (st : State) (roomId : string) : Ask (option string) :=
  match rooms st !! roomId with
  | None => Answer None
  | Some room =>
      Call (DocPrompt (conversationHistory room) (filesSummary room))
        (fun reply => Answer reply)
  end.

(** Sequencing of such computations. *)
Fixpoint ask_bind {A B : Type} (c : Ask A) (f : A -> Ask B) : Ask B :=
  match c with
  | Answer a => f a
  | Call prompt k => Call prompt (fun reply => ask_bind (k reply) f)
  end.

(** [socket.on("request-documentation")] with its model call. *)
Definition request_documentation_ask (st : State) (sid : SocketId) (roomId : string)
  : Ask (list Emit) :=
  ask_bind (generateClinicalDocumentation st roomId)
    (fun documentation =>
       Answer (if Js.truthy_str documentation
               then [mkEmit (ToSocket sid) (DocumentationGenerated (default "" documentation))]
               else [])).

(** ** The user store (src/user-service/index.js) *)

Module UserService.

(** A record of [users.json].  The service writes no [password]
    property; a file written by hand may hold one. *)
Record UserRecord := mkUser {
  id : string;
  email : string;
  password : option string;
  password_hash : option string;
  role : string;
  full_name : string;
  avatar_url : option string;
  created_at : Z
}.

(** [users.json]: absent, not parsable, or an array of records. *)
Inductive Store :=
| Missing
| Unparsable
| Users (users : list UserRecord).

(** [readUsers()] *)
Definition readUsers (store : Store) : list UserRecord :=
  match store with
  | Users users => users
  | _ => []
  end.

Definition same_email `{Js.Engine} (a b : string) : bool :=
  String.eqb (Js.toLowerCase a) (Js.toLowerCase b).

(** [email.split('@')[0]] *)
Fixpoint before_at (s : string) : string :=
  match s with
  | EmptyString => EmptyString
  | String c t => if Ascii.eqb c "@"%char then EmptyString else String c (before_at t)
  end.

Inductive Reply :=
| Ok200 (user : UserRecord)
| Created201 (user : UserRecord)
| Bad400 (error : string)
| NotFound404 (error : string)
| Conflict409 (error : string).

(** [GET /users?email=] *)
Definition get_user `{Js.Engine} (store : Store) (email : option string) : Reply :=
  if negb (Js.truthy_str email) then Bad400 "Email required"
  else
    match List.find (fun u => same_email (UserService.email u) (default "" email))
            (readUsers store) with
    | Some user => Ok200 user
    | None => NotFound404 "User not found"
    end.

(** [req.body] of [POST /users]. *)
Record NewUser := mkNewUser {
  new_email : option string;
  new_password_hash : option string;
  new_role : option string;
  new_full_name : option string;
  new_avatar_url : option string
}.

(** [POST /users] at [Date.now() = now]: the file afterwards and the
    answer. *)
Definition create_user `{Js.Engine} (store : Store) (body : NewUser) (now : Z)
  : Store * Reply :=
  if negb (Js.truthy_str (new_email body)) || negb (Js.truthy_str (new_password_hash body))
     || negb (Js.truthy_str (new_role body))
  then (store, Bad400 "Missing fields")
  else
    let email := default "" (new_email body) in
    let users := readUsers store in
    match List.find (fun u => same_email (UserService.email u) email) users with
    | Some _ => (store, Conflict409 "User already exists")
    | None =>
        let newUser :=
          mkUser (Js.decimal now) email None (new_password_hash body)
            (default "" (new_role body))
            (Js.or_lit (new_full_name body) (before_at email))
            (new_avatar_url body) now in
        (Users (users ++ [newUser]), Created201 newUser)
    end.

End UserService.

(** ** The authentication routes (the router at the end of src/server/index.js) *)

Module Auth.
Import UserService.

(** [getUser(email)]: the user of a 2xx answer, [null] otherwise. *)
Definition getUser `{Js.Engine} (store : Store) (email : string) : option UserRecord :=
  match get_user store (Some email) with
  | Ok200 user => Some user
  | _ => None
  end.

(** [createUser(userData)]: the route posts [email], [password], [role]
    and [full_name]; the body it sends has no [password_hash].  [None]
    when it throws (the answer is not 2xx). *)
Definition createUser `{Js.Engine} (store : Store) (email role : option string)
    (full_name : option string) (now : Z) : Store * option UserRecord :=
  match create_user store (mkNewUser email None role full_name None) now with
  | (store', Created201 user) => (store', Some user)
  | (store', _) => (store', None)
  end.

Inductive Response :=
| Registered (token : string) (user : UserRecord)
| LoggedIn (token : string) (user : UserRecord)
| Error400 (error : string)
| Error401 (error : string)
| Error500 (error : string).

(** [req.body] of the two routes. *)
Record Credentials := mkCredentials {
  cred_email : option string;
  cred_password : option string;
  cred_role : option string;
  cred_full_name : option string
}.

(** [POST /register]; [token] is what [jwt.sign] returns. *)
Definition register `{Js.Engine} (store : Store) (body : Credentials) (token : string)
    (now : Z)
  : Store * Response :=
  if negb (Js.truthy_str (cred_email body)) || negb (Js.truthy_str (cred_password body))
     || negb (Js.truthy_str (cred_role body))
  then (store, Error400 "Missing required fields")
  else
    match getUser store (default "" (cred_email body)) with
    | Some _ => (store, Error400 "User already exists")
    | None =>
        match createUser store (cred_email body) (cred_role body) (cred_full_name body) now with
        | (store', Some newUser) => (store', Registered token newUser)
        | (store', None) => (store', Error500 "Server error")
        end
    end.

(** [delete userResponse.password] *)
Definition without_password (u : UserRecord) : UserRecord :=
  mkUser (id u) (email u) None (password_hash u) (role u) (full_name u)
    (avatar_url u) (created_at u).

(** [POST /login] *)
Definition login `{Js.Engine} (store : Store) (body : Credentials) (token : string)
  : Response :=
  if negb (Js.truthy_str (cred_email body)) || negb (Js.truthy_str (cred_password body))
  then Error400 "Email and password required"
  else
    match getUser store (default "" (cred_email body)) with
    | None => Error401 "Invalid credentials"
    | Some user =>
        if negb (bool_decide (password user = cred_password body))
        then Error401 "Invalid credentials"
        else LoggedIn token (without_password user)
    end.

End Auth.

(** ** How an event changes a room *)

(** The writes of the handlers to one entry of [rooms], by event: the
    key of the entry, what the entry was ([None]: no such room) and what it
    becomes. *)
Inductive RoomChange (st : State) : Event -> string -> option Room.t -> Room.t -> Prop :=
| change_join sid p old :
    RoomChange st (JoinRoom sid p) (join_roomId p) old
      (if is_patient (join_role p)
       then Room.set_patient (Some (join_nickname p)) (join_avatarUrl p)
              (default Room.fresh old)
       else Room.set_doctor (Some (join_nickname p)) (join_avatarUrl p)
              (default Room.fresh old))
| change_chat sid roomId message avatarUrl now room m :
    RoomChange st (Chat sid roomId message avatarUrl now) roomId (Some room)
      (Room.push_message m room)
| change_reply req reply now room m :
    RoomChange st (AiReply req reply now) (ai_roomId req) (Some room)
      (Room.push_message m room)
| change_timer t now roomId room m :
    RoomChange st (Fire t now) roomId (Some room) (Room.push_message m room)
| change_upload body file res now roomId room f m metrics :
    RoomChange st (Upload body file res now) roomId (Some room)
      (Room.push_message m
         (Room.push_file f
            (if analysable (extracted res) then Room.set_healthMetrics metrics room else room)))
| change_start sid roomId room user :
    Obj.get (users st) sid = Some user ->
    User.role user = "doctor" ->
    RoomChange st (StartVideo sid roomId) roomId (Some room) (Room.set_video true [] room)
| change_end sid roomId room user :
    Obj.get (users st) sid = Some user ->
    User.role user = "doctor" ->
    RoomChange st (EndVideo sid roomId) roomId (Some room) (Room.set_video false [] room)
| change_video_join sid roomId peerId room :
    RoomChange st (JoinVideo sid roomId peerId) roomId (Some room)
      (Room.set_video (Room.videoCallActive room)
         (if bool_decide (peerId ∈ Room.videoParticipants room)
          then Room.videoParticipants room
          else (Room.videoParticipants room ++ [peerId])%list)
         room)
| change_video_leave sid roomId peerId room :
    RoomChange st (LeaveVideo sid roomId peerId) roomId (Some room)
      (Room.set_video (Room.videoCallActive room)
         (filter (fun id => id ≠ peerId) (Room.videoParticipants room)) room)
| change_disconnect sid roomId room role :
    RoomChange st (Disconnect sid) roomId (Some room)
      (if is_patient role then Room.set_patient None None room
       else Room.set_doctor None None room)
| change_create d p h now old patientEmail doctorEmail :
    RoomChange st (CreateRoom d p h now) ("room_" ++ Js.decimal now) old
      (Room.mk [] [] None None None None Js.JNull patientEmail doctorEmail false []).

(** The events that can replace or remove a room. *)
Definition resets_rooms (e : Event) : bool :=
  match e with
  | CreateRoom _ _ _ _ | DeleteRoom _ _ => true
  | _ => false
  end.

(** No peer id is twice in a roster. *)
Definition rosters_have_no_duplicates (st : State) : Prop :=
  forall roomId room, rooms st !! roomId = Some room -> NoDup (Room.videoParticipants room).

(** The counters of the rate limiter are within the limit. *)
Definition counts_bounded (cfg : RateLimit.Config) (limits : gmap string RateLimit.Limit) : Prop :=
  forall ip l,
    limits !! ip = Some l ->
    1 <= RateLimit.count l <= Z.max 1 (RateLimit.RATE_LIMIT_MAX cfg).

(** ** The room lists *)

(** An element of the answer of the two room lists: [otherEmail] is
    [patientEmail] in the doctor's list and [doctorEmail] in the
    patient's; [present] is [hasPatientJoined], respectively
    [isDoctorOnline]. *)
Record RoomEntry := mkRoomEntry {
  entry_hash : string;
  entry_roomId : string;
  entry_otherEmail : string;
  entry_createdAt : Z;
  entry_present : bool;
  entry_inviteLink : string
}.

(** [rooms[roomId]?.slot !== null]: a room that does not exist gives
    [undefined], which is not [null]. *)
Definition slot_not_null (slot : Room.t -> option string) (st : State) (roomId : string)
  : bool :=
  match rooms st !! roomId with
  | Some room => bool_decide (slot room <> None)
  | None => true
  end.

(** [GET /api/doctor-rooms].  The answer lists the invitations in the
    order of [Object.entries]; the map of the model does not keep that
    order, the list here is in the order of its keys. *)
Definition doctor_rooms `{Js.Engine} (st : State) (email : option string)
  : list RoomEntry :=
  (fun '(hash, inv) =>
     mkRoomEntry hash (Invitation.roomId inv) (Invitation.patientEmail inv)
       (Invitation.createdAt inv) (slot_not_null Room.patient st (Invitation.roomId inv))
       ("/chat/" ++ hash))
  <$> List.filter
        (fun '(_, inv) =>
           bool_decide (Some (Invitation.doctorEmail inv) = (Js.toLowerCase <$> email)))
        (map_to_list (roomInvitations st)).

(** [GET /api/patient-rooms]; [None] is the 400 answer. *)
Definition patient_rooms `{Js.Engine} (st : State) (email : option string)
  : option (list RoomEntry) :=
  if negb (Js.truthy_str email) then None
  else
    Some
      ((fun '(hash, inv) =>
          mkRoomEntry hash (Invitation.roomId inv) (Invitation.doctorEmail inv)
            (Invitation.createdAt inv) (slot_not_null Room.doctor st (Invitation.roomId inv))
            ("/chat/" ++ hash))
       <$> List.filter
             (fun '(_, inv) =>
                bool_decide (Some (Invitation.patientEmail inv) = (Js.toLowerCase <$> email)))
             (map_to_list (roomInvitations st))).

(** ** Predicates on the user store *)

(** The e-mail addresses of the store are pairwise different, up to
    the case of their letters. *)
Definition unique_emails `{Js.Engine} (store : UserService.Store) : Prop :=
  NoDup ((fun u => Js.toLowerCase (UserService.email u)) <$> UserService.readUsers store).

(** What [POST /users] writes: records without a [password]
    property. *)
Definition service_written (store : UserService.Store) : Prop :=
  Forall (fun u => UserService.password u = None) (UserService.readUsers store).

(** ** Further examples *)

Module ExMore.

(** A scan in which the OCR finds nothing but blanks. *)
Definition scan : UploadedFile :=
  mkUploadedFile "xray.png" "/srv/uploads/1718000002000-xray.png"
    "1718000002000-xray.png" "image/png".

Definition blank_scan : Readers := mkReaders None None None (Some "   ").

Definition scan_results : UploadResults :=
  mkUploadResults (extractFileContent blank_scan (mimetype scan)) "" LlmThrew.

(** A metrics reply whose [keyFindings] is a text, not an array. *)
Definition findings_as_text : UploadResults :=
  mkUploadResults "Hemoglobin 9.1 g/dL (low); WBC 14.2" "Anaemia with leukocytosis"
    (LlmParsed (Js.JObj [("keyFindings", Js.JStr "none of note")])).

(** An upload into a room nobody has created. *)
Definition no_such_room : UploadBody :=
  mkUploadBody (Some "room_0") (Some "Alex") (Some "patient").


(** A model that fails on the comparison prompt and answers the
    other prompts. *)
Definition no_comparison (p : Prompt) : option string :=
  match p with
  | TemporalPrompt _ _ _ => None
  | _ => Some "Stable compared with the earlier report"
  end.

(** [Ex.both_joined] with a third connection that has not joined a
    room. *)
Definition with_idle : State := (run Ex.both_joined [Connect Ex.D2]).1.

Definition ai_question : string := "@ai is my haemoglobin low?".

(** The patient asks the AI; afterwards the third connection joins
    the room as a doctor. *)
Definition question_then_join : list Event :=
  [Chat Ex.P Ex.room ai_question None 1718000002000;
   JoinRoom Ex.D2 Ex.second_doctor_join].

(** A join-room whose room id names a property of
    [Object.prototype]. *)
Definition prototype_join : JoinPayload :=
  mkJoin "constructor" "Sam" "doctor" None (Some "sam@elsewhere.example").

(** A join-room whose room id is the id of the doctor's connection. *)
Definition listener_join : JoinPayload :=
  mkJoin (socket_id Ex.D) "Kim" "patient" None (Some "kim@mail.example").

(** The doctor and the patient are in the room, and the third
    connection has joined the socket.io room of the doctor's id. *)
Definition with_listener : State :=
  (run Ex.both_joined [Connect Ex.D2; JoinRoom Ex.D2 listener_join]).1.

Definition registration : UserService.NewUser :=
  UserService.mkNewUser (Some "Rao@Clinic.example") (Some "$2a$10$N9qo8uLOickgx2ZMRZoMye")
    (Some "doctor") None None.

Definition sign_up : Auth.Credentials :=
  Auth.mkCredentials (Some "rao@clinic.example") (Some "s3cret") (Some "doctor")
    (Some "Dr Rao").

End ExMore.

(** * Theorems *)

(** ** The rate limiter *)

Module RateLimitFacts.
Import RateLimit.

Section Facts.
Variable cfg : Config.

Lemma check_other limits ip ip' now :
  ip' <> ip -> (checkSocketRateLimit cfg limits ip' now).1 !! ip = limits !! ip.
Proof.
  intros Hne. unfold checkSocketRateLimit.
  destruct (limits !! ip') as [l|]; simpl.
  - destruct (resetTime l <? now); simpl.
    + by rewrite lookup_insert_ne.
    + destruct (RATE_LIMIT_MAX cfg <=? count l); simpl; [done|].
      by rewrite lookup_insert_ne.
  - by rewrite lookup_insert_ne.
Qed.

Lemma check_fresh limits ip now :
  fresh_at limits ip now ->
  checkSocketRateLimit cfg limits ip now
    = (<[ip := {| count := 1; resetTime := now + RATE_LIMIT_WINDOW_MS cfg |}]> limits, true).
Proof.
  unfold fresh_at, checkSocketRateLimit. destruct (limits !! ip) as [l|]; [|done].
  intros H. apply Z.ltb_lt in H. by rewrite H.
Qed.

Lemma check_inside limits ip now c reset :
  limits !! ip = Some {| count := c; resetTime := reset |} ->
  now <= reset ->
  checkSocketRateLimit cfg limits ip now
    = if RATE_LIMIT_MAX cfg <=? c then (limits, false)
      else (<[ip := {| count := c + 1; resetTime := reset |}]> limits, true).
Proof.
  intros Hl Hnow. unfold checkSocketRateLimit. rewrite Hl. simpl.
  destruct (reset <? now) eqn:Hr; [lia|done].
Qed.

Lemma run_cons limits ip now rest :
  run cfg limits ((ip, now) :: rest)
    = ((run cfg (checkSocketRateLimit cfg limits ip now).1 rest).1,
       (checkSocketRateLimit cfg limits ip now).2
         :: (run cfg (checkSocketRateLimit cfg limits ip now).1 rest).2).
Proof.
  simpl. destruct (checkSocketRateLimit cfg limits ip now) as [l1 ok].
  simpl. by destruct (run cfg l1 rest).
Qed.

Lemma checks_of_cons ip ip' now rest :
  checks_of ip ((ip', now) :: rest)
    = if decide (ip' = ip) then S (checks_of ip rest) else checks_of ip rest.
Proof. unfold checks_of. rewrite filter_cons. simpl. by destruct (decide (ip' = ip)). Qed.

(** Inside a window that has [c] checks on its counter, the next
    [RATE_LIMIT_MAX - c] checks of the source pass and the later ones
    do not; the window itself stays. *)
Lemma run_inside_window ip reset reqs : forall limits c,
  limits !! ip = Some {| count := c; resetTime := reset |} ->
  within ip reset reqs ->
  answers_for ip reqs (run cfg limits reqs).2
    = (repeat true (checks_of ip reqs `min` Z.to_nat (RATE_LIMIT_MAX cfg - c))
       ++ repeat false (checks_of ip reqs - Z.to_nat (RATE_LIMIT_MAX cfg - c)))%list
  /\ (run cfg limits reqs).1 !! ip
     = Some {| count := c + Z.of_nat (checks_of ip reqs `min` Z.to_nat (RATE_LIMIT_MAX cfg - c));
               resetTime := reset |}.
Proof.
  induction reqs as [|[ip' now] reqs IH]; intros limits c Hl Hw.
  - simpl. split; [done|]. rewrite Hl. do 2 f_equal. cbn. lia.
  - apply Forall_cons in Hw as [Hnow Hw]. simpl in Hnow.
    rewrite run_cons, checks_of_cons. cbn [fst snd answers_for].
    destruct (decide (ip' = ip)) as [->|Hne].
    + specialize (Hnow eq_refl).
      rewrite (check_inside _ _ _ _ _ Hl Hnow).
      destruct (RATE_LIMIT_MAX cfg <=? c) eqn:Hc; cbn [fst snd].
      * destruct (IH limits c Hl Hw) as [IH1 IH2]. rewrite IH1, IH2.
        replace (Z.to_nat (RATE_LIMIT_MAX cfg - c)) with 0%nat by lia.
        rewrite !Nat.min_0_r, !Nat.sub_0_r. simpl. done.
      * assert (Hl' : <[ip := {| count := c + 1; resetTime := reset |}]> limits !! ip
                      = Some {| count := c + 1; resetTime := reset |})
          by apply lookup_insert_eq.
        destruct (IH _ _ Hl' Hw) as [IH1 IH2]. rewrite IH1, IH2.
        replace (Z.to_nat (RATE_LIMIT_MAX cfg - c))
          with (S (Z.to_nat (RATE_LIMIT_MAX cfg - (c + 1)))) by lia.
        simpl. split; [done|]. do 2 f_equal. lia.
    + pose proof (check_other limits ip ip' now Hne) as Ho.
      rewrite <- Ho in Hl.
      destruct (IH _ c Hl Hw) as [IH1 IH2]. by rewrite IH1, IH2.
Qed.

(** [parseInt(env) || 10] is positive unless the environment sets a
    negative limit. *)
Lemma config_limit_positive max window :
  (forall n, max = Some n -> 0 <= n) ->
  1 <= RATE_LIMIT_MAX (config_of_env max window).
Proof.
  intros H. unfold config_of_env, env_or. simpl.
  destruct max as [[|n|n]|]; try lia. specialize (H _ eq_refl). lia.
Qed.

(** C9. The fixed-window limiter admits exactly [RATE_LIMIT_MAX]
    checks of one source per window.  Take a positive limit, a source
    [ip] whose check at [t0] opens a window (it has no entry, or its
    reset time has passed), and any run that follows in which every
    check of [ip] is made by the reset time [t0 + RATE_LIMIT_WINDOW_MS],
    interleaved at will with checks of other sources.  Then the answers
    to [ip] are [true] for its first [RATE_LIMIT_MAX] checks and
    [false] for every later one, the [(RATE_LIMIT_MAX + 1)]-th included;
    and a check of [ip] after the reset time is allowed again and opens
    a window with the counter at 1. *)
Theorem limiter_admits_exactly_max limits ip t0 rest t :
  1 <= RATE_LIMIT_MAX cfg ->
  fresh_at limits ip t0 ->
  within ip (t0 + RATE_LIMIT_WINDOW_MS cfg) rest ->
  t0 + RATE_LIMIT_WINDOW_MS cfg < t ->
  let reqs := (ip, t0) :: rest in
  let n := checks_of ip reqs in
  let after := (run cfg limits reqs).1 in
  answers_for ip reqs (run cfg limits reqs).2
    = (repeat true (n `min` Z.to_nat (RATE_LIMIT_MAX cfg))
       ++ repeat false (n - Z.to_nat (RATE_LIMIT_MAX cfg)))%list
  /\ checkSocketRateLimit cfg after ip t
     = (<[ip := {| count := 1; resetTime := t + RATE_LIMIT_WINDOW_MS cfg |}]> after, true).
Proof.
  intros Hmax Hfresh Hw Ht reqs n after. subst reqs n after.
  rewrite run_cons, checks_of_cons, (check_fresh _ _ _ Hfresh).
  cbn [fst snd answers_for]. destruct (decide (ip = ip)); [|done].
  set (l1 := <[ip := _]> limits).
  assert (Hl1 : l1 !! ip = Some {| count := 1; resetTime := t0 + RATE_LIMIT_WINDOW_MS cfg |})
    by apply lookup_insert_eq.
  destruct (run_inside_window ip _ rest l1 1 Hl1 Hw) as [H1 H2].
  split.
  - rewrite H1.
    replace (Z.to_nat (RATE_LIMIT_MAX cfg)) with (S (Z.to_nat (RATE_LIMIT_MAX cfg - 1))) by lia.
    done.
  - apply check_fresh. unfold fresh_at. rewrite H2. simpl. lia.
Qed.

End Facts.

(** With the default configuration (10 checks per 6 hours): eleven
    checks of one source in the first hour, then one seven hours in. *)
Lemma limiter_admits_exactly_max_witness :
  answers_for "10.0.0.7"
    (("10.0.0.7", 0) :: ((fun k => ("10.0.0.7", 1000 * k)) <$> [1;2;3;4;5;6;7;8;9;10]))
    (run default_config ∅
       (("10.0.0.7", 0) :: ((fun k => ("10.0.0.7", 1000 * k)) <$> [1;2;3;4;5;6;7;8;9;10]))).2
    = [true;true;true;true;true;true;true;true;true;true;false]
  /\ (checkSocketRateLimit default_config
        (run default_config ∅
           (("10.0.0.7", 0) :: ((fun k => ("10.0.0.7", 1000 * k)) <$> [1;2;3;4;5;6;7;8;9;10]))).1
        "10.0.0.7" 25200000).2
     = true.
Proof.
  assert (Hmax : 1 <= RATE_LIMIT_MAX default_config) by (vm_compute; discriminate).
  assert (Hfresh : fresh_at ∅ "10.0.0.7" 0) by exact I.
  assert (Hw : within "10.0.0.7" (0 + RATE_LIMIT_WINDOW_MS default_config)
                 ((fun k => ("10.0.0.7", 1000 * k)) <$> [1;2;3;4;5;6;7;8;9;10])).
  { unfold within. repeat constructor; simpl; intros _; vm_compute; discriminate. }
  assert (Ht : 0 + RATE_LIMIT_WINDOW_MS default_config < 25200000) by (vm_compute; reflexivity).
  destruct (limiter_admits_exactly_max default_config ∅ "10.0.0.7" 0 _ 25200000
              Hmax Hfresh Hw Ht) as [H1 H2].
  split.
  - rewrite H1. reflexivity.
  - rewrite H2. reflexivity.
Defined.
End RateLimitFacts.

(** ** Strings *)

Module StringFacts.
Import Js.

Lemma prefix_spec a : forall s,
  String.prefix a s = true <-> exists post, s = a ++ post.
Proof.
  induction a as [|c a IH]; intros s.
  - split; [intros _; by exists s | by destruct s].
  - destruct s as [|d s]; simpl.
    + split; [done | intros [post H]; discriminate].
    + destruct (Ascii.ascii_dec c d) as [->|Hne].
      * rewrite IH. split; intros [post H]; exists post; [by rewrite H | by injection H].
      * split; [done | intros [post H]; injection H; congruence].
Qed.

Lemma includes_spec needle : forall hay,
  includes needle hay = true <-> exists pre post, hay = pre ++ needle ++ post.
Proof.
  induction hay as [|c hay IH]; cbn [includes]; rewrite orb_true_iff, prefix_spec.
  - split.
    + intros [[post H]|H]; [by exists "", post | done].
    + intros [pre [post H]]. left. destruct pre; [by exists post | discriminate].
  - rewrite IH. split.
    + intros [[post H]|[pre [post H]]]; [by exists "", post|].
      exists (String c pre), post. simpl. by rewrite H.
    + intros [pre [post H]]. destruct pre as [|d pre]; simpl in H.
      * left. by exists post.
      * right. exists pre, post. by injection H.
Qed.

End StringFacts.

(** ** Objects keyed by connection *)

Module ObjFacts.
Section ObjFacts.
Context {V : Type}.
Implicit Types (o : list (SocketId * V)) (k : SocketId) (v : V).

Lemma get_set_eq o k v : Obj.get (Obj.set o k v) k = Some v.
Proof.
  induction o as [|[k' v'] o IH]; simpl.
  - by rewrite decide_True.
  - destruct (decide (k' = k)) as [->|Hne]; simpl.
    + by rewrite decide_True.
    + by rewrite decide_False.
Qed.

Lemma get_set_ne o k k' v : k' <> k -> Obj.get (Obj.set o k v) k' = Obj.get o k'.
Proof.
  intros Hne. induction o as [|[k0 v0] o IH]; simpl.
  - by rewrite decide_False.
  - destruct (decide (k0 = k)) as [->|Hk]; simpl.
    + rewrite !decide_False; done.
    + by rewrite IH.
Qed.

Lemma get_del_eq o k : Obj.get (Obj.del o k) k = None.
Proof.
  induction o as [|[k' v'] o IH]; simpl; [done|].
  destruct (decide (k' = k)) as [->|Hne]; simpl; [done|].
  by rewrite decide_False.
Qed.

Lemma get_del_ne o k k' : k' <> k -> Obj.get (Obj.del o k) k' = Obj.get o k'.
Proof.
  intros Hne. induction o as [|[k0 v0] o IH]; simpl; [done|].
  destruct (decide (k0 = k)) as [->|Hk]; simpl.
  - by rewrite decide_False.
  - by rewrite IH.
Qed.

Lemma set_elem o k v : (k, v) ∈ Obj.set o k v.
Proof.
  induction o as [|[k' v'] o IH]; simpl; [by left|].
  destruct (decide (k' = k)); [by left | by right].
Qed.

(** [find] returns a key whose value passes the test. *)
Lemma find_key_Some p o k :
  Obj.find_key p o = Some k -> exists v, Obj.get o k = Some v /\ p v = true.
Proof.
  unfold Obj.find_key. intros H. apply find_some in H as [_ H].
  destruct (Obj.get o k) as [v|]; [by exists v | done].
Qed.

(** [find] returns nothing exactly when no key passes the test. *)
Lemma find_key_None p o :
  Obj.find_key p o = None <->
  List.filter (fun k => match Obj.get o k with Some v => p v | None => false end)
    (Obj.keys o) = [].
Proof.
  unfold Obj.find_key. induction (Obj.keys o) as [|k ks IH]; simpl; [done|].
  destruct (match Obj.get o k with Some v => p v | None => false end); [done|apply IH].
Qed.
End ObjFacts.
End ObjFacts.

(** ** Joining and leaving *)

Module PresenceFacts.
Import ObjFacts.

Lemma socket_join_member sid roomId ss :
  exists joined, (sid, joined) ∈ socket_join sid roomId ss /\ roomId ∈ joined.
Proof.
  unfold socket_join. eexists. split; [apply set_elem|].
  case_bool_decide; [done|]. apply elem_of_app. right. by left.
Qed.

(** join-room admits any connection into any room with the role,
    nickname and e-mail the client declares, when the room id does not
    read an object of the runtime.  Whatever the state, the connection
    and the payload: the binding stored for the connection is the payload
    as declared; the room exists afterwards, made from the empty room
    literal when it did not exist; the slot of the declared role (the
    patient slot for "patient", the doctor slot for anything else) holds
    the declared nickname and avatar, whoever wrote it before; the
    connection is in the socket.io room.  The invitation registry is
    neither read nor written, and the declared e-mail changes nothing but
    the stored binding. *)
Lemma join_room_unchecked st sid p :
  reads_runtime_object st (join_roomId p) = false ->
  let st' := (join_room st sid p).1 in
  let before := default Room.fresh (rooms st !! join_roomId p) in
  Obj.get (users st') sid
    = Some (User.mk (join_roomId p) (join_nickname p) (join_role p)
              (join_avatarUrl p) (join_email p))
  /\ rooms st' !! join_roomId p
     = Some (if is_patient (join_role p)
             then Room.set_patient (Some (join_nickname p)) (join_avatarUrl p) before
             else Room.set_doctor (Some (join_nickname p)) (join_avatarUrl p) before)
  /\ (if is_patient (join_role p)
      then Room.patient (room_of st' (join_roomId p)) = Some (join_nickname p)
           /\ Room.patientAvatar (room_of st' (join_roomId p)) = join_avatarUrl p
      else Room.doctor (room_of st' (join_roomId p)) = Some (join_nickname p)
           /\ Room.doctorAvatar (room_of st' (join_roomId p)) = join_avatarUrl p)
  /\ sid ∈ room_members st' (join_roomId p)
  /\ roomInvitations st' = roomInvitations st
  /\ (forall invs,
        join_room (with_invitations invs st) sid p
        = (with_invitations invs st', (join_room st sid p).2))
  /\ (forall email,
        let q := mkJoin (join_roomId p) (join_nickname p) (join_role p)
                   (join_avatarUrl p) email in
        rooms (join_room st sid q).1 = rooms st'
        /\ sockets (join_room st sid q).1 = sockets st'
        /\ (join_room st sid q).2 = (join_room st sid p).2).
Proof.
  intros Hplain st' before. subst st' before. unfold room_of, join_room.
  assert (Hinv : forall invs,
            reads_runtime_object (with_invitations invs st) (join_roomId p) = false)
    by (intros invs; exact Hplain).
  rewrite Hplain. cbn [join_room_plain fst snd rooms users].
  rewrite get_set_eq, lookup_insert_eq. cbn [default].
  repeat split; try done.
  - by destruct (is_patient (join_role p)).
  - unfold room_members. cbn [sockets].
    destruct (socket_join_member sid (join_roomId p) (sockets st)) as (joined & Hin & Hr).
    apply (list_elem_of_fmap_2 fst _ (sid, joined)). apply list_elem_of_filter.
    split; [by left | done].
  - intros invs. by rewrite Hinv.
  - cbn [join_roomId]. by rewrite Hplain.
  - cbn [join_roomId]. by rewrite Hplain.
  - cbn [join_roomId]. by rewrite Hplain.
Qed.

(** C10, at a failing input.  A connection that has not joined a room
    sends join-room with the room id "constructor".  [rooms] has no such
    room, but [rooms["constructor"]] is the function [Object]: the handler
    takes the room for existing and makes none, and it throws before it
    sends the history or the presence event.  The connection is left
    bound to a room that does not exist, and its chat messages throw.  The
    same request with an ordinary room id makes the room and sends both
    events. *)
Theorem join_room_misses_prototype_names :
  rooms ExMore.with_idle !! join_roomId ExMore.prototype_join = None
  /\ rooms (join_room ExMore.with_idle Ex.D2 ExMore.prototype_join).1
     = rooms ExMore.with_idle
  /\ (join_room ExMore.with_idle Ex.D2 ExMore.prototype_join).2 = []
  /\ (User.roomId
        <$> Obj.get (users (join_room ExMore.with_idle Ex.D2 ExMore.prototype_join).1) Ex.D2)
     = Some "constructor"
  /\ chat_message (join_room ExMore.with_idle Ex.D2 ExMore.prototype_join).1 Ex.D2
       "constructor" "Good morning" None 1718000002000 = None
  /\ is_Some
       (rooms (join_room ExMore.with_idle Ex.D2
                 (mkJoin "room_2" "Sam" "doctor" None (Some "sam@elsewhere.example"))).1
          !! "room_2")
  /\ length (join_room ExMore.with_idle Ex.D2
               (mkJoin "room_2" "Sam" "doctor" None (Some "sam@elsewhere.example"))).2
     = 2%nat.
Proof.
  split; [vm_compute; reflexivity|]. split; [vm_compute; reflexivity|].
  split; [vm_compute; reflexivity|]. split; [vm_compute; reflexivity|].
  split; [vm_compute; reflexivity|]. split; [vm_compute; by eexists|].
  vm_compute. reflexivity.
Qed.

(** The slot cleared by a disconnect is fixed by the role alone. *)
Lemma cleared_slots role room :
  let room' := if is_patient role then Room.set_patient None None room
               else Room.set_doctor None None room in
  (if is_patient role
   then Room.patient room' = None /\ Room.patientAvatar room' = None
        /\ Room.doctor room' = Room.doctor room
        /\ Room.doctorAvatar room' = Room.doctorAvatar room
   else Room.doctor room' = None /\ Room.doctorAvatar room' = None
        /\ Room.patient room' = Room.patient room
        /\ Room.patientAvatar room' = Room.patientAvatar room)
  /\ Room.messages room' = Room.messages room
  /\ Room.files room' = Room.files room
  /\ Room.healthMetrics room' = Room.healthMetrics room
  /\ Room.videoCallActive room' = Room.videoCallActive room
  /\ Room.videoParticipants room' = Room.videoParticipants room.
Proof. by destruct (is_patient role). Qed.

(** C7, as the code has it.  When a bound connection whose room exists
    disconnects, the slot of its role (patient for "patient", doctor
    otherwise) and the avatar of that slot are cleared, whichever
    connection wrote them last; the other slot and the rest of the room
    stay; the binding is removed; and one [user-left] event carrying the
    two slots as they now are is sent to the room. *)
Theorem disconnect_clears_slot st sid user room :
  Obj.get (users st) sid = Some user ->
  rooms st !! User.roomId user = Some room ->
  let st' := (disconnect st sid).1 in
  let room' := room_of st' (User.roomId user) in
  rooms st' !! User.roomId user = Some room'
  /\ (if is_patient (User.role user)
      then Room.patient room' = None /\ Room.patientAvatar room' = None
           /\ Room.doctor room' = Room.doctor room
           /\ Room.doctorAvatar room' = Room.doctorAvatar room
      else Room.doctor room' = None /\ Room.doctorAvatar room' = None
           /\ Room.patient room' = Room.patient room
           /\ Room.patientAvatar room' = Room.patientAvatar room)
  /\ Room.messages room' = Room.messages room
  /\ Room.files room' = Room.files room
  /\ Room.healthMetrics room' = Room.healthMetrics room
  /\ Room.videoCallActive room' = Room.videoCallActive room
  /\ Room.videoParticipants room' = Room.videoParticipants room
  /\ Obj.get (users st') sid = None
  /\ (disconnect st sid).2
     = [mkEmit (ToRoom (User.roomId user))
          (UserLeft (User.nickname user) (User.role user)
             (Room.patient room') (Room.doctor room'))].
Proof.
  intros Hu Hr st' room'. subst st' room'. unfold disconnect, room_of.
  rewrite Hu, Hr. cbn [fst snd rooms users with_rooms with_users with_sockets].
  rewrite lookup_insert_eq, get_del_eq. cbn [default].
  pose proof (cleared_slots (User.role user) room) as H. cbn zeta in H.
  destruct H as (H1 & H2 & H3 & H4 & H5 & H6). by repeat split.
Qed.

Lemma disconnect_clears_slot_witness :
  Room.doctor (room_of Ex.two_doctors Ex.room) = Some "Dr Rao"
  /\ Room.doctor (room_of (disconnect Ex.two_doctors Ex.D2).1 Ex.room) = None
  /\ Room.patient (room_of (disconnect Ex.two_doctors Ex.D2).1 Ex.room) = None.
Proof.
  assert (Hu : Obj.get (users Ex.two_doctors) Ex.D2
               = Some (User.mk Ex.room "Dr Rao" "doctor" None (Some "rao@clinic.example")))
    by (vm_compute; reflexivity).
  assert (Hr : rooms Ex.two_doctors !! Ex.room
               = Some (room_of Ex.two_doctors Ex.room))
    by (vm_compute; reflexivity).
  pose proof (disconnect_clears_slot Ex.two_doctors Ex.D2 _ _ Hu Hr) as H.
  cbn zeta in H. destruct H as (_ & H & _).
  cbn [User.role is_patient User.roomId] in H.
  change (is_patient "doctor") with false in H. cbn iota in H.
  destruct H as (H1 & _ & H3 & _).
  split; [vm_compute; reflexivity|]. split; [exact H1|].
  rewrite H3. vm_compute; reflexivity.
Defined.

(** C7, against the claim: [D] and then [D2] join as doctor, so [D2]
    wrote the doctor slot last and is still bound; when [D] disconnects
    the slot is cleared all the same. *)
Lemma disconnect_clears_slot_of_other :
  Room.doctor (room_of Ex.two_doctors Ex.room) = Some (join_nickname Ex.second_doctor_join)
  /\ (User.role <$> Obj.get (users (disconnect Ex.two_doctors Ex.D).1) Ex.D2) = Some "doctor"
  /\ Room.doctor (room_of (disconnect Ex.two_doctors Ex.D).1 Ex.room) = None
  /\ Room.doctor (room_of (disconnect Ex.two_doctors Ex.D).1 Ex.room)
     <> Room.doctor (room_of Ex.two_doctors Ex.room).
Proof. vm_compute. repeat split; discriminate. Qed.

End PresenceFacts.

(** ** Deliveries *)

Module DeliveryFacts.

(** An event sent to one connection reaches that connection or, when
    it has gone, nobody. *)
Lemma deliveries_to_socket st d p dl :
  dl ∈ deliveries st [mkEmit (ToSocket d) p] ->
  to dl = d /\ to_role dl = (User.role <$> Obj.get (users st) d) /\ what dl = p.
Proof.
  unfold deliveries, deliver. cbn [flat_map target payload recipients].
  rewrite app_nil_r. destruct (connected st d).
  - intros (s & -> & Hs)%list_elem_of_fmap. apply list_elem_of_singleton in Hs as ->. done.
  - intros H. by apply elem_of_nil in H.
Qed.

Lemma elem_of_members st r sid :
  sid ∈ room_members st r <->
  exists joined, (sid, joined) ∈ sockets st /\ (r ∈ joined \/ socket_id sid = r).
Proof.
  unfold room_members. rewrite list_elem_of_fmap. split.
  - intros ([s j] & -> & Hin). apply list_elem_of_filter in Hin as [Hr Hin]. by exists j.
  - intros (j & Hin & Hr). exists (sid, j). split; [done|]. by apply list_elem_of_filter.
Qed.

Lemma get_elem {V} (o : list (SocketId * V)) k v : Obj.get o k = Some v -> (k, v) ∈ o.
Proof.
  induction o as [|[k' v'] o IH]; simpl; [done|].
  destruct (decide (k' = k)) as [->|Hne]; [intros [= ->]; by left | right; by apply IH].
Qed.

(** A connected connection is in the socket.io room of its id. *)
Lemma own_room_member st sid : connected st sid = true -> sid ∈ room_members st (socket_id sid).
Proof.
  unfold connected. intros [j Hj]%bool_decide_eq_true. apply elem_of_members.
  exists j. split; [by apply get_elem | by right].
Qed.

(** An event sent to a socket.io room reaches its members. *)
Lemma deliveries_to_room st r p :
  deliveries st [mkEmit (ToRoom r) p]
  = (fun s => mkDelivery s (User.role <$> Obj.get (users st) s) p) <$> room_members st r.
Proof.
  unfold deliveries, deliver. cbn [flat_map target payload recipients].
  by rewrite app_nil_r.
Qed.

End DeliveryFacts.

(** ** Video-call signalling *)

Module VideoFacts.

Lemma is_doctor_false role : role <> "doctor" -> is_doctor role = false.
Proof. intros H. unfold is_doctor. by apply String.eqb_neq. Qed.

(** C8, as the code has it.  The gate of start-video-call and
    end-video-call is the role the connection declared on join-room.  A
    request from a connection that is not bound or whose role is not
    "doctor" leaves the whole state as it was, so the [videoCallActive]
    flag and the [videoParticipants] roster of every room; to a start
    request the server answers with one [video-error] event, sent to the
    requester and reaching nobody else. *)
Theorem video_gate st sid roomId :
  non_doctor st sid ->
  (start_video_call st sid roomId).1 = st
  /\ (start_video_call st sid roomId).2
     = [mkEmit (ToSocket sid) (VideoError "Only doctors can start video calls")]
  /\ (forall s, s ∈ recipients st (ToSocket sid) -> s = sid)
  /\ (end_video_call st sid roomId).1 = st
  /\ (forall r, Room.videoCallActive (room_of (start_video_call st sid roomId).1 r)
                = Room.videoCallActive (room_of st r)
                /\ Room.videoParticipants (room_of (start_video_call st sid roomId).1 r)
                   = Room.videoParticipants (room_of st r)
                /\ Room.videoCallActive (room_of (end_video_call st sid roomId).1 r)
                   = Room.videoCallActive (room_of st r)
                /\ Room.videoParticipants (room_of (end_video_call st sid roomId).1 r)
                   = Room.videoParticipants (room_of st r)).
Proof.
  unfold non_doctor, start_video_call, end_video_call. intros H.
  assert (Hrec : forall s, s ∈ recipients st (ToSocket sid) -> s = sid).
  { intros s. simpl. destruct (connected st sid); [|by intros ?%elem_of_nil].
    by intros ->%list_elem_of_singleton. }
  destruct (Obj.get (users st) sid) as [user|]; [|done].
  rewrite (is_doctor_false _ H). done.
Qed.

Lemma video_gate_witness :
  (start_video_call Ex.both_joined Ex.P Ex.room).1 = Ex.both_joined
  /\ (end_video_call Ex.both_joined Ex.P Ex.room).1 = Ex.both_joined.
Proof.
  assert (H : non_doctor Ex.both_joined Ex.P) by (vm_compute; discriminate).
  destruct (video_gate Ex.both_joined Ex.P Ex.room H) as (H1 & _ & _ & H2 & _).
  by split.
Defined.

(** C8, against the claim.  The patient asks to end the call: the
    request is dropped and no event at all is sent, so no error reaches
    the requester.  And a connection that declared the role "doctor"
    under an e-mail that is not the one the room is bound to starts the
    call in that room. *)
Lemma video_gate_fails_as_stated :
  non_doctor Ex.both_joined Ex.P
  /\ (end_video_call Ex.both_joined Ex.P Ex.room).2 = []
  /\ deliveries (end_video_call Ex.both_joined Ex.P Ex.room).1
       (end_video_call Ex.both_joined Ex.P Ex.room).2 = []
  /\ Room.doctorEmail (room_of Ex.stranger_joined Ex.room) = Some "rao@clinic.example"
  /\ (User.email <$> Obj.get (users Ex.stranger_joined) Ex.D2)
     = Some (Some "sam@elsewhere.example")
  /\ Room.videoCallActive (room_of Ex.stranger_joined Ex.room) = false
  /\ Room.videoCallActive
       (room_of (start_video_call Ex.stranger_joined Ex.D2 Ex.room).1 Ex.room) = true.
Proof. split; [vm_compute; discriminate | repeat split; vm_compute; reflexivity]. Qed.

(** The gate looks at the role only: a connection that declared the
    role "doctor" starts a call in any room that exists, whatever room
    and e-mail it is bound to. *)
Lemma start_video_call_by_role st sid roomId user room :
  Obj.get (users st) sid = Some user ->
  User.role user = "doctor" ->
  rooms st !! roomId = Some room ->
  rooms (start_video_call st sid roomId).1 !! roomId = Some (Room.set_video true [] room).
Proof.
  intros Hu Hrole Hr. unfold start_video_call. rewrite Hu, Hrole, Hr. simpl.
  apply lookup_insert_eq.
Qed.

End VideoFacts.

(** ** Chat messages *)

Module ChatFacts.
Import DeliveryFacts.

(** C4, as the code has it.  A chat message to a room that exists.
    From a connection that has not joined a room it is dropped: nothing
    is stored and nothing is sent.  From a bound connection it is
    appended to the log of the room, untagged.  When its lower-cased text
    includes "@ai", the one event of the handler is the message sent to
    the socket.io room named by the sender's id: every connection it
    reaches is in that room, the sender is reached, and when the sender
    is alone in that room nobody else is.  When the text does not include
    it, the one event is the message sent to the consultation room: it
    reaches every connection in that room.  In both cases the stored
    message passes the history filter of every role. *)
Theorem chat_message_routing `{Js.Engine} st sid roomId message avatarUrl now room :
  rooms st !! roomId = Some room ->
  match Obj.get (users st) sid with
  | None =>
      chat_message st sid roomId message avatarUrl now = Some (mkChatOutcome st [] None)
  | Some user =>
      exists out m,
        chat_message st sid roomId message avatarUrl now = Some out
        /\ Message.content m = message
        /\ Message.nickname m = Some (User.nickname user)
        /\ Message.forRole m = None
        /\ rooms (chat_state out) !! roomId = Some (Room.push_message m room)
        /\ Room.messages (room_of (chat_state out) roomId) = (Room.messages room ++ [m])%list
        /\ (isAiCall message = true ->
              chat_emits out = [mkEmit (ToRoom (socket_id sid)) (ChatMessage m)]
              /\ (forall dl, dl ∈ deliveries (chat_state out) (chat_emits out) ->
                    to dl ∈ room_members st (socket_id sid) /\ what dl = ChatMessage m)
              /\ (connected st sid = true ->
                    mkDelivery sid (Some (User.role user)) (ChatMessage m)
                    ∈ deliveries (chat_state out) (chat_emits out))
              /\ (room_members st (socket_id sid) = [sid] ->
                    deliveries (chat_state out) (chat_emits out)
                    = [mkDelivery sid (Some (User.role user)) (ChatMessage m)]))
        /\ (isAiCall message = false ->
              chat_emits out = [mkEmit (ToRoom roomId) (ChatMessage m)]
              /\ chat_pending out = None
              /\ forall s, s ∈ room_members st roomId ->
                   exists r, mkDelivery s r (ChatMessage m)
                             ∈ deliveries (chat_state out) (chat_emits out))
        /\ (forall role,
              m ∈ filteredMessages role (Room.messages (room_of (chat_state out) roomId)))
  end.
Proof.
  intros Hr. unfold chat_message. destruct (Obj.get (users st) sid) as [user|] eqn:Hu; [|done].
  rewrite Hr. set (m := Message.mk _ _ _ _ _ _ _ _ _).
  assert (Hv : forall role, visible_to role m = true)
    by (intros role; unfold visible_to; simpl; by destruct (is_doctor (User.role user))).
  assert (Hreplay : forall role,
            m ∈ filteredMessages role (Room.messages (Room.push_message m room))).
  { intros role. apply list_elem_of_In, filter_In. split; [|done].
    apply list_elem_of_In. simpl. apply elem_of_app. right. by left. }
  destruct (isAiCall message) eqn:Hai; cbn [negb].
  - eexists _, m. split; [reflexivity|]. cbn [chat_state chat_emits chat_pending].
    unfold room_of. cbn [rooms with_rooms]. rewrite lookup_insert_eq. cbn [default].
    do 5 (split; [done|]). split; [|split; [done|exact Hreplay]].
    intros _. split; [done|].
    rewrite deliveries_to_room. cbn [users with_rooms].
    change (room_members (with_rooms _ st) (socket_id sid))
      with (room_members st (socket_id sid)).
    split; [|split].
    + intros dl (s & -> & Hs)%list_elem_of_fmap. done.
    + intros Hc. apply list_elem_of_fmap. exists sid. rewrite Hu.
      split; [done|]. by apply own_room_member.
    + intros Halone. rewrite Halone. cbn [fmap list_fmap]. by rewrite Hu.
  - eexists _, m. split; [reflexivity|]. cbn [chat_state chat_emits chat_pending].
    unfold room_of. cbn [rooms with_rooms]. rewrite lookup_insert_eq. cbn [default].
    repeat split; try done.
    intros s Hs. eexists.
    unfold deliveries, deliver. cbn [flat_map target payload recipients].
    rewrite app_nil_r. apply list_elem_of_fmap. exists s. split; [reflexivity|done].
Qed.

Lemma chat_message_routing_witness :
  exists out m,
    chat_message Ex.both_joined Ex.P Ex.room "@AI is my haemoglobin low?" None 1718000002000
      = Some out
    /\ Message.content m = "@AI is my haemoglobin low?"
    /\ deliveries (chat_state out) (chat_emits out)
       = [mkDelivery Ex.P (Some "patient") (ChatMessage m)].
Proof.
  assert (Hr : rooms Ex.both_joined !! Ex.room = Some (room_of Ex.both_joined Ex.room))
    by (vm_compute; reflexivity).
  pose proof (chat_message_routing Ex.both_joined Ex.P Ex.room "@AI is my haemoglobin low?"
                None 1718000002000 _ Hr) as H.
  change (Obj.get (users Ex.both_joined) Ex.P)
    with (Some (User.mk Ex.room "Alex" "patient" None (Some "alex@mail.example"))) in H.
  cbv iota in H.
  destruct H as (out & m & H1 & H2 & _ & _ & _ & _ & Hai & _).
  exists out, m. split; [exact H1|]. split; [exact H2|].
  destruct Hai as (_ & _ & _ & Halone); [vm_compute; reflexivity|].
  apply Halone. vm_compute. reflexivity.
Defined.

(** C4, against the claim.  A connection that has not joined a room
    sends a message that holds "@ai": it is neither stored nor sent back.
    And the patient's "@ai" message, sent to the patient alone when it was
    posted, is in the history that a connection joining the room
    afterwards receives. *)
Lemma chat_message_fails_as_stated :
  Obj.get (users ExMore.with_idle) Ex.D2 = None
  /\ isAiCall ExMore.ai_question = true
  /\ chat_message ExMore.with_idle Ex.D2 Ex.room ExMore.ai_question None 1718000002000
     = Some (mkChatOutcome ExMore.with_idle [] None)
  /\ exists m,
       Message.content m = ExMore.ai_question
       /\ mkDelivery Ex.D2 (Some "doctor") (RoomHistory [m] [])
          ∈ (run ExMore.with_idle ExMore.question_then_join).2.
Proof.
  split; [vm_compute; reflexivity|]. split; [vm_compute; reflexivity|].
  split; [vm_compute; reflexivity|].
  exists (Message.mk "Patient" (Some "Alex") ExMore.ai_question 1718000002000 None None
            false None false).
  split; [reflexivity|].
  apply list_elem_of_In. vm_compute. repeat first [left; reflexivity | right].
Qed.

End ChatFacts.

(** ** Uploads *)

Module UploadFacts.
Import DeliveryFacts.


(** The texts [extractFileContent] returns when it cannot read a file
    are not analysed. *)
Lemma sentinels_not_analysed :
  analysable "[Extraction failed]" = false
  /\ analysable "[Unsupported format]" = false
  /\ analysable "[Image - no text detected]" = false.
Proof. by vm_compute. Qed.




Lemma find_head {A} (f : A -> bool) l : List.find f l = head (List.filter f l).
Proof. induction l as [|a l IH]; simpl; [done|]. by destruct (f a). Qed.

(** The connection the 1000 ms callback looks for is the first one
    bound to the room with role "doctor". *)
Lemma doctor_found st roomId :
  Obj.find_key (fun u => String.eqb (User.roomId u) roomId && is_doctor (User.role u))
    (users st)
  = head (bound_with_role st roomId "doctor").
Proof. unfold Obj.find_key, bound_with_role. apply find_head. Qed.

Lemma bound_with_role_spec st roomId role d :
  d ∈ bound_with_role st roomId role ->
  exists u, Obj.get (users st) d = Some u /\ User.roomId u = roomId /\ User.role u = role.
Proof.
  unfold bound_with_role. rewrite list_elem_of_In, filter_In. intros [_ H].
  destruct (Obj.get (users st) d) as [u|]; [|done].
  apply andb_true_iff in H as [H1 H2]. exists u.
  by rewrite String.eqb_eq in H1, H2.
Qed.

(** The clinical message is shown in a replay to "doctor" and to no
    other role. *)
Lemma clinical_message_visible analysis now role :
  visible_to role (doctorAiMessage analysis now) = bool_decide (role = "doctor").
Proof.
  unfold visible_to. simpl.
  destruct (decide (role = "doctor")) as [->|Hne].
  - done.
  - rewrite !bool_decide_eq_false_2; [done..|]. congruence.
Qed.

(** C2, as the code has it.  An upload with more than 20 characters
    of content into a room that exists when the handler stores the file,
    when it is answered with the file record, schedules the 1000 ms
    callback with the analysis of that upload, whatever other handlers
    did to the room while the upload awaited its external calls.  When
    the callback runs, in whatever state the server is by
    then: if no connection is bound to the room with role "doctor",
    nothing is appended and nothing is sent; if it does anything, it
    appends the message tagged [forRole = "doctor"] to the log of the room
    and sends it to the socket.io room named by the id of the first such
    connection, and the room's doctor slot is set; and it does so
    whenever there is such a connection and the doctor slot of the room
    is set.  Every connection the event reaches is in the socket.io room
    of that id; the doctor is reached; and when the doctor is alone in
    that room, the doctor alone is reached.  The message is shown in a
    history replay to the role "doctor" only. *)
Theorem clinical_analysis_needs_doctor st body file res now roomId room st1 t :
  body_roomId body = Some roomId ->
  roomId <> "" ->
  rooms st !! roomId = Some room ->
  long_enough (extracted res) = true ->
  let out := upload st body (Some file) res now in
  let analysis := if analysable (extracted res) then analysisText res else "" in
  let event := AiMessage (clinical_prefix ++ analysis) "doctor" true in
  (forall roomAtAnalysis roomAtMetrics f,
     up_response (upload_at roomAtAnalysis roomAtMetrics st body (Some file) res now)
     = Uploaded f ->
     DoctorAnalysis roomId analysis
     ∈ up_timers (upload_at roomAtAnalysis roomAtMetrics st body (Some file) res now))
  /\ ((exists f, up_response out = Uploaded f) ->
       DoctorAnalysis roomId analysis ∈ up_timers out)
  /\ (bound_with_role st1 roomId "doctor" = [] ->
        fire st1 (DoctorAnalysis roomId analysis) t = Some (st1, []))
  /\ (forall st2 emits,
        fire st1 (DoctorAnalysis roomId analysis) t = Some (st2, emits) ->
        (st2 = st1 /\ emits = [])
        \/ (exists d u room1,
              head (bound_with_role st1 roomId "doctor") = Some d
              /\ Obj.get (users st1) d = Some u
              /\ User.role u = "doctor" /\ User.roomId u = roomId
              /\ rooms st1 !! roomId = Some room1
              /\ Js.truthy_str (Room.doctor room1) = true
              /\ rooms st2 !! roomId
                 = Some (Room.push_message (doctorAiMessage analysis t) room1)
              /\ emits = [mkEmit (ToRoom (socket_id d)) event]
              /\ (forall dl, dl ∈ deliveries st2 emits ->
                    to dl ∈ room_members st1 (socket_id d) /\ what dl = event)
              /\ (connected st1 d = true ->
                    mkDelivery d (Some "doctor") event ∈ deliveries st2 emits)
              /\ (room_members st1 (socket_id d) = [d] ->
                    deliveries st2 emits = [mkDelivery d (Some "doctor") event])))
  /\ (forall d room1,
        head (bound_with_role st1 roomId "doctor") = Some d ->
        rooms st1 !! roomId = Some room1 ->
        Js.truthy_str (Room.doctor room1) = true ->
        exists st2,
          fire st1 (DoctorAnalysis roomId analysis) t
          = Some (st2, [mkEmit (ToRoom (socket_id d)) event])
          /\ Room.messages (room_of st2 roomId)
             = (Room.messages room1 ++ [doctorAiMessage analysis t])%list)
  /\ (forall role,
        visible_to role (doctorAiMessage analysis t) = true <-> role = "doctor").
Proof.
  intros Hb Hne Hr Hlong out analysis event.
  split; [|split; [|split; [|split; [|split]]]].
  - intros roomAtAnalysis roomAtMetrics f. unfold upload_at. rewrite Hb.
    apply String.eqb_neq in Hne. rewrite Hne. fold analysis.
    destruct (analysable (extracted res) && roomAtAnalysis && negb roomAtMetrics); [done|].
    destruct (if analysable (extracted res) then option_map Some _ else Some None) as [s|];
      [|done].
    rewrite Hr. cbn [up_timers]. rewrite Hlong. intros _. by left.
  - subst out. unfold upload. rewrite Hb. apply String.eqb_neq in Hne. rewrite Hne.
    fold analysis.
    destruct (if analysable (extracted res) then option_map Some _ else Some None) as [s|];
      [|by intros [f Hf]].
    rewrite Hr. cbn [up_timers]. rewrite Hlong. intros _. by left.
  - intros Hnone. cbn [fire]. unfold doctor_timer. by rewrite doctor_found, Hnone.
  - intros st2 emits. cbn [fire]. unfold doctor_timer. rewrite doctor_found.
    destruct (head (bound_with_role st1 roomId "doctor")) as [d|] eqn:Hd;
      [|intros [= <- <-]; by left].
    destruct (rooms st1 !! roomId) as [room1|] eqn:Hr1; [|done].
    destruct (Js.truthy_str (Room.doctor room1)) eqn:Hslot;
      [|intros [= <- <-]; by left].
    intros [= <- <-]. right.
    assert (Hin : d ∈ bound_with_role st1 roomId "doctor").
    { destruct (bound_with_role st1 roomId "doctor"); [done|].
      injection Hd as ->. by left. }
    destruct (bound_with_role_spec _ _ _ _ Hin) as (u & Hu & Hroom & Hrole).
    exists d, u, room1. cbn [rooms with_rooms]. rewrite lookup_insert_eq.
    do 8 (split; [done|]).
    rewrite deliveries_to_room. cbn [users with_rooms Message.content doctorAiMessage].
    change (room_members (with_rooms _ st1) (socket_id d))
      with (room_members st1 (socket_id d)).
    split; [|split].
    + intros dl (s & -> & Hs)%list_elem_of_fmap. done.
    + intros Hc. apply list_elem_of_fmap. exists d. rewrite Hu. simpl.
      rewrite Hrole. split; [done|]. by apply own_room_member.
    + intros Halone. rewrite Halone. simpl. rewrite Hu. simpl. by rewrite Hrole.
  - intros d room1 Hd Hr1 Hslot. cbn [fire]. unfold doctor_timer, room_of.
    rewrite doctor_found, Hd, Hr1, Hslot. eexists. split; [reflexivity|].
    cbn [rooms with_rooms]. by rewrite lookup_insert_eq.
  - intros role. rewrite clinical_message_visible. apply bool_decide_eq_true.
Qed.

Lemma clinical_analysis_needs_doctor_witness :
  DoctorAnalysis Ex.room (analysisText Ex.first_results)
    ∈ up_timers (upload Ex.patient_alone Ex.by_patient (Some Ex.report)
                   Ex.first_results 1718000001000)
  /\ fire (up_state (upload Ex.patient_alone Ex.by_patient (Some Ex.report)
                       Ex.first_results 1718000001000))
       (DoctorAnalysis Ex.room (analysisText Ex.first_results)) 1718000002000
     = Some (up_state (upload Ex.patient_alone Ex.by_patient (Some Ex.report)
                         Ex.first_results 1718000001000), []).
Proof.
  assert (Hb : body_roomId Ex.by_patient = Some Ex.room) by reflexivity.
  assert (Hne : Ex.room <> "") by discriminate.
  assert (Hr : rooms Ex.patient_alone !! Ex.room = Some (room_of Ex.patient_alone Ex.room))
    by (vm_compute; reflexivity).
  assert (Hlong : long_enough (extracted Ex.first_results) = true) by reflexivity.
  destruct (clinical_analysis_needs_doctor Ex.patient_alone Ex.by_patient Ex.report
              Ex.first_results 1718000001000 Ex.room _
              (up_state (upload Ex.patient_alone Ex.by_patient (Some Ex.report)
                           Ex.first_results 1718000001000))
              1718000002000 Hb Hne Hr Hlong) as (_ & H1 & H2 & _).
  split.
  - apply H1. eexists. vm_compute. reflexivity.
  - apply H2. vm_compute. reflexivity.
Defined.

End UploadFacts.

(** ** Role isolation *)

Module IsolationFacts.

Ltac find_in_log :=
  apply list_elem_of_In; vm_compute;
  repeat first [left; reflexivity | right].

(** An AI message that passes the history filter for [role] carries no
    tag or the tag [role]. *)
Lemma filteredMessages_isolated role ms m r :
  m ∈ filteredMessages role ms ->
  Message.role m = "AI Assistant" ->
  r ∈ tag_of m ->
  r = role.
Proof.
  unfold filteredMessages. rewrite list_elem_of_In, filter_In. intros [_ Hv] Hai.
  unfold visible_to in Hv. rewrite Hai in Hv. simpl in Hv.
  unfold tag_of. destruct (Message.forRole m) as [f|]; [|by intros ?%elem_of_nil].
  simpl in Hv. destruct (String.eqb f ""); [by intros ?%elem_of_nil|].
  simpl in Hv. intros ->%list_elem_of_singleton.
  apply bool_decide_eq_true in Hv. congruence.
Qed.

(** The reply to an "@ai" message goes to the socket.io room of the
    connection that asked, tagged with the role it had when it asked. *)
Lemma ai_reply_to_requester st req reply now st' emits dl :
  ai_reply st req reply now = Some (st', emits) ->
  dl ∈ deliveries st' emits ->
  to dl ∈ room_members st (socket_id (ai_socket req))
  /\ to_role dl = (User.role <$> Obj.get (users st) (to dl))
  /\ forRole_tags (what dl) ⊆ [ai_role req].
Proof.
  unfold ai_reply. destruct (rooms st !! ai_roomId req) as [room|]; [|done].
  intros [= <- <-]. rewrite DeliveryFacts.deliveries_to_room.
  intros (s & -> & Hs)%list_elem_of_fmap. split; [done|]. split; [done|]. simpl.
  destruct (String.eqb (ai_role req) ""); set_solver.
Qed.

(** C1, at a failing run.  The doctor and the patient are both in the
    room, and both go by the nickname "Alex"; the doctor joined first.
    The patient uploads a report.  The 500 ms callback looks the
    uploader up by nickname and room alone, so the message tagged
    [forRole = "patient"] goes to the doctor's connection: a delivery that
    breaks role isolation.  The message is kept in the log of the room,
    and the patient's connection receives no AI message at all. *)
Theorem patient_notice_reaches_doctor :
  exists dl,
    dl ∈ (run Ex.both_joined Ex.upload_with_both).2
    /\ to dl = Ex.D
    /\ to_role dl = Some "doctor"
    /\ what dl
       = AiMessage (Message.content (patientAiMessage "cbc.txt" (Ex.t_upload + 500)))
           "patient" true
    /\ breaks_isolation dl
    /\ patientAiMessage "cbc.txt" (Ex.t_upload + 500)
       ∈ Room.messages (room_of (run Ex.both_joined Ex.upload_with_both).1 Ex.room)
    /\ Forall (fun d => to d = Ex.P -> forRole_tags (what d) = [])
         (run Ex.both_joined Ex.upload_with_both).2.
Proof.
  exists (mkDelivery Ex.D (Some "doctor")
            (AiMessage (Message.content (patientAiMessage "cbc.txt" (Ex.t_upload + 500)))
               "patient" true)).
  split; [find_in_log|]. repeat split.
  - exists "patient". split; [vm_compute; by left | discriminate].
  - find_in_log.
  - vm_compute. repeat constructor; first [reflexivity | discriminate].
Qed.

(** C3, at a failing run.  The doctor and the patient are in the room
    and the patient uploads a report that is analysed.  The "file
    uploaded" chat message and the file list go to the whole room, and
    both carry the analysis text in full: the patient's connection
    receives it in [fileData.analysis] of the chat message and in
    [analysis] and [documentSummary.fullAnalysis] of the file record. *)
Theorem analysis_reaches_patient :
  exists m f,
    mkDelivery Ex.P (Some "patient") (ChatMessage m)
      ∈ (run Ex.both_joined [Upload Ex.by_patient (Some Ex.report) Ex.first_results
                               Ex.t_upload]).2
    /\ (FileData.analysis <$> Message.fileData m) = Some (analysisText Ex.first_results)
    /\ mkDelivery Ex.P (Some "patient") (FilesUpdated [f])
         ∈ (run Ex.both_joined [Upload Ex.by_patient (Some Ex.report) Ex.first_results
                                  Ex.t_upload]).2
    /\ FileInfo.analysis f = analysisText Ex.first_results
    /\ (Summary.fullAnalysis <$> FileInfo.documentSummary f)
       = Some (analysisText Ex.first_results)
    /\ analysable (extracted Ex.first_results) = true.
Proof.
  eexists (fileMessage Ex.by_patient Ex.report (analysisText Ex.first_results) Ex.t_upload).
  eexists (FileInfo.mk _ _ _ _ _ _ _ _ _).
  split; [find_in_log|]. split; [reflexivity|].
  split; [find_in_log|]. repeat split.
Qed.

(** The same holds of every analysed upload: the chat message that
    goes to the whole room carries the analysis text. *)
Lemma upload_broadcasts_analysis st body file res now roomId room :
  body_roomId body = Some roomId ->
  roomId <> "" ->
  rooms st !! roomId = Some room ->
  analysable (extracted res) = true ->
  (exists f, up_response (upload st body (Some file) res now) = Uploaded f) ->
  mkEmit (ToRoom roomId) (ChatMessage (fileMessage body file (analysisText res) now))
    ∈ up_emits (upload st body (Some file) res now)
  /\ (FileData.analysis <$> Message.fileData (fileMessage body file (analysisText res) now))
     = Some (analysisText res).
Proof.
  intros Hb Hne Hr Ha. unfold upload. rewrite Hb. apply String.eqb_neq in Hne.
  rewrite Hne, Ha.
  destruct (generateDocumentSummary _ _ _ _ _) as [s|]; cbn [option_map];
    [|by intros [f Hf]].
  rewrite Hr. cbn [up_emits]. intros _. split; [|done]. set_solver.
Qed.

(** C2, against the claim: the patient uploads a report of more than
    20 characters while no doctor is in the room; the timers fire; the
    doctor joins.  No message tagged for the doctor is in the log, and
    the history the doctor receives holds the "file uploaded" message
    alone. *)
Lemma clinical_analysis_not_recorded :
  long_enough (extracted Ex.first_results) = true
  /\ bound_with_role Ex.patient_alone Ex.room "doctor" = []
  /\ Forall (fun m => Message.forRole m <> Some "doctor")
       (Room.messages (room_of (run Ex.patient_alone Ex.doctor_joins_later).1 Ex.room))
  /\ mkDelivery Ex.D (Some "doctor")
       (RoomHistory
          [fileMessage Ex.by_patient Ex.report (analysisText Ex.first_results) Ex.t_upload]
          (Room.files (room_of (run Ex.patient_alone Ex.doctor_joins_later).1 Ex.room)))
       ∈ (run Ex.patient_alone Ex.doctor_joins_later).2.
Proof.
  split; [reflexivity|]. split; [reflexivity|]. split.
  - vm_compute. repeat constructor; discriminate.
  - find_in_log.
Qed.

End IsolationFacts.

(** ** Emergency detection *)

Module EmergencyFacts.

(** [detectEmergency] makes no call without a keyword, and one call
    with one; when that call fails it answers [isEmergency: true] with
    level "HIGH". *)
Lemma detectEmergency_calls {engine : Js.Engine} message model :
  (hasEmergencyKeyword message = false ->
     run_llm model (detectEmergency message) = (mkEmergency false None None None, 0%nat))
  /\ (hasEmergencyKeyword message = true ->
        (run_llm model (detectEmergency message)).2 = 1%nat
        /\ (model message = LlmThrew ->
              (run_llm model (detectEmergency message)).1
              = mkEmergency true (Some (Js.JStr "HIGH"))
                  (Some (Js.JStr "Keyword detected")) None)).
Proof.
  unfold detectEmergency. split; intros H; rewrite H; simpl; [done|].
  split; [done|]. by intros ->.
Qed.

(** C6, at a failing input.  The text holds two emergency keywords,
    and [detectEmergency] would classify it with one call, failing safe
    to level "HIGH".  The chat-message handler does not call it: for
    this message from the patient it appends the message, sends it to
    the room, and leaves no call to the model pending. *)
Theorem chat_message_skips_emergency :
  hasEmergencyKeyword Ex.emergency_text = true
  /\ run_llm (fun _ => LlmThrew) (detectEmergency Ex.emergency_text)
     = (mkEmergency true (Some (Js.JStr "HIGH")) (Some (Js.JStr "Keyword detected")) None,
        1%nat)
  /\ exists out m,
       chat_message Ex.both_joined Ex.P Ex.room Ex.emergency_text None 1718000003000
         = Some out
       /\ Message.content m = Ex.emergency_text
       /\ chat_emits out = [mkEmit (ToRoom Ex.room) (ChatMessage m)]
       /\ chat_pending out = None.
Proof.
  split; [reflexivity|]. split; [reflexivity|].
  eexists _, (Message.mk "Patient" (Some "Alex") Ex.emergency_text 1718000003000
                None None false None false).
  split; [vm_compute; reflexivity|]. repeat split.
Qed.

End EmergencyFacts.

(** ** Invariants of the runs *)

Module RunFacts.
Import ObjFacts DeliveryFacts.

Section Runs.
Context {engine : Js.Engine}.

Lemma elem_of_deliveries st emits d :
  d ∈ deliveries st emits <->
  exists e, e ∈ emits /\ to d ∈ recipients st (target e) /\ what d = payload e
            /\ to_role d = (User.role <$> Obj.get (users st) (to d)).
Proof.
  unfold deliveries. rewrite list_elem_of_In, in_flat_map. split.
  - intros (e & He & Hd). exists e. apply list_elem_of_In in He, Hd.
    unfold deliver in Hd. apply list_elem_of_fmap in Hd as (s & -> & Hs). done.
  - intros (e & He & Hto & Hw & Hr). exists e. rewrite <- !list_elem_of_In.
    split; [done|]. unfold deliver. apply list_elem_of_fmap. exists (to d).
    split; [|done]. destruct d as [a b c]. simpl in *. by rewrite Hw, Hr.
Qed.

Lemma untagged_is_safe d : forRole_tags (what d) = [] -> ~ breaks_isolation d.
Proof. intros H (r & Hr & _). rewrite H in Hr. by apply elem_of_nil in Hr. Qed.

Lemma tagged_for_role_is_safe d role :
  forRole_tags (what d) ⊆ [role] -> to_role d = Some role -> ~ breaks_isolation d.
Proof.
  intros Hsub Hrole (r & Hr & Hne). apply Hsub in Hr.
  apply list_elem_of_singleton in Hr as ->. done.
Qed.

(** *** Tagged messages are AI messages *)

Lemma tagged_same_rooms st st' :
  rooms st' = rooms st -> tagged_are_ai st -> tagged_are_ai st'.
Proof. unfold tagged_are_ai. intros ->. done. Qed.

Lemma tagged_insert st st' r room' :
  rooms st' = <[r := room']> (rooms st) ->
  (forall m, m ∈ Room.messages room' ->
     harmless m \/ exists room, rooms st !! r = Some room /\ m ∈ Room.messages room) ->
  tagged_are_ai st -> tagged_are_ai st'.
Proof.
  intros Hrooms Hnew Hinv r0 room0 m. rewrite Hrooms.
  destruct (decide (r = r0)) as [->|Hne].
  - rewrite lookup_insert_eq. intros [= <-] Hm Htag.
    destruct (Hnew m Hm) as [[H|H]|(room & Hr & Hin)]; [done|done|].
    by eapply Hinv.
  - rewrite lookup_insert_ne by done. apply Hinv.
Qed.

Lemma tagged_delete st st' r :
  rooms st' = delete r (rooms st) -> tagged_are_ai st -> tagged_are_ai st'.
Proof.
  intros Hrooms Hinv r0 room0 m. rewrite Hrooms. intros Hl.
  apply lookup_delete_Some in Hl as [_ Hl]. by eapply Hinv.
Qed.

Lemma elem_of_push m m0 room :
  m ∈ Room.messages (Room.push_message m0 room) -> m = m0 \/ m ∈ Room.messages room.
Proof. simpl. rewrite elem_of_app, list_elem_of_singleton. tauto. Qed.

(** A room that keeps its log, or adds harmless messages to it. *)
Ltac old_or_harmless Hr :=
  let m := fresh "m" in let Hm := fresh "Hm" in
  intros m Hm; simpl in Hm;
  repeat (apply elem_of_push in Hm as [->|Hm]; [left; first [by left | by right]|]);
  try (apply elem_of_app in Hm as [Hm|Hm%list_elem_of_singleton];
       [|subst m; left; first [by left | by right]]);
  first [ right; eexists; split; [first [exact Hr | reflexivity]|exact Hm]
        | by apply elem_of_nil in Hm ].

Lemma step_keeps_tagged st e : tagged_are_ai st -> tagged_are_ai (step st e).1.
Proof.
  intros Hinv. destruct e; simpl.
  - (* Connect *) unfold connect. destruct (Obj.get _ _); [done|]. by eapply tagged_same_rooms.
  - (* JoinRoom *)
    unfold join_room. destruct (reads_runtime_object st _); [by eapply tagged_same_rooms|].
    eapply tagged_insert; [reflexivity| |done].
    destruct (rooms st !! join_roomId p) as [room|] eqn:Hr; simpl;
      destruct (is_patient (join_role p)); old_or_harmless Hr.
  - (* Chat *)
    unfold chat_message. destruct (Obj.get _ _) as [user|]; [|done].
    destruct (rooms st !! roomId) as [room|] eqn:Hr; [|done].
    destruct (isAiCall message); simpl;
      (eapply tagged_insert; [reflexivity| |done]); old_or_harmless Hr.
  - (* AiReply *)
    unfold ai_reply. destruct (rooms st !! ai_roomId req) as [room|] eqn:Hr; [|done]. simpl.
    eapply tagged_insert; [reflexivity| |done]. old_or_harmless Hr.
  - (* Upload *)
    unfold upload. destruct file as [file|]; [|done].
    destruct (body_roomId body) as [roomId|]; [|done].
    destruct (String.eqb roomId ""); [done|].
    destruct (if analysable (extracted res) then option_map Some _ else Some None) as [s|];
      [|done].
    destruct (rooms st !! roomId) as [room|] eqn:Hr; [|by destruct (Js.inherited roomId)].
    simpl. eapply tagged_insert; [reflexivity| |done].
    destruct (analysable (extracted res)); old_or_harmless Hr.
  - (* Fire *)
    destruct t as [roomId analysis|roomId by_ name]; simpl.
    + unfold doctor_timer. destruct (Obj.find_key _ _); [|done].
      destruct (rooms st !! roomId) as [room|] eqn:Hr; [|done].
      destruct (Js.truthy_str _); [|done]. simpl.
      eapply tagged_insert; [reflexivity| |done]. old_or_harmless Hr.
    + unfold patient_timer. destruct (Obj.find_key _ _); [|done].
      destruct (rooms st !! roomId) as [room|] eqn:Hr; [|done]. simpl.
      eapply tagged_insert; [reflexivity| |done]. old_or_harmless Hr.
  - (* StartVideo *)
    unfold start_video_call. destruct (Obj.get _ _) as [user|]; [|done].
    destruct (is_doctor _); [|done].
    destruct (rooms st !! roomId) as [room|] eqn:Hr; [|done]. simpl.
    eapply tagged_insert; [reflexivity| |done]. old_or_harmless Hr.
  - (* JoinVideo *)
    unfold join_video_call. destruct (Obj.get _ _) as [user|]; [|done].
    destruct (rooms st !! roomId) as [room|] eqn:Hr; [|done]. simpl.
    eapply tagged_insert; [reflexivity| |done]. old_or_harmless Hr.
  - (* EndVideo *)
    unfold end_video_call. destruct (Obj.get _ _) as [user|]; [|done].
    destruct (is_doctor _); [|done].
    destruct (rooms st !! roomId) as [room|] eqn:Hr; [|done]. simpl.
    eapply tagged_insert; [reflexivity| |done]. old_or_harmless Hr.
  - (* LeaveVideo *)
    unfold leave_video_call. destruct (Obj.get _ _) as [user|]; [|done].
    destruct (rooms st !! roomId) as [room|] eqn:Hr; [|done]. simpl.
    eapply tagged_insert; [reflexivity| |done]. old_or_harmless Hr.
  - (* Typing *) done.
  - (* RequestDocumentation *) done.
  - (* Disconnect *)
    unfold disconnect. destruct (Obj.get _ _) as [user|]; [|by eapply tagged_same_rooms].
    destruct (rooms st !! User.roomId user) as [room|] eqn:Hr;
      [|by eapply tagged_same_rooms]. simpl.
    eapply tagged_insert; [reflexivity| |done].
    destruct (is_patient _); old_or_harmless Hr.
  - (* CreateRoom *)
    unfold create_room. destruct (_ || _); [done|]. simpl.
    eapply tagged_insert; [reflexivity| |done].
    intros m Hm. by apply elem_of_nil in Hm.
  - (* DeleteRoom *)
    unfold delete_room. destruct (roomInvitations st !! hash) as [inv|].
    + destruct (negb _); [done|].
      destruct (rooms st !! Invitation.roomId inv); [|by eapply tagged_same_rooms].
      simpl. by eapply tagged_delete.
    + destruct (Js.inherited hash); [|done]. destruct doctorEmail; [done|].
      unfold remove_room. destruct (rooms st !! "undefined").
      * simpl. by eapply tagged_delete.
      * by destruct (Js.inherited "undefined").
Qed.

(** *** What each event delivers *)

Ltac by_payload Hd :=
  apply elem_of_deliveries in Hd as (e & He & _ & Hw & _);
  apply untagged_is_safe; rewrite Hw;
  repeat (apply elem_of_cons in He as [->|He]; [reflexivity|]);
  by apply elem_of_nil in He.

Lemma history_tags st roomId role room :
  tagged_are_ai st ->
  rooms st !! roomId = Some room ->
  flat_map tag_of (filteredMessages role (Room.messages room)) ⊆ [role].
Proof.
  intros Hinv Hr r Hin. apply list_elem_of_In, in_flat_map in Hin as (m & Hm & Hin).
  apply list_elem_of_In in Hin. apply list_elem_of_singleton.
  eapply IsolationFacts.filteredMessages_isolated; [by apply list_elem_of_In| |done].
  eapply Hinv; [done| |].
  - unfold filteredMessages in Hm. apply filter_In in Hm as [Hm _]. by apply list_elem_of_In.
  - intros Hnil. rewrite Hnil in Hin. by apply elem_of_nil in Hin.
Qed.

Lemma join_room_isolated st sid p d :
  tagged_are_ai st ->
  d ∈ deliveries (join_room st sid p).1 (join_room st sid p).2 ->
  ~ breaks_isolation d.
Proof.
  intros Hinv Hd. apply elem_of_deliveries in Hd as (e & He & Hto & Hw & Hrole).
  unfold join_room in He, Hto, Hrole.
  destruct (reads_runtime_object st (join_roomId p)); [by apply elem_of_nil in He|].
  cbn [join_room_plain fst snd] in He, Hto, Hrole.
  apply elem_of_cons in He as [->|He].
  - (* the history *)
    cbn [target payload recipients] in Hto, Hw.
    assert (to d = sid) as Hsid.
    { destruct (connected _ sid); [by apply list_elem_of_singleton in Hto|].
      by apply elem_of_nil in Hto. }
    apply (tagged_for_role_is_safe d (join_role p)).
    + rewrite Hw. cbn [forRole_tags].
      destruct (rooms st !! join_roomId p) as [room|] eqn:Hr; cbn [default].
      * replace (Room.messages (if is_patient (join_role p) then _ else _))
          with (Room.messages room) by (by destruct (is_patient _)).
        by eapply history_tags.
      * replace (Room.messages (if is_patient (join_role p) then _ else _))
          with (@nil Message.t) by (by destruct (is_patient _)).
        simpl. set_solver.
    + rewrite Hrole, Hsid. cbn [users]. by rewrite get_set_eq.
  - apply untagged_is_safe. rewrite Hw.
    destruct (Js.truthy _), (Room.videoCallActive _); simpl in He;
      repeat (apply elem_of_cons in He as [->|He]; [reflexivity|]);
      by apply elem_of_nil in He.
Qed.

(** A tagged event sent to the socket.io room of a connection's id
    keeps the isolation when every connection in that room has the role
    of the tag. *)
Lemma to_id_room_isolated st st' sid role message d :
  users st' = users st ->
  sockets st' = sockets st ->
  reaches_only st sid role ->
  d ∈ deliveries st' [mkEmit (ToRoom (socket_id sid)) (AiMessage message role true)] ->
  ~ breaks_isolation d.
Proof.
  intros Hu Hs Hadm. rewrite deliveries_to_room.
  intros (s & -> & Hs')%list_elem_of_fmap.
  apply (tagged_for_role_is_safe _ role).
  - simpl. destruct (String.eqb role ""); set_solver.
  - simpl. rewrite Hu. apply Hadm. unfold room_members in *. by rewrite <- Hs.
Qed.

Lemma step_isolated st e d :
  tagged_are_ai st ->
  admissible st e ->
  d ∈ deliveries (step st e).1 (step st e).2 ->
  ~ breaks_isolation d.
Proof.
  intros Hinv [_ Hadm]. destruct e; cbn [step fst snd].
  - (* Connect *) intros Hd. by_payload Hd.
  - (* JoinRoom *) by apply join_room_isolated.
  - (* Chat *)
    unfold chat_message. destruct (Obj.get _ _) as [user|]; [|intros Hd; by_payload Hd].
    destruct (rooms st !! roomId) as [room|]; [|intros Hd; by_payload Hd].
    destruct (isAiCall message); cbn [negb chat_state chat_emits]; intros Hd; by_payload Hd.
  - (* AiReply *)
    unfold ai_reply. destruct (rooms st !! ai_roomId req) as [room|];
      cbn [default from_option id fst snd]; [|intros Hd; by_payload Hd].
    by apply (to_id_room_isolated st).
  - (* Upload *)
    unfold upload. destruct file as [file|]; [|intros Hd; by_payload Hd].
    destruct (body_roomId body) as [roomId|]; [|intros Hd; by_payload Hd].
    destruct (String.eqb roomId ""); [intros Hd; by_payload Hd|].
    destruct (if analysable (extracted res) then option_map Some _ else Some None) as [s|];
      [|intros Hd; by_payload Hd].
    destruct (rooms st !! roomId) as [room|].
    + cbn [up_state up_emits].
      destruct (analysable (extracted res)); intros Hd; by_payload Hd.
    + destruct (Js.inherited roomId); cbn [up_state up_emits];
        [destruct (analysable (extracted res))|]; intros Hd; by_payload Hd.
  - (* Fire *)
    destruct t as [roomId analysis|roomId by_ name]; cbn [fire].
    + unfold doctor_timer. cbn [admissible] in Hadm.
      destruct (Obj.find_key _ _) as [doc|] eqn:Hdoc; [|intros Hd; by_payload Hd].
      destruct (rooms st !! roomId) as [room|]; [|intros Hd; by_payload Hd].
      destruct (Js.truthy_str _); [|intros Hd; by_payload Hd].
      cbn [default from_option id fst snd].
      apply (to_id_room_isolated st); [done|done|by apply Hadm].
    + unfold patient_timer. cbn [admissible] in Hadm.
      destruct (Obj.find_key _ _) as [pat|] eqn:Hpat; [|intros Hd; by_payload Hd].
      destruct (rooms st !! roomId) as [room|]; [|intros Hd; by_payload Hd].
      cbn [default from_option id fst snd].
      apply (to_id_room_isolated st); [done|done|by apply Hadm].
  - (* StartVideo *)
    unfold start_video_call. destruct (Obj.get _ _) as [user|]; [|intros Hd; by_payload Hd].
    destruct (is_doctor _); [|intros Hd; by_payload Hd].
    destruct (rooms st !! roomId) as [room|]; [|destruct (Js.inherited roomId)];
      intros Hd; by_payload Hd.
  - (* JoinVideo *)
    unfold join_video_call. destruct (Obj.get _ _) as [user|]; [|intros Hd; by_payload Hd].
    destruct (rooms st !! roomId) as [room|]; intros Hd; by_payload Hd.
  - (* EndVideo *)
    unfold end_video_call. destruct (Obj.get _ _) as [user|]; [|intros Hd; by_payload Hd].
    destruct (is_doctor _); [|intros Hd; by_payload Hd].
    destruct (rooms st !! roomId) as [room|]; [|destruct (Js.inherited roomId)];
      intros Hd; by_payload Hd.
  - (* LeaveVideo *)
    unfold leave_video_call. destruct (Obj.get _ _) as [user|]; [|intros Hd; by_payload Hd].
    destruct (rooms st !! roomId) as [room|]; intros Hd; by_payload Hd.
  - (* Typing *)
    unfold typing. destruct (Obj.get _ _) as [user|]; intros Hd; by_payload Hd.
  - (* RequestDocumentation *)
    unfold request_documentation. destruct (rooms st !! roomId); [|intros Hd; by_payload Hd].
    destruct (Js.truthy_str reply); intros Hd; by_payload Hd.
  - (* Disconnect *)
    unfold disconnect. destruct (Obj.get _ _) as [user|]; [|intros Hd; by_payload Hd].
    destruct (rooms st !! User.roomId user) as [room|];
      [|destruct (Js.inherited (User.roomId user))]; intros Hd; by_payload Hd.
  - (* CreateRoom *) intros Hd. by_payload Hd.
  - (* DeleteRoom *)
    unfold delete_room. destruct (roomInvitations st !! hash) as [inv|].
    + destruct (negb _); [intros Hd; by_payload Hd|].
      destruct (rooms st !! Invitation.roomId inv);
        [|destruct (Js.inherited (Invitation.roomId inv))]; intros Hd; by_payload Hd.
    + destruct (Js.inherited hash); [|intros Hd; by_payload Hd].
      destruct doctorEmail; [intros Hd; by_payload Hd|].
      unfold remove_room. destruct (rooms st !! "undefined");
        [|destruct (Js.inherited "undefined")]; intros Hd; by_payload Hd.
Qed.


(** *** Bound connections are members of their room *)

Lemma elem_of_set_ne {V} (o : list (SocketId * V)) k k' v v' :
  k' <> k -> (k', v') ∈ o -> (k', v') ∈ Obj.set o k v.
Proof.
  intros Hne. induction o as [|[k0 v0] o IH]; simpl; [by intros ?%elem_of_nil|].
  intros [[= <- <-]|Hin]%elem_of_cons.
  - rewrite decide_False by done. by left.
  - destruct (decide (k0 = k)); right; [done | by apply IH].
Qed.

Lemma elem_of_del_ne {V} (o : list (SocketId * V)) k k' v' :
  k' <> k -> (k', v') ∈ o -> (k', v') ∈ Obj.del o k.
Proof.
  intros Hne. induction o as [|[k0 v0] o IH]; simpl; [done|].
  intros [[= <- <-]|Hin]%elem_of_cons.
  - rewrite decide_False by done. by left.
  - destruct (decide (k0 = k)); [by apply IH | right; by apply IH].
Qed.

Lemma bound_same st st' :
  users st' = users st -> sockets st' = sockets st ->
  bound_are_members st -> bound_are_members st'.
Proof.
  intros Hu Hs Hinv sid u. rewrite Hu. intros H%Hinv.
  apply elem_of_members. rewrite Hs. by apply elem_of_members.
Qed.

Lemma step_keeps_bound st e : bound_are_members st -> bound_are_members (step st e).1.
Proof.
  intros Hinv. destruct e; cbn [step fst snd].
  - (* Connect *)
    unfold connect. destruct (Obj.get _ _); [done|].
    intros s u Hu. apply Hinv, elem_of_members in Hu as (j & Hin & Hr).
    apply elem_of_members. exists j. split; [|done]. cbn [sockets with_sockets].
    apply elem_of_app. by left.
  - (* JoinRoom *)
    assert (Hjoin : forall st',
              users st' = Obj.set (users st) sid
                            (User.mk (join_roomId p) (join_nickname p) (join_role p)
                               (join_avatarUrl p) (join_email p)) ->
              sockets st' = socket_join sid (join_roomId p) (sockets st) ->
              bound_are_members st').
    { intros st' Hus Hss s u. rewrite Hus. destruct (decide (s = sid)) as [->|Hne].
      - rewrite get_set_eq. intros [= <-]. cbn [User.roomId].
        apply elem_of_members. rewrite Hss.
        destruct (PresenceFacts.socket_join_member sid (join_roomId p) (sockets st))
          as (j & Hin & Hr).
        exists j. split; [done | by left].
      - rewrite get_set_ne by done. intros Hu.
        apply Hinv, elem_of_members in Hu as (j & Hin & Hr).
        apply elem_of_members. exists j. split; [|done]. rewrite Hss.
        by apply elem_of_set_ne. }
    unfold join_room. by destruct (reads_runtime_object st (join_roomId p)); apply Hjoin.
  - (* Chat *)
    unfold chat_message. destruct (Obj.get _ _) as [user|]; [|done].
    destruct (rooms st !! roomId) as [room|]; [|done].
    by destruct (isAiCall message); eapply bound_same.
  - (* AiReply *)
    unfold ai_reply. destruct (rooms st !! ai_roomId req); [|done]. by eapply bound_same.
  - (* Upload *)
    unfold upload. destruct file as [file|]; [|done].
    destruct (body_roomId body) as [roomId|]; [|done].
    destruct (String.eqb roomId ""); [done|].
    destruct (if analysable (extracted res) then option_map Some _ else Some None) as [s|];
      [|done].
    destruct (rooms st !! roomId) as [room|]; [|by destruct (Js.inherited roomId)].
    by eapply bound_same.
  - (* Fire *)
    destruct t as [roomId analysis|roomId by_ name]; cbn [fire].
    + unfold doctor_timer. destruct (Obj.find_key _ _); [|done].
      destruct (rooms st !! roomId) as [room|]; [|done].
      destruct (Js.truthy_str _); [|done]. by eapply bound_same.
    + unfold patient_timer. destruct (Obj.find_key _ _); [|done].
      destruct (rooms st !! roomId) as [room|]; [|done]. by eapply bound_same.
  - (* StartVideo *)
    unfold start_video_call. destruct (Obj.get _ _) as [user|]; [|done].
    destruct (is_doctor _); [|done].
    destruct (rooms st !! roomId) as [room|]; [|done]. by eapply bound_same.
  - (* JoinVideo *)
    unfold join_video_call. destruct (Obj.get _ _) as [user|]; [|done].
    destruct (rooms st !! roomId) as [room|]; [|done]. by eapply bound_same.
  - (* EndVideo *)
    unfold end_video_call. destruct (Obj.get _ _) as [user|]; [|done].
    destruct (is_doctor _); [|done].
    destruct (rooms st !! roomId) as [room|]; [|done]. by eapply bound_same.
  - (* LeaveVideo *)
    unfold leave_video_call. destruct (Obj.get _ _) as [user|]; [|done].
    destruct (rooms st !! roomId) as [room|]; [|done]. by eapply bound_same.
  - (* Typing *) done.
  - (* RequestDocumentation *) done.
  - (* Disconnect *)
    assert (Hleft : forall st', users st' = Obj.del (users st) sid \/ users st' = users st ->
              Obj.get (users st) sid = None \/ users st' = Obj.del (users st) sid ->
              sockets st' = Obj.del (sockets st) sid -> bound_are_members st').
    { intros st' Hus Hcase Hss s u Hu. apply elem_of_members. rewrite Hss.
      assert (s <> sid /\ Obj.get (users st) s = Some u) as [Hne Hget].
      { destruct (decide (s = sid)) as [->|Hne].
        - exfalso. destruct Hcase as [Hnone|Hdel].
          + destruct Hus as [Hdel|Hsame].
            * rewrite Hdel, get_del_eq in Hu. done.
            * rewrite Hsame, Hnone in Hu. done.
          + rewrite Hdel, get_del_eq in Hu. done.
        - split; [done|]. destruct Hus as [Hdel|Hsame].
          + by rewrite Hdel, get_del_ne in Hu.
          + by rewrite Hsame in Hu. }
      apply Hinv, elem_of_members in Hget as (j & Hin & Hr).
      exists j. split; [|done]. by apply elem_of_del_ne. }
    unfold disconnect. destruct (Obj.get (users st) sid) as [user|] eqn:Hu.
    + destruct (rooms st !! User.roomId user); apply Hleft; auto.
    + apply Hleft; auto.
  - (* CreateRoom *)
    unfold create_room. destruct (_ || _); [done|]. by eapply bound_same.
  - (* DeleteRoom *)
    unfold delete_room. destruct (roomInvitations st !! hash) as [inv|].
    + destruct (negb _); [done|].
      destruct (rooms st !! Invitation.roomId inv); by eapply bound_same.
    + destruct (Js.inherited hash); [|done]. destruct doctorEmail; [done|].
      unfold remove_room. destruct (rooms st !! "undefined"); by eapply bound_same.
Qed.

(** In every run from the initial state, each bound connection is in
    the socket.io room it is bound to, and each tagged message of a log is
    an AI message. *)
Lemma run_invariants events : forall st,
  bound_are_members st -> tagged_are_ai st ->
  bound_are_members (run st events).1 /\ tagged_are_ai (run st events).1.
Proof.
  induction events as [|e events IH]; intros st Hb Ht; [done|]. cbn [run].
  pose proof (step_keeps_bound st e Hb) as Hb'.
  pose proof (step_keeps_tagged st e Ht) as Ht'.
  destruct (step st e) as [st1 emits]. cbn [fst] in *.
  specialize (IH st1 Hb' Ht'). by destruct (run st1 events).
Qed.

Lemma initial_bound : bound_are_members initial.
Proof. intros sid u Hu. done. Qed.

(** Among bound connections, a chat message without "@ai" reaches every
    connection bound to the room it is sent to. *)
Lemma chat_reaches_bound st sid roomId message avatarUrl now out s u :
  bound_are_members st ->
  chat_message st sid roomId message avatarUrl now = Some out ->
  is_Some (Obj.get (users st) sid) ->
  isAiCall message = false ->
  Obj.get (users st) s = Some u ->
  User.roomId u = roomId ->
  exists m, Message.content m = message
            /\ mkDelivery s (Some (User.role u)) (ChatMessage m)
               ∈ deliveries (chat_state out) (chat_emits out).
Proof.
  intros Hinv Hchat [user Huser] Hai Hu Hroom. unfold chat_message in Hchat.
  rewrite Huser, Hai in Hchat.
  destruct (rooms st !! roomId) as [room|]; [|done]. cbn [negb] in Hchat.
  injection Hchat as <-. cbn [chat_state chat_emits].
  eexists (Message.mk _ _ _ _ _ _ _ _ _). split; [reflexivity|].
  apply elem_of_deliveries. eexists. split; [by left|].
  cbn [to to_role what target payload recipients users with_rooms].
  rewrite Hu. repeat split. rewrite <- Hroom. by apply Hinv.
Qed.

Lemma initial_tagged : tagged_are_ai initial.
Proof. intros r room m Hr. simpl in Hr. by rewrite lookup_empty in Hr. Qed.

(** Role isolation on the admissible runs: from a state whose tagged
    messages are AI messages, the initial state for one, no delivery of an
    admissible run carries a tag other than the role of the connection that
    receives it. *)
Theorem isolation_on_admissible_runs events : forall st,
  tagged_are_ai st ->
  admissible_run st events ->
  Forall (fun d => ~ breaks_isolation d) (run st events).2.
Proof.
  induction events as [|e events IH]; intros st Hinv Hadm; [by constructor|].
  destruct Hadm as [Hadm Hrest]. cbn [run].
  pose proof (step_isolated st e) as Hstep.
  pose proof (step_keeps_tagged st e Hinv) as Hinv'.
  destruct (step st e) as [st1 emits]. cbn [fst snd] in *.
  specialize (IH st1 Hinv' Hrest).
  destruct (run st1 events) as [st2 log]. cbn [snd] in *.
  apply Forall_app. split; [|done].
  apply Forall_forall. intros d Hd. by apply Hstep.
Qed.

End Runs.

End RunFacts.

(** * Further properties *)

(** ** The rate limiter, continued *)

Module RateLimitMore.
Import RateLimit RateLimitFacts.

Section More.
Variable cfg : Config.

(** A check reads and writes the entry of its source only. *)
Lemma check_local l1 l2 ip now :
  l1 !! ip = l2 !! ip ->
  (checkSocketRateLimit cfg l1 ip now).2 = (checkSocketRateLimit cfg l2 ip now).2
  /\ (checkSocketRateLimit cfg l1 ip now).1 !! ip
     = (checkSocketRateLimit cfg l2 ip now).1 !! ip.
Proof.
  intros H. unfold checkSocketRateLimit. rewrite <- H.
  destruct (l1 !! ip) as [l|] eqn:Hl; simpl.
  - destruct (resetTime l <? now); simpl; [by rewrite !lookup_insert_eq|].
    destruct (RATE_LIMIT_MAX cfg <=? count l); simpl; [by rewrite Hl, <- H|].
    by rewrite !lookup_insert_eq.
  - by rewrite !lookup_insert_eq.
Qed.

Lemma run_local ip reqs : forall l1 l2,
  l1 !! ip = l2 !! ip ->
  answers_for ip reqs (run cfg l1 reqs).2
    = (run cfg l2 (filter (fun r => r.1 = ip) reqs)).2
  /\ (run cfg l1 reqs).1 !! ip
     = (run cfg l2 (filter (fun r => r.1 = ip) reqs)).1 !! ip.
Proof.
  induction reqs as [|[ip' now] reqs IH]; intros l1 l2 H; [done|].
  rewrite run_cons, filter_cons. cbn [fst snd answers_for].
  destruct (decide (ip' = ip)) as [->|Hne].
  - rewrite run_cons. cbn [fst snd].
    destruct (check_local l1 l2 ip now H) as [Hok Hent].
    destruct (IH _ _ Hent) as [IH1 IH2]. by rewrite Hok, IH1, IH2.
  - apply IH. by rewrite check_other.
Qed.

(** X1. The limiter is per source: in any run, the answers given to
    one source, and the entry it ends with, are those of the run of its
    own checks alone. *)
Theorem sources_do_not_interfere limits ip reqs :
  answers_for ip reqs (run cfg limits reqs).2
    = (run cfg limits (filter (fun r => r.1 = ip) reqs)).2
  /\ (run cfg limits reqs).1 !! ip
     = (run cfg limits (filter (fun r => r.1 = ip) reqs)).1 !! ip.
Proof. by apply run_local. Qed.

(** A rejected check leaves the table as it was, so it does not
    extend the window; an allowed check changes the entry of its source
    alone. *)
Lemma check_frame limits ip now :
  ((checkSocketRateLimit cfg limits ip now).2 = false ->
     (checkSocketRateLimit cfg limits ip now).1 = limits)
  /\ (forall ip', ip' <> ip ->
        (checkSocketRateLimit cfg limits ip now).1 !! ip' = limits !! ip')
  /\ ((checkSocketRateLimit cfg limits ip now).2 = false ->
        exists l, limits !! ip = Some l /\ now <= resetTime l
                  /\ RATE_LIMIT_MAX cfg <= count l).
Proof.
  split; [|split].
  - unfold checkSocketRateLimit. destruct (limits !! ip) as [l|]; [|done].
    destruct (resetTime l <? now); [done|].
    by destruct (RATE_LIMIT_MAX cfg <=? count l).
  - intros ip' Hne. by apply check_other.
  - unfold checkSocketRateLimit. destruct (limits !! ip) as [l|]; [|done].
    destruct (resetTime l <? now) eqn:Hr; [done|].
    destruct (RATE_LIMIT_MAX cfg <=? count l) eqn:Hc; [|done].
    intros _. exists l. split; [done|]. lia.
Qed.

Lemma check_keeps_bound limits ip now :
  counts_bounded cfg limits -> counts_bounded cfg (checkSocketRateLimit cfg limits ip now).1.
Proof.
  intros Hinv ip' l'. unfold checkSocketRateLimit.
  destruct (limits !! ip) as [l|] eqn:Hl.
  - destruct (resetTime l <? now); simpl.
    + intros [[_ <-]|[_ H]]%lookup_insert_Some; [simpl; lia | by eapply Hinv].
    + destruct (RATE_LIMIT_MAX cfg <=? count l) eqn:Hc; simpl; [by apply Hinv|].
      intros [[_ <-]|[_ H]]%lookup_insert_Some; [|by eapply Hinv].
      simpl. specialize (Hinv _ _ Hl). lia.
  - simpl. intros [[_ <-]|[_ H]]%lookup_insert_Some; [simpl; lia | by eapply Hinv].
Qed.

(** X2. The counter of a source never passes the limit: after any run
    from the empty table, every entry counts at least 1 and at most
    [RATE_LIMIT_MAX] (1 when the limit is below 1). *)
Theorem counters_stay_bounded reqs ip l :
  (run cfg ∅ reqs).1 !! ip = Some l ->
  1 <= count l <= Z.max 1 (RATE_LIMIT_MAX cfg).
Proof.
  assert (H : forall limits, counts_bounded cfg limits -> counts_bounded cfg (run cfg limits reqs).1).
  { induction reqs as [|[ip' now] reqs IH]; intros limits Hinv; [done|].
    rewrite run_cons. cbn [fst]. by apply IH, check_keeps_bound. }
  apply (H ∅). intros ip' l' Hl. by rewrite lookup_empty in Hl.
Qed.

End More.

Lemma counters_stay_bounded_witness :
  1 <= 3 <= Z.max 1 (RATE_LIMIT_MAX default_config).
Proof.
  apply (counters_stay_bounded default_config
           [("10.0.0.7", 0); ("10.0.0.9", 5); ("10.0.0.7", 10); ("10.0.0.7", 20)]
           "10.0.0.7" {| count := 3; resetTime := 21600000 |}).
  vm_compute. reflexivity.
Defined.

End RateLimitMore.

(** ** Invitations *)

Module InvitationFacts.
Import ObjFacts.

Lemma truthy_str_Some s : s <> "" -> Js.truthy_str (Some s) = true.
Proof. intros H. simpl. by apply String.eqb_neq in H as ->. Qed.

(** X3. An invitation answers to the two e-mails it was made for, as
    [String.prototype.toLowerCase] folds them, and to no other.  After a
    create-room for [d] and [p] under the hash [h], validate-room with an
    e-mail whose lower-cased form is that of [d] answers with the role
    "doctor"; otherwise, with one whose lower-cased form is that of [p],
    with the role "patient"; otherwise, and without an e-mail, with 403.
    The answers for the other hashes are as before.  This holds for every
    [toLowerCase] the runtime may have. *)
Theorem create_then_validate {engine : Js.Engine} st d p h now :
  d <> "" -> p <> "" ->
  let st' := (create_room st (Some d) (Some p) h now).1 in
  let roomId := "room_" ++ Js.decimal now in
  (forall e,
     validate_room st' h (Some e)
     = if String.eqb (Js.toLowerCase e) (Js.toLowerCase d)
       then RoomValid roomId "doctor" (Js.toLowerCase p) (Js.toLowerCase d)
       else if String.eqb (Js.toLowerCase e) (Js.toLowerCase p)
            then RoomValid roomId "patient" (Js.toLowerCase p) (Js.toLowerCase d)
            else Status403 "You are not authorized to join this room")
  /\ validate_room st' h None = Status403 "You are not authorized to join this room"
  /\ (forall h' e, h' <> h -> validate_room st' h' e = validate_room st h' e)
  /\ rooms st' !! roomId
     = Some (Room.mk [] [] None None None None Js.JNull
               (Some (Js.toLowerCase p)) (Some (Js.toLowerCase d)) false []).
Proof.
  intros Hd Hp st' roomId. subst st' roomId. unfold create_room.
  rewrite !truthy_str_Some by done. cbn [negb orb fst default].
  split; [|split; [|split]].
  - intros e. unfold validate_room. cbn [roomInvitations with_invitations with_rooms].
    rewrite lookup_insert_eq. cbn [fmap option_fmap option_map Invitation.doctorEmail
      Invitation.patientEmail Invitation.roomId].
    destruct (String.eqb (Js.toLowerCase e) (Js.toLowerCase d)) eqn:Hed.
    + apply String.eqb_eq in Hed. rewrite Hed. by rewrite bool_decide_eq_true_2.
    + apply String.eqb_neq in Hed. rewrite (bool_decide_eq_false_2 (Some _ = Some (Js.toLowerCase d)))
        by congruence.
      destruct (String.eqb (Js.toLowerCase e) (Js.toLowerCase p)) eqn:Hep.
      * apply String.eqb_eq in Hep. rewrite Hep. by rewrite bool_decide_eq_true_2.
      * apply String.eqb_neq in Hep.
        by rewrite (bool_decide_eq_false_2 (Some _ = Some (Js.toLowerCase p))) by congruence.
  - unfold validate_room. cbn [roomInvitations with_invitations with_rooms].
    by rewrite lookup_insert_eq.
  - intros h' e Hne. unfold validate_room. cbn [roomInvitations with_invitations with_rooms].
    by rewrite lookup_insert_ne.
  - cbn [rooms with_invitations with_rooms]. by rewrite lookup_insert_eq.
Qed.

Lemma create_then_validate_witness :
  validate_room Ex.booked "5d41402abc4b2a76b9719d911017c592" (Some "RAO@clinic.example")
  = RoomValid Ex.room "doctor" "alex@mail.example" "rao@clinic.example".
Proof.
  assert (Hd : "Rao@Clinic.example" <> "") by discriminate.
  assert (Hp : "alex@mail.example" <> "") by discriminate.
  destruct (create_then_validate initial "Rao@Clinic.example" "alex@mail.example"
              "5d41402abc4b2a76b9719d911017c592" 1718000000000 Hd Hp) as [H _].
  exact (H "RAO@clinic.example").
Defined.

(** X4. Only the doctor's e-mail deletes a room made by create-room.
    A delete-room passes the ownership test in two cases only: an
    invitation is stored under the hash and the lower-cased e-mail of the
    request is its doctor e-mail; or no invitation is stored under the
    hash, the hash names a property of [Object.prototype] ("constructor",
    "__proto__", "toString", ...) and the request has no e-mail.  A
    request that does not pass leaves the whole state as it was and sends
    nothing: the answer is 403 when an invitation is stored under the hash
    or the hash names a property of [Object.prototype], and 404 otherwise.
    A request that passes is answered with success; for the name of a
    property of [Object.prototype] it removes no invitation, and the room
    it removes is the one named "undefined", if there is one. *)
Theorem delete_room_gate {engine : Js.Engine} st hash e :
  let passes :=
    match roomInvitations st !! hash with
    | Some inv => bool_decide ((Js.toLowerCase <$> e) = Some (Invitation.doctorEmail inv))
    | None => Js.inherited hash && bool_decide (e = None)
    end in
  if passes then
    (delete_room st hash e).2 = RoomRemoved
    /\ (roomInvitations st !! hash = None ->
        roomInvitations (delete_room st hash e).1.1 = roomInvitations st
        /\ rooms (delete_room st hash e).1.1 = delete "undefined" (rooms st)
        /\ (delete_room st hash e).1.2
           = match rooms st !! "undefined" with
             | Some _ => [mkEmit (ToRoom "undefined")
                            (RoomDeleted "This consultation room has been deleted by the doctor")]
             | None => []
             end)
  else
    (delete_room st hash e).1.1 = st
    /\ (delete_room st hash e).1.2 = []
    /\ (delete_room st hash e).2
       = match roomInvitations st !! hash with
         | Some _ => Status403 "Only the doctor who created this room can delete it"
         | None =>
             if Js.inherited hash
             then Status403 "Only the doctor who created this room can delete it"
             else Status404 "Room not found"
         end.
Proof.
  intros passes. subst passes. unfold delete_room.
  destruct (roomInvitations st !! hash) as [inv|] eqn:Hinv.
  - case_bool_decide as He.
    + rewrite bool_decide_eq_true_2 by done. cbn [negb].
      by destruct (rooms st !! Invitation.roomId inv).
    + by rewrite bool_decide_eq_false_2 by congruence.
  - destruct (Js.inherited hash); cbn [andb]; [|done].
    destruct e as [e|]; [by rewrite bool_decide_eq_false_2 by done|].
    rewrite bool_decide_eq_true_2 by done. unfold remove_room.
    destruct (rooms st !! "undefined") as [room|] eqn:Hr; cbn [fst snd].
    + done.
    + split; [done|]. intros _. split; [done|]. split; [|done].
      cbn [rooms]. by rewrite delete_id.
Qed.

Lemma delete_room_gate_witness :
  (delete_room Ex.booked "5d41402abc4b2a76b9719d911017c592" (Some "alex@mail.example")).1.1
  = Ex.booked
  /\ (delete_room Ex.booked "constructor" None).2 = RoomRemoved.
Proof.
  split.
  - pose proof (delete_room_gate Ex.booked "5d41402abc4b2a76b9719d911017c592"
                  (Some "alex@mail.example")) as H.
    cbv zeta in H.
    replace (roomInvitations Ex.booked !! "5d41402abc4b2a76b9719d911017c592")
      with (Some (Invitation.mk Ex.room "alex@mail.example" "rao@clinic.example"
                    1718000000000 false)) in H by (vm_compute; reflexivity).
    exact (proj1 H).
  - pose proof (delete_room_gate Ex.booked "constructor" None) as H.
    cbv zeta in H.
    replace (roomInvitations Ex.booked !! "constructor")
      with (@None Invitation.t) in H by (vm_compute; reflexivity).
    exact (proj1 H).
Defined.

(** X5. What a delete leaves behind.  When the doctor of an invitation
    deletes it, the invitation and its room are gone and the connections in
    the room are told so; but the bindings and the socket.io rooms are
    kept.  So validate-room answers 404 (for a hash that names a property
    of [Object.prototype] it answers as for such a name), a chat message
    from a connection still bound to the room throws and changes nothing,
    and a join-room finds nothing of the old room: the room it makes is
    empty. *)
Theorem delete_room_aftermath {engine : Js.Engine} st hash e inv :
  roomInvitations st !! hash = Some inv ->
  (Js.toLowerCase <$> e) = Some (Invitation.doctorEmail inv) ->
  let st' := (delete_room st hash e).1.1 in
  let roomId := Invitation.roomId inv in
  roomInvitations st' !! hash = None
  /\ rooms st' !! roomId = None
  /\ users st' = users st
  /\ sockets st' = sockets st
  /\ (delete_room st hash e).1.2
     = match rooms st !! roomId with
       | Some _ => [mkEmit (ToRoom roomId)
                      (RoomDeleted "This consultation room has been deleted by the doctor")]
       | None =>
           if Js.inherited roomId
           then [mkEmit (ToRoom roomId)
                   (RoomDeleted "This consultation room has been deleted by the doctor")]
           else []
       end
  /\ (forall e',
        validate_room st' hash e'
        = if Js.inherited hash
          then match e' with
               | None => RoomValidBare "doctor"
               | Some _ => Status403 "You are not authorized to join this room"
               end
          else Status404 "Invalid room link")
  /\ (forall sid message avatarUrl now,
        is_Some (Obj.get (users st) sid) ->
        chat_message st' sid roomId message avatarUrl now = None
        /\ step st' (Chat sid roomId message avatarUrl now) = (st', []))
  /\ (forall sid p, join_roomId p = roomId ->
        Room.messages (room_of (join_room st' sid p).1 roomId) = []
        /\ Room.files (room_of (join_room st' sid p).1 roomId) = []).
Proof.
  intros Hinv He st' roomId.
  assert (Hgone : roomInvitations st' !! hash = None /\ rooms st' !! roomId = None
                  /\ users st' = users st /\ sockets st' = sockets st).
  { subst st' roomId. unfold delete_room.
    rewrite Hinv, He, bool_decide_eq_true_2 by done. cbn [negb].
    destruct (rooms st !! Invitation.roomId inv) as [room|] eqn:Hr;
      cbn [fst snd rooms users sockets roomInvitations with_rooms with_invitations];
      rewrite !lookup_delete_eq; by rewrite ?Hr. }
  destruct Hgone as (Hi & Hr' & Hu & Hs).
  split; [done|]. split; [done|]. split; [done|]. split; [done|]. split; [|split; [|split]].
  - subst st' roomId. unfold delete_room.
    rewrite Hinv, He, bool_decide_eq_true_2 by done. cbn [negb].
    by destruct (rooms st !! Invitation.roomId inv).
  - intros e'. unfold validate_room. by rewrite Hi.
  - intros sid message avatarUrl now [u Hget].
    assert (chat_message st' sid roomId message avatarUrl now = None) as Hchat.
    { unfold chat_message. by rewrite Hu, Hget, Hr'. }
    split; [done|]. cbn [step]. by rewrite Hchat.
  - intros sid p Hp. unfold room_of, join_room, reads_runtime_object.
    rewrite Hp, Hr', bool_decide_eq_true_2 by done. cbn [andb].
    destruct (Js.inherited roomId).
    + cbn [fst rooms]. by rewrite Hr'.
    + cbn [join_room_plain fst rooms]. rewrite Hp, lookup_insert_eq, Hr'.
      by destruct (is_patient _).
Qed.

Lemma delete_room_aftermath_witness :
  rooms (delete_room Ex.stranger_joined "5d41402abc4b2a76b9719d911017c592"
           (Some "rao@CLINIC.example")).1.1 !! Ex.room = None
  /\ chat_message
       (delete_room Ex.stranger_joined "5d41402abc4b2a76b9719d911017c592"
          (Some "rao@CLINIC.example")).1.1
       Ex.D2 Ex.room "are you there?" None 1718000009000 = None.
Proof.
  assert (Hinv : roomInvitations Ex.stranger_joined !! "5d41402abc4b2a76b9719d911017c592"
                 = Some (Invitation.mk Ex.room "alex@mail.example" "rao@clinic.example"
                           1718000000000 false))
    by (vm_compute; reflexivity).
  assert (He : (Js.toLowerCase <$> Some "rao@CLINIC.example") = Some "rao@clinic.example")
    by reflexivity.
  destruct (delete_room_aftermath Ex.stranger_joined "5d41402abc4b2a76b9719d911017c592"
              (Some "rao@CLINIC.example") _ Hinv He)
    as (_ & H2 & _ & _ & _ & _ & H7 & _).
  split; [exact H2|].
  apply H7. vm_compute. by eexists.
Defined.

(** X6. The id of a room is the clock alone.  Two create-room requests
    served in the same millisecond under different hashes get the same
    room id: both invitations are kept and lead to one room, which is the
    empty room of the second request, bound to its two e-mails. *)
Theorem same_millisecond_same_room {engine : Js.Engine} st d1 p1 h1 d2 p2 h2 now :
  d1 <> "" -> p1 <> "" -> d2 <> "" -> p2 <> "" -> h1 <> h2 ->
  let st1 := (create_room st (Some d1) (Some p1) h1 now).1 in
  let st2 := (create_room st1 (Some d2) (Some p2) h2 now).1 in
  validate_room st2 h1 (Some d1)
  = RoomValid ("room_" ++ Js.decimal now) "doctor" (Js.toLowerCase p1) (Js.toLowerCase d1)
  /\ validate_room st2 h2 (Some d2)
     = RoomValid ("room_" ++ Js.decimal now) "doctor" (Js.toLowerCase p2) (Js.toLowerCase d2)
  /\ rooms st2 !! ("room_" ++ Js.decimal now)
     = Some (Room.mk [] [] None None None None Js.JNull
               (Some (Js.toLowerCase p2)) (Some (Js.toLowerCase d2)) false []).
Proof.
  intros Hd1 Hp1 Hd2 Hp2 Hne st1 st2. subst st1 st2. unfold create_room.
  rewrite !truthy_str_Some by done. cbn [negb orb fst default].
  unfold validate_room. cbn [roomInvitations rooms with_invitations with_rooms].
  rewrite lookup_insert_ne by done. rewrite !lookup_insert_eq.
  cbn [fmap option_fmap option_map Invitation.doctorEmail Invitation.patientEmail
         Invitation.roomId].
  unfold id.
  rewrite (bool_decide_eq_true_2 (Some (Js.toLowerCase d1) = Some (Js.toLowerCase d1)))
    by done.
  rewrite !(bool_decide_eq_true_2 (Some (Js.toLowerCase d2) = Some (Js.toLowerCase d2)))
    by done.
  cbn [negb andb]. done.
Qed.

Lemma same_millisecond_same_room_witness :
  validate_room
    (create_room
       (create_room initial (Some "rao@clinic.example") (Some "alex@mail.example")
          "5d41402abc4b2a76b9719d911017c592" 1718000000000).1
       (Some "lee@clinic.example") (Some "kim@mail.example")
       "7d793037a0760186574b0282f2f435e7" 1718000000000).1
    "5d41402abc4b2a76b9719d911017c592" (Some "rao@clinic.example")
  = RoomValid Ex.room "doctor" "alex@mail.example" "rao@clinic.example".
Proof.
  assert (H1 : "rao@clinic.example" <> "") by discriminate.
  assert (H2 : "alex@mail.example" <> "") by discriminate.
  assert (H3 : "lee@clinic.example" <> "") by discriminate.
  assert (H4 : "kim@mail.example" <> "") by discriminate.
  assert (H5 : "5d41402abc4b2a76b9719d911017c592" <> "7d793037a0760186574b0282f2f435e7")
    by discriminate.
  destruct (same_millisecond_same_room initial _ _ _ _ _ _ 1718000000000 H1 H2 H3 H4 H5)
    as [H _].
  exact H.
Defined.

End InvitationFacts.

(** ** Joining and leaving, continued *)

Module PresenceMore.
Import ObjFacts DeliveryFacts RunFacts.

Lemma set_set {V} (o : list (SocketId * V)) k v v' :
  Obj.set (Obj.set o k v) k v' = Obj.set o k v'.
Proof.
  induction o as [|[k0 v0] o IH]; simpl.
  - by rewrite decide_True.
  - destruct (decide (k0 = k)) as [->|Hne]; simpl.
    + by rewrite decide_True.
    + by rewrite decide_False, IH.
Qed.

Lemma socket_join_twice sid roomId ss :
  socket_join sid roomId (socket_join sid roomId ss) = socket_join sid roomId ss.
Proof.
  unfold socket_join. set (joined := default [] (Obj.get ss sid)).
  set (joined' := if bool_decide (roomId ∈ joined) then joined else (joined ++ [roomId])%list).
  rewrite get_set_eq. cbn [default]. rewrite set_set.
  assert (Hin : roomId ∈ joined').
  { subst joined'. case_bool_decide; [done|]. apply elem_of_app. right. by left. }
  by rewrite bool_decide_eq_true_2.
Qed.

Lemma set_slot_twice role n a room :
  (if is_patient role
   then Room.set_patient n a
          (if is_patient role then Room.set_patient n a room else Room.set_doctor n a room)
   else Room.set_doctor n a
          (if is_patient role then Room.set_patient n a room else Room.set_doctor n a room))
  = (if is_patient role then Room.set_patient n a room else Room.set_doctor n a room).
Proof. by destruct (is_patient role). Qed.

Lemma join_room_plain_twice st sid p :
  (join_room_plain (join_room_plain st sid p).1 sid p).1 = (join_room_plain st sid p).1
  /\ (join_room_plain (join_room_plain st sid p).1 sid p).2 = (join_room_plain st sid p).2.
Proof.
  assert (Hroom : default Room.fresh (rooms (join_room_plain st sid p).1 !! join_roomId p)
                  = (if is_patient (join_role p)
                     then Room.set_patient (Some (join_nickname p)) (join_avatarUrl p)
                            (default Room.fresh (rooms st !! join_roomId p))
                     else Room.set_doctor (Some (join_nickname p)) (join_avatarUrl p)
                            (default Room.fresh (rooms st !! join_roomId p)))).
  { cbn [join_room_plain fst rooms]. by rewrite lookup_insert_eq. }
  split.
  - unfold join_room_plain at 1. cbn [fst]. rewrite Hroom, set_slot_twice.
    cbn [join_room_plain fst rooms users roomInvitations sockets].
    by rewrite insert_insert_eq, set_set, socket_join_twice.
  - unfold join_room_plain at 1. cbn [snd]. by rewrite Hroom, set_slot_twice.
Qed.

(** X7. join-room is idempotent: a connection that sends the same
    join-room twice leaves the server in the state the first one made,
    and is sent the same events again, the history among them. *)
Theorem join_room_twice st sid p :
  (join_room (join_room st sid p).1 sid p).1 = (join_room st sid p).1
  /\ (join_room (join_room st sid p).1 sid p).2 = (join_room st sid p).2.
Proof.
  unfold join_room. destruct (reads_runtime_object st (join_roomId p)) eqn:Hrt.
  - (* an object of the runtime, before and after *)
    unfold reads_runtime_object in *. cbn [fst snd rooms users roomInvitations sockets].
    rewrite Hrt. cbn [fst snd]. by rewrite set_set, socket_join_twice.
  - (* the room exists after the first one *)
    assert (reads_runtime_object (join_room_plain st sid p).1 (join_roomId p) = false) as ->.
    { unfold reads_runtime_object. cbn [join_room_plain fst rooms].
      by rewrite lookup_insert_eq, bool_decide_eq_false_2. }
    apply join_room_plain_twice.
Qed.

Lemma elem_of_set_or {V} (o : list (SocketId * V)) k v v' :
  (k, v) ∈ o -> (k, v) ∈ Obj.set o k v' \/ Obj.get o k = Some v.
Proof.
  induction o as [|[k0 v0] o IH]; simpl; [by intros ?%elem_of_nil|].
  intros [[= <- <-]|Hin]%elem_of_cons.
  - right. by rewrite decide_True.
  - destruct (decide (k0 = k)) as [->|Hne].
    + left. by right.
    + destruct (IH Hin) as [H|H]; [left; by right | by right].
Qed.

(** X8. join-room never takes a connection out of a socket.io room.  A
    connection that joins a second room is bound to the second one, but
    stays a member of the first and goes on receiving what is sent to
    it. *)
Theorem join_room_keeps_memberships st sid p r s :
  s ∈ room_members st r ->
  s ∈ room_members (join_room st sid p).1 r
  /\ s ∈ recipients (join_room st sid p).1 (ToRoom r)
  /\ (User.roomId <$> Obj.get (users (join_room st sid p).1) sid) = Some (join_roomId p).
Proof.
  intros Hin.
  assert (Hmem : s ∈ room_members (join_room st sid p).1 r).
  { apply elem_of_members in Hin as (j & Hj & Hr). apply elem_of_members.
    assert (sockets (join_room st sid p).1 = socket_join sid (join_roomId p) (sockets st))
      as -> by (unfold join_room; by destruct (reads_runtime_object _ _)).
    unfold socket_join.
    destruct (decide (s = sid)) as [->|Hne].
    - destruct (elem_of_set_or (sockets st) sid j
                  (if bool_decide (join_roomId p ∈ default [] (Obj.get (sockets st) sid))
                   then default [] (Obj.get (sockets st) sid)
                   else (default [] (Obj.get (sockets st) sid) ++ [join_roomId p])%list) Hj)
        as [H|H].
      + by exists j.
      + eexists. split; [apply set_elem|]. rewrite H. cbn [default].
        destruct Hr as [Hr|Hr]; [left | by right].
        case_bool_decide; [done|]. apply elem_of_app. by left.
    - exists j. split; [|done]. by apply elem_of_set_ne. }
  split; [done|]. split; [done|].
  unfold join_room. destruct (reads_runtime_object _ _);
    cbn [join_room_plain fst users]; by rewrite get_set_eq.
Qed.

Lemma join_room_keeps_memberships_witness :
  Ex.P ∈ recipients
           (join_room Ex.both_joined Ex.P
              (mkJoin "room_1718000500000" "Alex" "patient" None None)).1
           (ToRoom Ex.room).
Proof.
  assert (H : Ex.P ∈ room_members Ex.both_joined Ex.room)
    by (vm_compute; right; left).
  destruct (join_room_keeps_memberships Ex.both_joined Ex.P
              (mkJoin "room_1718000500000" "Alex" "patient" None None) Ex.room Ex.P H)
    as (_ & H2 & _).
  exact H2.
Defined.

Lemma not_elem_of_del {V} (o : list (SocketId * V)) k v : (k, v) ∉ Obj.del o k.
Proof.
  induction o as [|[k0 v0] o IH]; simpl; [by intros ?%elem_of_nil|].
  destruct (decide (k0 = k)) as [->|Hne]; [done|].
  intros [[= <- <-]|Hin]%elem_of_cons; done.
Qed.

(** X9. After its disconnect a connection is bound to nothing and
    nothing reaches it: it is in no socket.io room, and an event sent to
    its id reaches nobody. *)
Theorem disconnect_silences st sid :
  Obj.get (users (disconnect st sid).1) sid = None
  /\ (forall r, sid ∉ room_members (disconnect st sid).1 r)
  /\ (forall t, sid ∉ recipients (disconnect st sid).1 t).
Proof.
  assert (Hs : sockets (disconnect st sid).1 = Obj.del (sockets st) sid).
  { unfold disconnect. destruct (Obj.get (users st) sid) as [u|]; [|done].
    by destruct (rooms st !! User.roomId u). }
  assert (Hm : forall r, sid ∉ room_members (disconnect st sid).1 r).
  { intros r (j & Hj & _)%elem_of_members. rewrite Hs in Hj. by apply not_elem_of_del in Hj. }
  split; [|split; [done|]].
  - unfold disconnect. destruct (Obj.get (users st) sid) as [u|] eqn:Hu; [|done].
    destruct (rooms st !! User.roomId u);
      cbn [fst users with_rooms with_users with_sockets]; apply get_del_eq.
  - intros [r|s|r s]; cbn [recipients].
    + apply Hm.
    + unfold connected. rewrite Hs. destruct (decide (s = sid)) as [->|Hne].
      * rewrite get_del_eq. rewrite bool_decide_eq_false_2; [by intros ?%elem_of_nil|].
        by intros [? ?].
      * destruct (bool_decide _); [|by intros ?%elem_of_nil].
        by intros ?%list_elem_of_singleton.
    + intros [_ H]%list_elem_of_filter. by apply Hm in H.
Qed.

End PresenceMore.

(** ** The footprint of an event on the rooms *)

Module FootprintFacts.
Import ObjFacts.

Ltac one_room :=
  right; left; eexists _, _; split; [reflexivity|]; econstructor; eauto.

(** An event leaves [rooms] alone, or writes one entry as [RoomChange]
    says, or (a delete-room) removes one. *)
Lemma step_rooms {engine : Js.Engine} st e :
  rooms (step st e).1 = rooms st
  \/ (exists r room', rooms (step st e).1 = <[r := room']> (rooms st)
                      /\ RoomChange st e r (rooms st !! r) room')
  \/ (exists r h d, e = DeleteRoom h d /\ rooms (step st e).1 = delete r (rooms st)).
Proof.
  destruct e; cbn [step fst].
  - (* Connect *) left. unfold connect. by destruct (Obj.get _ _).
  - (* JoinRoom *)
    unfold join_room. destruct (reads_runtime_object _ _); [by left | one_room].
  - (* Chat *)
    unfold chat_message. destruct (Obj.get _ _) as [user|]; [|by left].
    destruct (rooms st !! roomId) as [room|] eqn:Hr; [|by left].
    destruct (isAiCall message); cbn [negb chat_state];
      right; left; eexists _, _; (split; [reflexivity|]); rewrite Hr; econstructor.
  - (* AiReply *)
    unfold ai_reply. destruct (rooms st !! ai_roomId req) as [room|] eqn:Hr; [|by left].
    right; left; eexists _, _; (split; [reflexivity|]); rewrite Hr; econstructor.
  - (* Upload *)
    unfold upload. destruct file as [file|]; [|by left].
    destruct (body_roomId body) as [roomId|]; [|by left].
    destruct (String.eqb roomId ""); [by left|].
    destruct (if analysable (extracted res) then option_map Some _ else Some None) as [s|];
      [|by left].
    destruct (rooms st !! roomId) as [room|] eqn:Hr;
      [|left; by destruct (Js.inherited roomId)].
    right; left; eexists _, _; (split; [reflexivity|]); rewrite Hr; econstructor.
  - (* Fire *)
    destruct t as [roomId analysis|roomId by_ name]; cbn [fire].
    + unfold doctor_timer. destruct (Obj.find_key _ _); [|by left].
      destruct (rooms st !! roomId) as [room|] eqn:Hr; [|by left].
      destruct (Js.truthy_str _); [|by left].
      right; left; eexists _, _; (split; [reflexivity|]); rewrite Hr; econstructor.
    + unfold patient_timer. destruct (Obj.find_key _ _); [|by left].
      destruct (rooms st !! roomId) as [room|] eqn:Hr; [|by left].
      right; left; eexists _, _; (split; [reflexivity|]); rewrite Hr; econstructor.
  - (* StartVideo *)
    unfold start_video_call. destruct (Obj.get _ _) as [user|] eqn:Hu; [|by left].
    destruct (is_doctor _) eqn:Hd; [|by left]. apply String.eqb_eq in Hd.
    destruct (rooms st !! roomId) as [room|] eqn:Hr; [|by left].
    right; left; eexists _, _; (split; [reflexivity|]); rewrite Hr; by econstructor.
  - (* JoinVideo *)
    unfold join_video_call. destruct (Obj.get _ _) as [user|]; [|by left].
    destruct (rooms st !! roomId) as [room|] eqn:Hr; [|by left].
    right; left; eexists _, _; (split; [reflexivity|]); rewrite Hr; econstructor.
  - (* EndVideo *)
    unfold end_video_call. destruct (Obj.get _ _) as [user|] eqn:Hu; [|by left].
    destruct (is_doctor _) eqn:Hd; [|by left]. apply String.eqb_eq in Hd.
    destruct (rooms st !! roomId) as [room|] eqn:Hr; [|by left].
    right; left; eexists _, _; (split; [reflexivity|]); rewrite Hr; by econstructor.
  - (* LeaveVideo *)
    unfold leave_video_call. destruct (Obj.get _ _) as [user|]; [|by left].
    destruct (rooms st !! roomId) as [room|] eqn:Hr; [|by left].
    right; left; eexists _, _; (split; [reflexivity|]); rewrite Hr; econstructor.
  - (* Typing *) by left.
  - (* RequestDocumentation *) by left.
  - (* Disconnect *)
    unfold disconnect. destruct (Obj.get _ _) as [user|]; [|by left].
    destruct (rooms st !! User.roomId user) as [room|] eqn:Hr; [|by left].
    right; left; eexists _, _; (split; [reflexivity|]); rewrite Hr; econstructor.
  - (* CreateRoom *)
    unfold create_room. destruct (_ || _); [by left|]. one_room.
  - (* DeleteRoom *)
    unfold delete_room. destruct (roomInvitations st !! hash) as [inv|].
    + destruct (negb _); [by left|].
      destruct (rooms st !! Invitation.roomId inv); [|by left].
      right; right. by eexists _, _, _.
    + destruct (Js.inherited hash); [|by left]. destruct doctorEmail; [by left|].
      unfold remove_room. destruct (rooms st !! "undefined").
      * right; right. by eexists _, _, _.
      * left. by destruct (Js.inherited "undefined").
Qed.

(** X10. The logs are append-only.  An event other than a create-room
    or a delete-room keeps every room there is, and the messages and the
    files the room had are a prefix of those it has afterwards. *)
Theorem logs_only_grow {engine : Js.Engine} st e r room :
  resets_rooms e = false ->
  rooms st !! r = Some room ->
  exists room',
    rooms (step st e).1 !! r = Some room'
    /\ Room.messages room `prefix_of` Room.messages room'
    /\ Room.files room `prefix_of` Room.files room'.
Proof.
  intros He Hr.
  destruct (step_rooms st e) as [Hsame|[(r' & room' & Hins & Hch)|(r' & h & d & -> & _)]];
    [| |done].
  - exists room. by rewrite Hsame.
  - rewrite Hins. destruct (decide (r' = r)) as [->|Hne].
    + exists room'. rewrite lookup_insert_eq. split; [done|].
      rewrite Hr in Hch. inversion Hch; subst; simpl;
        try (by destruct (is_patient _));
        try (by destruct (analysable _); simpl; split; apply prefix_app_r);
        try (split; [by apply prefix_app_r | done]); try done.
    + exists room. by rewrite lookup_insert_ne.
Qed.

Lemma logs_only_grow_witness :
  exists room',
    rooms (step Ex.both_joined
             (Upload Ex.by_patient (Some Ex.report) Ex.first_results Ex.t_upload)).1 !! Ex.room
    = Some room'
    /\ Room.messages (room_of Ex.both_joined Ex.room) `prefix_of` Room.messages room'
    /\ Room.files (room_of Ex.both_joined Ex.room) `prefix_of` Room.files room'.
Proof.
  apply (logs_only_grow Ex.both_joined
           (Upload Ex.by_patient (Some Ex.report) Ex.first_results Ex.t_upload)
           Ex.room (room_of Ex.both_joined Ex.room)).
  - reflexivity.
  - vm_compute. reflexivity.
Defined.

End FootprintFacts.

(** ** Video-call signalling, continued *)

Module VideoMore.
Import ObjFacts FootprintFacts.

Lemma change_keeps_roster st e r old room' :
  RoomChange st e r old room' ->
  (forall room, old = Some room -> NoDup (Room.videoParticipants room)) ->
  NoDup (Room.videoParticipants room').
Proof.
  intros Hch Hold. inversion Hch; subst; simpl;
    try (specialize (Hold _ eq_refl)); try done; try apply NoDup_nil_2.
  - destruct old as [room|]; [specialize (Hold _ eq_refl)|];
      destruct (is_patient _); simpl; first [done | apply NoDup_nil_2].
  - by destruct (analysable _).
  - case_bool_decide; [done|]. apply NoDup_app. split; [done|]. split.
    + intros x Hx ->%list_elem_of_singleton. done.
    + apply NoDup_singleton.
  - by apply NoDup_filter.
  - by destruct (is_patient _).
Qed.

Lemma step_keeps_rosters {engine : Js.Engine} st e :
  rosters_have_no_duplicates st -> rosters_have_no_duplicates (step st e).1.
Proof.
  intros Hinv r0 room0.
  destruct (step_rooms st e) as [Hsame|[(r & room' & Hins & Hch)|(r & h & d & _ & Hdel)]].
  - rewrite Hsame. apply Hinv.
  - rewrite Hins. destruct (decide (r = r0)) as [->|Hne].
    + rewrite lookup_insert_eq. intros [= <-]. eapply change_keeps_roster; [done|].
      intros room Hr. by eapply Hinv.
    + rewrite lookup_insert_ne by done. apply Hinv.
  - rewrite Hdel. intros [_ H]%lookup_delete_Some. by eapply Hinv.
Qed.

(** X11. No peer id is ever twice in a roster: in every run from the
    initial state, the [videoParticipants] of every room are without
    duplicates. *)
Theorem rosters_never_repeat {engine : Js.Engine} events roomId room :
  rooms (run initial events).1 !! roomId = Some room ->
  NoDup (Room.videoParticipants room).
Proof.
  assert (H : forall st, rosters_have_no_duplicates st ->
                         rosters_have_no_duplicates (run st events).1).
  { induction events as [|e events IH]; intros st Hinv; [done|]. cbn [run].
    pose proof (step_keeps_rosters st e Hinv) as Hinv'.
    destruct (step st e) as [st1 emits]. cbn [fst] in *.
    specialize (IH st1 Hinv'). by destruct (run st1 events). }
  apply (H initial). intros r room0 Hr. simpl in Hr. by rewrite lookup_empty in Hr.
Qed.

Lemma rosters_never_repeat_witness :
  NoDup (Room.videoParticipants
           (room_of
              (run initial
                 [Connect Ex.D; JoinRoom Ex.D Ex.doctor_join; StartVideo Ex.D Ex.room;
                  JoinVideo Ex.D Ex.room "peer-a"; JoinVideo Ex.D Ex.room "peer-b";
                  JoinVideo Ex.D Ex.room "peer-a"]).1
              Ex.room)).
Proof.
  apply (rosters_never_repeat
           [Connect Ex.D; JoinRoom Ex.D Ex.doctor_join; StartVideo Ex.D Ex.room;
            JoinVideo Ex.D Ex.room "peer-a"; JoinVideo Ex.D Ex.room "peer-b";
            JoinVideo Ex.D Ex.room "peer-a"]
           Ex.room).
  vm_compute. reflexivity.
Defined.

(** X12. The call flag of a room changes hands only through a start or
    an end asked by a connection bound with the role "doctor", or through
    a create-room that makes the room anew: join-video-call and
    leave-video-call, like every other event, leave it as it is. *)
Theorem call_flag_changes {engine : Js.Engine} st e r room room' :
  rooms st !! r = Some room ->
  rooms (step st e).1 !! r = Some room' ->
  Room.videoCallActive room' <> Room.videoCallActive room ->
  (exists sid user,
     Obj.get (users st) sid = Some user /\ User.role user = "doctor"
     /\ ((e = StartVideo sid r /\ Room.videoCallActive room' = true
          /\ Room.videoParticipants room' = [])
         \/ (e = EndVideo sid r /\ Room.videoCallActive room' = false
             /\ Room.videoParticipants room' = [])))
  \/ (exists d p h now, e = CreateRoom d p h now).
Proof.
  intros Hr Hr' Hflag.
  destruct (step_rooms st e) as [Hsame|[(r0 & room0 & Hins & Hch)|(r0 & h & d & _ & Hdel)]].
  - rewrite Hsame, Hr in Hr'. by injection Hr' as <-.
  - rewrite Hins in Hr'. destruct (decide (r0 = r)) as [->|Hne].
    + rewrite lookup_insert_eq in Hr'. injection Hr' as <-. rewrite Hr in Hch.
      inversion Hch; subst; simpl in *; try done;
        try (by destruct (is_patient _)); try (by destruct (analysable _)).
      * left. exists sid, user. repeat split; try done. by left.
      * left. exists sid, user. repeat split; try done. by right.
      * right. by eexists _, _, _, _.
    + rewrite lookup_insert_ne, Hr in Hr' by done. by injection Hr' as <-.
  - rewrite Hdel in Hr'. apply lookup_delete_Some in Hr' as [_ Hr'].
    rewrite Hr in Hr'. by injection Hr' as <-.
Qed.

Lemma call_flag_changes_witness :
  (exists sid user,
     Obj.get (users Ex.both_joined) sid = Some user /\ User.role user = "doctor"
     /\ ((StartVideo Ex.D Ex.room = StartVideo sid Ex.room
          /\ Room.videoCallActive
               (room_of (step Ex.both_joined (StartVideo Ex.D Ex.room)).1 Ex.room) = true
          /\ Room.videoParticipants
               (room_of (step Ex.both_joined (StartVideo Ex.D Ex.room)).1 Ex.room) = [])
         \/ (StartVideo Ex.D Ex.room = EndVideo sid Ex.room
             /\ Room.videoCallActive
                  (room_of (step Ex.both_joined (StartVideo Ex.D Ex.room)).1 Ex.room) = false
             /\ Room.videoParticipants
                  (room_of (step Ex.both_joined (StartVideo Ex.D Ex.room)).1 Ex.room) = [])))
  \/ (exists d p h now, StartVideo Ex.D Ex.room = CreateRoom d p h now).
Proof.
  apply (call_flag_changes Ex.both_joined (StartVideo Ex.D Ex.room) Ex.room
           (room_of Ex.both_joined Ex.room)
           (room_of (step Ex.both_joined (StartVideo Ex.D Ex.room)).1 Ex.room)).
  - vm_compute. reflexivity.
  - vm_compute. reflexivity.
  - vm_compute. discriminate.
Defined.

Lemma filter_add_remove (peerId : string) (ps : list string) :
  filter (fun id => id ≠ peerId)
    (if bool_decide (peerId ∈ ps) then ps else (ps ++ [peerId])%list)
  = filter (fun id => id ≠ peerId) ps.
Proof.
  case_bool_decide; [done|]. rewrite filter_app, filter_cons_False, filter_nil by naive_solver.
  by rewrite app_nil_r.
Qed.

Lemma filter_absent (peerId : string) (ps : list string) :
  peerId ∉ ps -> filter (fun id => id ≠ peerId) ps = ps.
Proof.
  intros H. induction ps as [|x ps IH]; [done|].
  apply not_elem_of_cons in H as [Hx Hps]. rewrite filter_cons_True by done.
  by rewrite IH.
Qed.

(** X13. Joining and leaving the roster of a call.  When a bound
    connection joins with a peer id, the id is in the roster afterwards
    and the connection is sent the roster without it; the call flag is
    not consulted and not changed.  Any bound connection can then take the
    id out, and when the id was new this gives the roster back as it was
    before the join. *)
Theorem join_then_leave_video st sid sid' roomId peerId user user' room :
  Obj.get (users st) sid = Some user ->
  Obj.get (users st) sid' = Some user' ->
  rooms st !! roomId = Some room ->
  let st1 := (join_video_call st sid roomId peerId).1 in
  let st2 := (leave_video_call st1 sid' roomId peerId).1 in
  (peerId ∈ Room.videoParticipants (room_of st1 roomId))
  /\ Room.videoCallActive (room_of st1 roomId) = Room.videoCallActive room
  /\ mkEmit (ToSocket sid)
       (ExistingVideoParticipants
          (filter (fun id => id ≠ peerId) (Room.videoParticipants room)))
       ∈ (join_video_call st sid roomId peerId).2
  /\ (peerId ∉ Room.videoParticipants (room_of st2 roomId))
  /\ Room.videoParticipants (room_of st2 roomId)
     = filter (fun id => id ≠ peerId) (Room.videoParticipants room)
  /\ (peerId ∉ Room.videoParticipants room ->
        Room.videoParticipants (room_of st2 roomId) = Room.videoParticipants room).
Proof.
  intros Hu Hu' Hr st1 st2. subst st1 st2. unfold leave_video_call, join_video_call, room_of.
  rewrite Hu, Hr. cbn [fst snd users rooms with_rooms]. rewrite Hu', !lookup_insert_eq.
  cbn [fst rooms with_rooms default]. rewrite lookup_insert_eq. cbn [default].
  cbn [Room.videoParticipants Room.videoCallActive Room.set_video].
  rewrite !filter_add_remove.
  repeat split.
  - case_bool_decide; [done|]. apply elem_of_app. right. by left.
  - right. by left.
  - intros [H _]%list_elem_of_filter. done.
  - apply filter_absent.
Qed.

Lemma join_then_leave_video_witness :
  Room.videoParticipants
    (room_of
       (leave_video_call (join_video_call Ex.both_joined Ex.P Ex.room "peer-p").1
          Ex.D Ex.room "peer-p").1
       Ex.room)
  = Room.videoParticipants (room_of Ex.both_joined Ex.room).
Proof.
  assert (Hu : Obj.get (users Ex.both_joined) Ex.P
               = Some (User.mk Ex.room "Alex" "patient" None (Some "alex@mail.example")))
    by (vm_compute; reflexivity).
  assert (Hu' : Obj.get (users Ex.both_joined) Ex.D
                = Some (User.mk Ex.room "Alex" "doctor" None (Some "alex@clinic.example")))
    by (vm_compute; reflexivity).
  assert (Hr : rooms Ex.both_joined !! Ex.room = Some (room_of Ex.both_joined Ex.room))
    by (vm_compute; reflexivity).
  destruct (join_then_leave_video Ex.both_joined Ex.P Ex.D Ex.room "peer-p" _ _ _ Hu Hu' Hr)
    as (_ & _ & _ & _ & _ & H).
  apply H. vm_compute. by intros ?%elem_of_nil.
Defined.

End VideoMore.


(** ** More on uploads *)

Module UploadMore.
Import UploadFacts.

(** [s.substring(0, n)] is the first [n] characters of [s], and all of
    [s] when it is shorter. *)
Lemma substring0_spec n : forall s,
  (exists rest, s = Js.substring0 n s ++ rest)
  /\ String.length (Js.substring0 n s) = Nat.min n (String.length s).
Proof.
  unfold Js.substring0. induction n as [|n IH]; intros [|c s]; simpl.
  - split; [by exists "" | done].
  - split; [by exists (String c s) | done].
  - split; [by exists "" | done].
  - destruct (IH s) as [[rest Hrest] Hlen]. split.
    + exists rest. change (String c s = String c (String.append (substring 0 n s) rest)).
      by rewrite <- Hrest.
    + by rewrite Hlen.
Qed.


Lemma criticalFindings_length metrics findings :
  criticalFindings metrics = Some findings -> (length findings <= 3)%nat.
Proof.
  unfold criticalFindings.
  destruct (Js.get_opt (Some metrics) "keyFindings") as [[| | | |elems props|]|];
    try discriminate; try (intros [= <-]; simpl; lia).
  intros H%length_mapM. rewrite <- H, length_take. lia.
Qed.

(** When no other handler runs while the upload awaits its external
    calls, every test of [rooms[roomId]] has the outcome it has in the
    state the handler started in. *)
Lemma upload_atomic st body file res now :
  upload st body file res now
  = upload_at (room_truthy st (default "" (body_roomId body)))
      (room_truthy st (default "" (body_roomId body))) st body file res now.
Proof.
  unfold upload, upload_at, room_truthy. destruct file as [file|]; [|done].
  destruct (body_roomId body) as [roomId|]; [|done]. cbn [default from_option]. unfold id.
  destruct (String.eqb roomId ""); [done|].
  destruct (rooms st !! roomId) as [room|] eqn:Hr.
  - rewrite (bool_decide_eq_true_2 (is_Some (Some room))) by (by eexists). cbn [orb negb].
    rewrite !andb_true_r, andb_false_r. done.
  - rewrite (bool_decide_eq_false_2 (is_Some None)) by (by intros [? ?]). cbn [orb].
    destruct (Js.inherited roomId) eqn:Hi; cbn [negb].
    + rewrite !andb_true_r, andb_false_r. done.
    + rewrite !andb_false_r. cbn [andb]. done.
Qed.

(** X14. What an answered upload stores of its texts, whatever the
    other handlers did while it awaited its external calls.  The content
    of the file record is the first 5000 characters of the extracted text
    (all of it when it is shorter), and its analysis is the analysis text
    when the content was analysed and empty otherwise.  The record has a
    summary exactly when the content was analysed.  The summary holds the
    whole analysis text, without a bound, as [fullAnalysis], which is the
    analysis of the record; as [briefSummary] the first 500 characters of
    the analysis text, or "No analysis available" when that text is empty;
    as [rawContent] the first 1000 characters of the extracted text; and
    as critical findings the first three findings of the metrics. *)
Theorem stored_texts_are_bounded roomAtAnalysis roomAtMetrics st body file res now f :
  up_response (upload_at roomAtAnalysis roomAtMetrics st body file res now) = Uploaded f ->
  (exists rest, extracted res = FileInfo.content f ++ rest)
  /\ String.length (FileInfo.content f) = Nat.min 5000 (String.length (extracted res))
  /\ FileInfo.analysis f = (if analysable (extracted res) then analysisText res else "")
  /\ (analysable (extracted res) = true <-> is_Some (FileInfo.documentSummary f))
  /\ forall s, FileInfo.documentSummary f = Some s ->
       Summary.fullAnalysis s = analysisText res
       /\ Summary.fullAnalysis s = FileInfo.analysis f
       /\ (analysisText res = "" -> Summary.briefSummary s = "No analysis available")
       /\ (analysisText res <> "" ->
           (exists rest, analysisText res = Summary.briefSummary s ++ rest)
           /\ String.length (Summary.briefSummary s)
              = Nat.min 500 (String.length (analysisText res)))
       /\ (exists rest, extracted res = Summary.rawContent s ++ rest)
       /\ String.length (Summary.rawContent s) = Nat.min 1000 (String.length (extracted res))
       /\ criticalFindings (extractHealthMetrics (metricsReply res))
          = Some (Summary.criticalFindings s)
       /\ (length (Summary.criticalFindings s) <= 3)%nat.
Proof.
  intros Hup.
  assert (Hf : exists documentSummary,
            f = FileInfo.mk (originalname (default (mkUploadedFile "" "" "" "") file))
                  (file_path (default (mkUploadedFile "" "" "" "") file))
                  ("/uploads/" ++ filename (default (mkUploadedFile "" "" "" "") file))
                  (mimetype (default (mkUploadedFile "" "" "" "") file))
                  (Js.substring0 5000 (extracted res))
                  (if analysable (extracted res) then analysisText res else "")
                  documentSummary now (Js.or_lit (uploadedBy body) "Unknown")
            /\ (if analysable (extracted res)
                then option_map Some
                       (generateDocumentSummary (extracted res)
                          (originalname (default (mkUploadedFile "" "" "" "") file))
                          (analysisText res)
                          (extractHealthMetrics (metricsReply res)) now)
                else Some None) = Some documentSummary).
  { unfold upload_at in Hup. destruct file as [file|]; [|done].
    destruct (body_roomId body) as [roomId|]; [|done].
    destruct (String.eqb roomId ""); [done|].
    destruct (_ && negb roomAtMetrics); [done|]. cbn [default].
    destruct (analysable (extracted res)).
    - destruct (generateDocumentSummary _ _ _ _ _) as [s0|]; [|done]. cbn [option_map] in Hup.
      exists (Some s0). split; [|done].
      destruct (rooms st !! roomId); [by injection Hup as <-|].
      destruct (Js.inherited roomId); [done|].
      destruct (true && roomAtAnalysis); [done | by injection Hup as <-].
    - exists None. split; [|done].
      destruct (rooms st !! roomId); [by injection Hup as <-|].
      destruct (Js.inherited roomId); [done|].
      destruct (false && roomAtAnalysis); [done | by injection Hup as <-]. }
  destruct Hf as (documentSummary & -> & Hsum). cbn [FileInfo.content FileInfo.analysis
    FileInfo.documentSummary].
  destruct (substring0_spec 5000 (extracted res)) as [Hpre Hlen].
  split; [done|]. split; [done|]. split; [done|]. split.
  - destruct (analysable (extracted res)).
    + destruct (generateDocumentSummary _ _ _ _ _); [|done]. injection Hsum as <-.
      split; [by eexists | done].
    + injection Hsum as <-. split; [done | by intros [? ?]].
  - intros s ->. destruct (analysable (extracted res)); [|done].
    unfold generateDocumentSummary in Hsum.
    destruct (criticalFindings _) as [findings|] eqn:Hfind; [|done].
    cbn [option_map] in Hsum. injection Hsum as <-.
    cbn [Summary.fullAnalysis Summary.briefSummary Summary.rawContent
           Summary.criticalFindings].
    split; [done|]. split; [done|]. split; [by intros ->|]. split.
    { intros Hne. apply String.eqb_neq in Hne. rewrite Hne.
      apply substring0_spec. }
    split; [apply substring0_spec|]. split; [apply substring0_spec|].
    split; [done|]. by eapply criticalFindings_length.
Qed.

Lemma stored_texts_are_bounded_witness :
  exists f,
    up_response (upload Ex.both_joined Ex.by_patient (Some Ex.report) Ex.first_results
                   Ex.t_upload) = Uploaded f
    /\ String.length (FileInfo.content f)
       = Nat.min 5000 (String.length (extracted Ex.first_results)).
Proof.
  eexists. split; [vm_compute; reflexivity|].
  eapply (stored_texts_are_bounded true true Ex.both_joined Ex.by_patient (Some Ex.report)
            Ex.first_results Ex.t_upload).
  vm_compute. reflexivity.
Defined.

(** X15. An upload whose room is not there when the handler comes to
    store the file: its id names no room and no property of
    [Object.prototype] then.  With a file and such a room id, the handler
    changes nothing, emits nothing and schedules nothing.  When the content
    is analysed and the room was there at the first test, before the
    external calls, the answer is 500: the write of the metrics throws.
    Otherwise the answer is the file record as for a stored file, or 500
    when the content is analysed and the summary throws; when the content
    is not analysed the answer is always the file record.  The last case
    is that of an upload during which no other handler runs. *)
Theorem upload_without_room roomAtAnalysis roomAtMetrics st body file res now roomId :
  body_roomId body = Some roomId ->
  roomId <> "" ->
  rooms st !! roomId = None ->
  Js.inherited roomId = false ->
  let out := upload_at roomAtAnalysis roomAtMetrics st body (Some file) res now in
  upload st body (Some file) res now = upload_at false false st body (Some file) res now
  /\ up_state out = st
  /\ up_emits out = []
  /\ up_timers out = []
  /\ (analysable (extracted res) = true -> roomAtAnalysis = true ->
      up_response out = Status500 "Upload failed")
  /\ (analysable (extracted res) = true -> roomAtAnalysis = false ->
      (exists f, up_response out = Uploaded f /\ FileInfo.name f = originalname file)
      \/ (generateDocumentSummary (extracted res) (originalname file) (analysisText res)
            (extractHealthMetrics (metricsReply res)) now = None
          /\ up_response out = Status500 "Upload failed"))
  /\ (analysable (extracted res) = false ->
      exists f, up_response out = Uploaded f /\ FileInfo.name f = originalname file).
Proof.
  intros Hb Hne Hr Hi out.
  assert (Hat : upload st body (Some file) res now
                = upload_at false false st body (Some file) res now).
  { rewrite upload_atomic. unfold room_truthy. rewrite Hb. cbn [default from_option]. unfold id.
    by rewrite Hr, Hi, (bool_decide_eq_false_2 (is_Some None)) by (by intros [? ?]). }
  split; [exact Hat|]. clear Hat. subst out. unfold upload_at. rewrite Hb.
  apply String.eqb_neq in Hne. rewrite Hne, Hr, Hi.
  destruct (analysable (extracted res)); cbn [andb].
  - destruct roomAtAnalysis; cbn [andb negb].
    + destruct roomAtMetrics; cbn [negb]; [|done].
      by destruct (generateDocumentSummary _ _ _ _ _).
    + destruct (generateDocumentSummary _ _ _ _ _); cbn [option_map].
      * repeat split; try done. intros _ _. left. by eexists.
      * repeat split; try done. intros _ _. by right.
  - repeat split; try done. intros _. by eexists.
Qed.

Lemma upload_without_room_witness :
  up_state (upload Ex.both_joined ExMore.no_such_room (Some Ex.report) Ex.first_results
              Ex.t_upload) = Ex.both_joined.
Proof.
  assert (Hb : body_roomId ExMore.no_such_room = Some "room_0") by reflexivity.
  assert (Hne : "room_0" <> "") by discriminate.
  assert (Hr : rooms Ex.both_joined !! "room_0" = None) by (vm_compute; reflexivity).
  assert (Hi : Js.inherited "room_0" = false) by (vm_compute; reflexivity).
  destruct (upload_without_room false false Ex.both_joined ExMore.no_such_room Ex.report
              Ex.first_results Ex.t_upload "room_0" Hb Hne Hr Hi)
    as (H0 & H1 & _).
  rewrite H0. exact H1.
Defined.

(** X16. A metrics reply whose [keyFindings] is not an array.  When
    the content is analysed and the model's JSON holds a truthy
    [keyFindings] that is not an array (a text, a number, an object),
    [generateDocumentSummary] throws: the upload is answered with 500,
    and nothing is stored, emitted or scheduled, whether the room exists
    or not. *)
Theorem malformed_findings_fail_upload st body file res now roomId props v :
  body_roomId body = Some roomId ->
  roomId <> "" ->
  analysable (extracted res) = true ->
  metricsReply res = LlmParsed (Js.JObj props) ->
  Js.assoc "keyFindings" props = Some v ->
  Js.truthy (Some v) = true ->
  (forall elems ps, v <> Js.JArr elems ps) ->
  upload st body (Some file) res now = mkUploadOutcome st [] [] (Status500 "Upload failed").
Proof.
  intros Hb Hne Ha Hm Hk Ht Harr. unfold upload. rewrite Hb.
  apply String.eqb_neq in Hne. rewrite Hne, Ha, Hm.
  assert (Hget : forall k d ps, k <> "keyFindings" ->
            Js.assoc "keyFindings" (Js.assoc_set k d ps) = Js.assoc "keyFindings" ps
            \/ Js.assoc "keyFindings" ps = None).
  { intros k d ps Hkne. induction ps as [|[k' v'] ps IH]; simpl.
    - by right.
    - destruct (String.eqb k' k) eqn:E1.
      + apply String.eqb_eq in E1 as ->. simpl.
        destruct (String.eqb k "keyFindings") eqn:E2; [by apply String.eqb_eq in E2|].
        by left.
      + simpl. destruct (String.eqb k' "keyFindings"); [by left|]. done. }
  assert (Hfill : forall k d ps, k <> "keyFindings" ->
            Js.assoc "keyFindings" ps = Some v ->
            exists ps', Js.fill_default k d (Js.JObj ps) = Js.JObj ps'
                        /\ Js.assoc "keyFindings" ps' = Some v).
  { intros k d ps Hkne Hps. unfold Js.fill_default.
    destruct (Js.truthy (Js.assoc k ps)); [by eexists|].
    eexists. split; [done|]. destruct (Hget k d ps Hkne) as [->|H]; [done | congruence]. }
  unfold extractHealthMetrics.
  destruct (Hfill "vitals" (Js.JObj []) props) as (p1 & -> & H1); [done|done|].
  destruct (Hfill "diagnosis" default_diagnosis p1) as (p2 & -> & H2); [done|done|].
  unfold Js.fill_default at 2. rewrite H2, Ht.
  destruct (Hfill "recommendations" (Js.JArr [] []) p2) as (p3 & -> & H3); [done|done|].
  unfold generateDocumentSummary, criticalFindings. simpl. rewrite H3.
  destruct v as [| | | |elems ps|]; try done. by specialize (Harr elems ps).
Qed.

Lemma malformed_findings_fail_upload_witness :
  upload Ex.both_joined Ex.by_patient (Some Ex.report) ExMore.findings_as_text Ex.t_upload
  = mkUploadOutcome Ex.both_joined [] [] (Status500 "Upload failed").
Proof.
  apply (malformed_findings_fail_upload Ex.both_joined Ex.by_patient Ex.report
           ExMore.findings_as_text Ex.t_upload Ex.room
           [("keyFindings", Js.JStr "none of note")] (Js.JStr "none of note"));
    try reflexivity; discriminate.
Defined.

End UploadMore.


(** ** Text extraction and the uploads that are not analysed *)

Module ExtractionFacts.
Import UploadFacts.

(** X17. Content that is analysed has been read from the file.  When
    the text [extractFileContent] returns passes the test of the upload,
    it is the text that one reader returned for the file, and the MIME
    type says which, in the order of the handler: the PDF reader for
    "application/pdf"; otherwise the Word reader for a type that holds
    "word" or "document"; otherwise the plain-text reader for a type that
    holds "text"; otherwise, for a type that holds "image", the OCR, whose
    text is taken as [String.prototype.trim] returns it and has to be
    longer than 10 characters then.  So a reader that throws, an image
    without text and a format without reader never lead to an analysis. *)
Theorem analysed_content_was_read {engine : Js.Engine} r mimeType :
  analysable (extractFileContent r mimeType) = true ->
  (mimeType = "application/pdf" /\ pdf_text r = Some (extractFileContent r mimeType))
  \/ (mimeType <> "application/pdf"
      /\ Js.includes "word" mimeType || Js.includes "document" mimeType = true
      /\ word_text r = Some (extractFileContent r mimeType))
  \/ (mimeType <> "application/pdf"
      /\ Js.includes "word" mimeType || Js.includes "document" mimeType = false
      /\ Js.includes "text" mimeType = true
      /\ plain_text r = Some (extractFileContent r mimeType))
  \/ (mimeType <> "application/pdf"
      /\ Js.includes "word" mimeType || Js.includes "document" mimeType = false
      /\ Js.includes "text" mimeType = false
      /\ Js.includes "image" mimeType = true
      /\ exists text,
           ocr_text r = Some text
           /\ extractFileContent r mimeType = Js.trim text
           /\ (10 < String.length (Js.trim text))%nat).
Proof.
  destruct sentinels_not_analysed as (Hfail & Hunsupported & Himage).
  unfold extractFileContent, extractTextFromImage.
  destruct (String.eqb mimeType "application/pdf") eqn:Hpdf.
  { apply String.eqb_eq in Hpdf.
    destruct (pdf_text r) as [c|]; simpl; [by left | congruence]. }
  apply String.eqb_neq in Hpdf.
  destruct (Js.includes "word" mimeType || Js.includes "document" mimeType) eqn:Hword.
  { destruct (word_text r) as [c|]; simpl; [by right; left | congruence]. }
  destruct (Js.includes "text" mimeType) eqn:Htext.
  { destruct (plain_text r) as [c|]; simpl; [by right; right; left | congruence]. }
  destruct (Js.includes "image" mimeType); [|congruence].
  destruct (ocr_text r) as [text|]; [|simpl; congruence].
  destruct (10 <? String.length (Js.trim text))%nat eqn:Hlen; [|congruence].
  intros _. right. right. right. do 4 (split; [done|]).
  exists text. repeat split. by apply Nat.ltb_lt.
Qed.

Lemma analysed_content_was_read_witness :
  pdf_text (mkReaders None None (Some (extracted Ex.first_results)) None) = None
  /\ plain_text (mkReaders None None (Some (extracted Ex.first_results)) None)
     = Some (extractFileContent
               (mkReaders None None (Some (extracted Ex.first_results)) None) "text/plain").
Proof.
  split; [reflexivity|].
  destruct (analysed_content_was_read
              (mkReaders None None (Some (extracted Ex.first_results)) None) "text/plain")
    as [[H _]|[(_ & H & _)|[(_ & _ & _ & H)|(_ & _ & H & _)]]];
    [vm_compute; reflexivity | discriminate H | discriminate H | exact H | discriminate H].
Defined.

(** X18. An upload that is not analysed can still announce an
    analysis.  When the extracted text is longer than 20 characters but
    holds "no text detected" (the text returned for an image in which the
    OCR finds nothing), the upload into an existing room runs no analysis:
    the metrics of the room stay, the file is stored with an empty
    analysis and no summary, and no metrics event is sent.  It still
    schedules the 1000 ms callback, with the empty analysis; when that
    fires while a doctor is in the room, the "Clinical Analysis" heading
    with nothing under it is sent to the socket.io room of the doctor's
    connection id. *)
Theorem empty_analysis_is_announced st body file res now roomId room :
  body_roomId body = Some roomId ->
  roomId <> "" ->
  rooms st !! roomId = Some room ->
  long_enough (extracted res) = true ->
  analysable (extracted res) = false ->
  let out := upload st body (Some file) res now in
  Room.healthMetrics (room_of (up_state out) roomId) = Room.healthMetrics room
  /\ (exists f,
        Room.files (room_of (up_state out) roomId) = (Room.files room ++ [f])%list
        /\ FileInfo.analysis f = ""
        /\ FileInfo.documentSummary f = None)
  /\ (forall m, mkEmit (ToRoom roomId) (HealthMetricsUpdated m) ∉ up_emits out)
  /\ DoctorAnalysis roomId "" ∈ up_timers out
  /\ forall d now',
       Obj.find_key
         (fun u => String.eqb (User.roomId u) roomId && is_doctor (User.role u))
         (users st) = Some d ->
       Js.truthy_str (Room.doctor room) = true ->
       exists st',
         fire (up_state out) (DoctorAnalysis roomId "") now'
         = Some (st', [mkEmit (ToRoom (socket_id d)) (AiMessage clinical_prefix "doctor" true)]).
Proof.
  intros Hb Hne Hr Hlong Ha out. subst out. unfold upload. rewrite Hb.
  apply String.eqb_neq in Hne. rewrite Hne, Ha, Hr, Hlong. simpl.
  unfold room_of. simpl. rewrite lookup_insert_eq. simpl.
  split; [done|]. split; [by eexists|]. split.
  { intros m H. apply list_elem_of_In in H. simpl in H.
    destruct H as [H|[H|[]]]; discriminate. }
  split; [by left|].
  intros d now' Hd Hdoc. unfold doctor_timer. simpl. rewrite Hd, lookup_insert_eq. simpl.
  rewrite Hdoc. eexists. reflexivity.
Qed.

Lemma empty_analysis_is_announced_witness :
  DoctorAnalysis Ex.room ""
  ∈ up_timers (upload Ex.both_joined Ex.by_patient (Some ExMore.scan) ExMore.scan_results
                 Ex.t_upload).
Proof.
  pose proof (empty_analysis_is_announced Ex.both_joined Ex.by_patient ExMore.scan
                ExMore.scan_results Ex.t_upload Ex.room (room_of Ex.both_joined Ex.room))
    as H.
  cbv zeta in H.
  apply H; try reflexivity; try discriminate.
Defined.

End ExtractionFacts.


(** ** The analysis calls *)

Module AnalysisFacts.
Import UploadMore.

(** X19. The first two uploads of a room are analysed without
    history.  While the room holds fewer than two files (or does not
    exist), the analysis of an upload is one call with the plain prompt:
    the first 3000 characters of the content and no earlier report, so the
    second upload is not compared with the first.  The analysis is the
    reply, or the fixed text when the call fails. *)
Theorem first_uploads_have_no_history st roomId fileName content model :
  (length (Room.files (room_of st roomId)) < 2)%nat ->
  run_ask model (upload_analysis st roomId fileName content)
  = (default "Unable to analyze with full explainability."
       (model (XaiPrompt fileName (Js.substring0 3000 content) [])),
     [XaiPrompt fileName (Js.substring0 3000 content) []]).
Proof.
  unfold upload_analysis, room_of. intros H.
  destruct (rooms st !! roomId) as [room|]; simpl in *; [|done].
  unfold performTemporalAnalysis, extractTemporalData.
  apply Nat.ltb_lt in H. by rewrite H.
Qed.

Lemma first_uploads_have_no_history_witness :
  run_ask ExMore.no_comparison
    (upload_analysis
       (upload Ex.both_joined Ex.by_patient (Some Ex.report) Ex.first_results Ex.t_upload)
         .(up_state)
       Ex.room "cbc-2.txt" (extracted Ex.second_results))
  = (default "Unable to analyze with full explainability."
       (ExMore.no_comparison
          (XaiPrompt "cbc-2.txt" (Js.substring0 3000 (extracted Ex.second_results)) [])),
     [XaiPrompt "cbc-2.txt" (Js.substring0 3000 (extracted Ex.second_results)) []]).
Proof.
  apply (first_uploads_have_no_history
           (up_state (upload Ex.both_joined Ex.by_patient (Some Ex.report) Ex.first_results
                        Ex.t_upload))
           Ex.room "cbc-2.txt" (extracted Ex.second_results) ExMore.no_comparison).
  vm_compute. lia.
Defined.



End AnalysisFacts.

(** ** Clinical documentation *)

Module DocumentationFacts.
Import StringFacts.

Lemma append_assoc (a b c : string) : (a ++ b) ++ c = a ++ (b ++ c).
Proof.
  induction a as [|x a IH]; [done|].
  change (String x (((a ++ b) ++ c)) = String x (a ++ b ++ c)). by rewrite IH.
Qed.

Lemma concat_elem sep (x : string) : forall l,
  x ∈ l -> exists pre post, String.concat sep l = pre ++ x ++ post.
Proof.
  induction l as [|y l IH]; [by intros ?%elem_of_nil|].
  intros [->|Hx]%elem_of_cons.
  - destruct l as [|z l]; simpl.
    + exists "", "". change (y = y ++ ""). clear. induction y as [|c y IH]; [done|].
      change (String c y = String c (y ++ "")). by rewrite <- IH.
    + by exists "", (sep ++ String.concat sep (z :: l)).
  - destruct (IH Hx) as (pre & post & H). destruct l as [|z l]; [by apply elem_of_nil in Hx|].
    change (String.concat sep (y :: z :: l)) with (y ++ sep ++ String.concat sep (z :: l)).
    rewrite H. exists (y ++ sep ++ pre), post.
    by rewrite !append_assoc.
Qed.

(** X21. Who can ask for the clinical documentation, and what goes
    into it.  For a room that exists, a request from any connection,
    bound or not and whatever its role, makes one call to the model; a
    non-empty reply is sent to that connection alone.  The prompt is
    built from the room: the chat of patient and doctor without the AI
    messages, and the whole analysis of every file of the room.  For a
    room that does not exist no call is made and nothing is sent. *)
Theorem documentation_is_not_gated st sid roomId model :
  match rooms st !! roomId with
  | None => run_ask model (request_documentation_ask st sid roomId) = ([], [])
  | Some room =>
      let prompt := DocPrompt (conversationHistory room) (filesSummary room) in
      run_ask model (request_documentation_ask st sid roomId)
      = (request_documentation st sid roomId (model prompt), [prompt])
      /\ (forall doc, model prompt = Some doc -> doc <> "" ->
            request_documentation st sid roomId (model prompt)
            = [mkEmit (ToSocket sid) (DocumentationGenerated doc)])
      /\ (forall f, f ∈ Room.files room -> FileInfo.analysis f <> "" ->
            Js.includes (FileInfo.analysis f) (filesSummary room) = true)
      /\ (forall m, Message.role m = "AI Assistant" ->
            conversationHistory (Room.push_message m room) = conversationHistory room)
  end.
Proof.
  unfold request_documentation_ask, generateClinicalDocumentation, request_documentation.
  destruct (rooms st !! roomId) as [room|] eqn:Hr; [|done].
  cbv zeta. simpl. split; [done|]. split; [|split].
  - intros doc -> Hne. simpl. apply String.eqb_neq in Hne. by rewrite Hne.
  - intros f Hf Hne. apply includes_spec. unfold filesSummary.
    destruct (concat_elem Js.nl
                ("- " ++ FileInfo.name f ++ ": "
                 ++ (if String.eqb (FileInfo.analysis f) "" then "No analysis"
                     else FileInfo.analysis f))
                ((fun f => "- " ++ FileInfo.name f ++ ": "
                           ++ (if String.eqb (FileInfo.analysis f) "" then "No analysis"
                               else FileInfo.analysis f)) <$> Room.files room))
      as (pre & post & H).
    { apply list_elem_of_fmap. by exists f. }
    rewrite H. apply String.eqb_neq in Hne. rewrite Hne.
    exists (pre ++ "- " ++ FileInfo.name f ++ ": "), post.
    by rewrite !append_assoc.
  - intros m Hm. unfold conversationHistory. simpl.
    rewrite List.filter_app. simpl. rewrite Hm. simpl. by rewrite app_nil_r.
Qed.

End DocumentationFacts.


(** ** The messages an AI prompt is built from *)

Module PromptFacts.
Import IsolationFacts.

Lemma visible_not_ai role m : Message.role m <> "AI Assistant" -> visible_to role m = true.
Proof. unfold visible_to. intros H. apply String.eqb_neq in H. by rewrite H. Qed.

Lemma window_snoc (l : list Message.t) m :
  drop (length (l ++ [m]) - 5) (l ++ [m]) = (drop (length (l ++ [m]) - 5) l ++ [m])%list.
Proof. rewrite length_app. simpl. apply drop_app_le. lia. Qed.

(** X22. The window of messages in a prompt of [getAIResponse].  For
    the role that asked, the prompt holds at most five messages, the last
    ones of the log that pass the role filter, in the order of the log;
    an AI message among them that carries a tag carries the tag of that
    role. *)
Theorem prompt_window role room :
  (length (roleMessages role room) <= 5)%nat
  /\ roleMessages role room `suffix_of` filteredMessages role (Room.messages room)
  /\ forall m r,
       m ∈ roleMessages role room ->
       Message.role m = "AI Assistant" ->
       r ∈ tag_of m ->
       r = role.
Proof.
  unfold roleMessages. cbv zeta. split; [rewrite length_drop; lia|].
  split; [apply suffix_drop|].
  intros m r Hm. apply filteredMessages_isolated with (ms := Room.messages room).
  destruct (suffix_drop (filteredMessages role (Room.messages room))
              (length (filteredMessages role (Room.messages room)) - 5)) as [k Hk].
  rewrite Hk. apply elem_of_app. by right.
Qed.

(** X23. A question to the AI enters every prompt.  A message that
    holds "@ai" is sent to the socket.io room of its sender's id and not
    to the consultation room, but it is stored like any chat message,
    without a tag: right after it, it is the most recent message of the
    prompt window of every role, so the next question of the other party
    is answered with it in the context. *)
Theorem ai_question_enters_every_prompt {engine : Js.Engine} st sid roomId message avatarUrl
    now user room role :
  Obj.get (users st) sid = Some user ->
  rooms st !! roomId = Some room ->
  isAiCall message = true ->
  exists out m,
    chat_message st sid roomId message avatarUrl now = Some out
    /\ chat_emits out = [mkEmit (ToRoom (socket_id sid)) (ChatMessage m)]
    /\ Message.content m = message
    /\ last (roleMessages role (room_of (chat_state out) roomId)) = Some m.
Proof.
  intros Hu Hr Hai. unfold chat_message. rewrite Hu, Hr, Hai. simpl.
  eexists _, _. split; [done|]. split; [done|]. split; [done|].
  unfold room_of. simpl. rewrite lookup_insert_eq. simpl.
  unfold roleMessages, filteredMessages. simpl. rewrite List.filter_app. simpl.
  rewrite visible_not_ai by (simpl; by destruct (is_doctor (User.role user))).
  rewrite window_snoc. apply last_snoc.
Qed.

Lemma ai_question_enters_every_prompt_witness :
  exists out m,
    chat_message Ex.both_joined Ex.D Ex.room "@AI is a transfusion indicated?" None
      1718000004000 = Some out
    /\ chat_emits out = [mkEmit (ToRoom (socket_id Ex.D)) (ChatMessage m)]
    /\ Message.content m = "@AI is a transfusion indicated?"
    /\ last (roleMessages "patient" (room_of (chat_state out) Ex.room)) = Some m.
Proof.
  eapply (ai_question_enters_every_prompt Ex.both_joined Ex.D Ex.room
            "@AI is a transfusion indicated?" None 1718000004000);
    vm_compute; reflexivity.
Defined.

(** X24. The answer of the AI stays with the role that asked.  The
    answer is stored with the role of the requester as its tag.  When that
    role is not empty, the prompt window of every other role is the same
    before and after the answer; the window of the requester's role ends
    with the answer. *)
Theorem ai_reply_stays_in_its_role st req reply now st' emits role :
  ai_reply st req reply now = Some (st', emits) ->
  ai_role req <> "" ->
  role <> ai_role req ->
  roleMessages role (room_of st' (ai_roomId req))
  = roleMessages role (room_of st (ai_roomId req))
  /\ exists m,
       last (roleMessages (ai_role req) (room_of st' (ai_roomId req))) = Some m
       /\ Message.content m = getAIResponse reply
       /\ Message.forRole m = Some (ai_role req).
Proof.
  unfold ai_reply, room_of. destruct (rooms st !! ai_roomId req) as [room|]; [|done].
  intros [= <- <-] Hne Hrole. simpl. rewrite lookup_insert_eq. simpl.
  unfold roleMessages, filteredMessages. simpl. rewrite !List.filter_app. simpl.
  apply String.eqb_neq in Hne.
  assert (Hvis : forall r,
            visible_to r (Message.mk "AI Assistant" None (getAIResponse reply) now None None
                            false (Some (ai_role req)) true)
            = bool_decide (Some (ai_role req) = Some r)).
  { intros r. unfold visible_to. simpl. by rewrite Hne. }
  rewrite !Hvis. split.
  - rewrite (bool_decide_eq_false_2 (Some (ai_role req) = Some role)) by congruence.
    by rewrite app_nil_r.
  - rewrite (bool_decide_eq_true_2 (Some (ai_role req) = Some (ai_role req))) by done.
    eexists. rewrite window_snoc, last_snoc. by repeat split.
Qed.

Lemma ai_reply_stays_in_its_role_witness :
  roleMessages "patient"
    (room_of (default (Ex.both_joined, [])
                (ai_reply Ex.both_joined
                   (mkAiRequest Ex.D Ex.room "@ai differential?" "doctor")
                   (Some "Iron deficiency is the most likely cause.") 1718000005000)).1
       Ex.room)
  = roleMessages "patient" (room_of Ex.both_joined Ex.room).
Proof.
  refine (proj1 (ai_reply_stays_in_its_role Ex.both_joined
                   (mkAiRequest Ex.D Ex.room "@ai differential?" "doctor")
                   (Some "Iron deficiency is the most likely cause.") 1718000005000
                   _ _ "patient" _ _ _)).
  - vm_compute. reflexivity.
  - discriminate.
  - discriminate.
Defined.

End PromptFacts.

(** ** More on emergency detection *)

Module EmergencyMore.
Import StringFacts.

(** X25. What [detectEmergency] can report.  Whatever the model
    answers, a message is reported as an emergency only when its
    lower-cased form, as [String.prototype.toLowerCase] returns it, holds
    one of the fifteen keywords; a message without keyword costs no call.
    With a keyword the model decides: the report is an emergency exactly
    when the call fails, the reply is [null], or the level of the reply is
    "CRITICAL" or "HIGH". *)
Theorem emergency_only_with_keyword {engine : Js.Engine} message model :
  (hasEmergencyKeyword message = true
   <-> exists keyword pre post,
         keyword ∈ EMERGENCY_KEYWORDS
         /\ Js.toLowerCase message = pre ++ keyword ++ post)
  /\ (isEmergency (run_llm model (detectEmergency message)).1 = true ->
        hasEmergencyKeyword message = true)
  /\ (hasEmergencyKeyword message = false ->
        (run_llm model (detectEmergency message)).2 = 0%nat)
  /\ (hasEmergencyKeyword message = true ->
        isEmergency (run_llm model (detectEmergency message)).1
        = match model message with
          | LlmThrew | LlmParsed Js.JNull => true
          | LlmParsed result =>
              is_level "CRITICAL" (Js.get_opt (Some result) "level")
              || is_level "HIGH" (Js.get_opt (Some result) "level")
          end).
Proof.
  split; [|split; [|split]].
  - unfold hasEmergencyKeyword. rewrite existsb_exists. split.
    + intros (k & Hin & Hk). apply includes_spec in Hk as (pre & post & Hk).
      exists k, pre, post. split; [by apply list_elem_of_In | done].
    + intros (k & pre & post & Hin & Hk). exists k. split; [by apply list_elem_of_In|].
      apply includes_spec. by exists pre, post.
  - unfold detectEmergency. destruct (hasEmergencyKeyword message); [done|]. simpl. done.
  - unfold detectEmergency. by intros ->.
  - unfold detectEmergency. intros H. rewrite H. simpl.
    destruct (model message) as [|[]]; simpl; by rewrite ?H.
Qed.

End EmergencyMore.


(** ** The user store *)

Module UserFacts.
Import UserService.

Lemma same_email_lower {engine : Js.Engine} a b b' :
  Js.toLowerCase b = Js.toLowerCase b' -> same_email a b = same_email a b'.
Proof. unfold same_email. by intros ->. Qed.

Lemma find_none_app {A} (f : A -> bool) l x :
  (forall y, y ∈ l -> f y = false) -> f x = true -> List.find f (l ++ [x]) = Some x.
Proof.
  intros Hl Hx. induction l as [|y l IH]; simpl; [by rewrite Hx|].
  rewrite (Hl y) by (by left). apply IH. intros z Hz. apply Hl. by right.
Qed.

Lemma find_is_none {A} (f : A -> bool) l :
  (forall y, y ∈ l -> f y = false) -> List.find f l = None.
Proof.
  intros Hl. induction l as [|y l IH]; simpl; [done|].
  rewrite (Hl y) by (by left). apply IH. intros z Hz. apply Hl. by right.
Qed.

(** X26. Creating a user and finding it again.  Two addresses are the
    same for the service when [String.prototype.toLowerCase] gives the
    same text for both.  A [POST /users] with the three required fields
    and an address that is the same as that of no record appends one
    record to what [readUsers] returns (nothing, when the file is missing
    or cannot be parsed: such a file is replaced) and answers with it; the
    record has no [password] property and the time of the request as its
    id.  A [GET /users] with an address that is the same as the new one
    then answers with the record, and a second [POST /users] with such an
    address is answered 409 and leaves the file as it is.  This holds for
    every [toLowerCase] that gives the empty text for the empty text
    only. *)
Theorem create_then_get {engine : Js.Engine} store body now e query :
  new_email body = Some e ->
  e <> "" ->
  Js.truthy_str (new_password_hash body) = true ->
  Js.truthy_str (new_role body) = true ->
  (forall u, u ∈ readUsers store -> same_email (email u) e = false) ->
  Js.toLowerCase query = Js.toLowerCase e ->
  exists u,
    create_user store body now = (Users (readUsers store ++ [u]), Created201 u)
    /\ email u = e
    /\ password u = None
    /\ id u = Js.decimal now
    /\ get_user (Users (readUsers store ++ [u])) (Some query) = Ok200 u
    /\ forall body' now',
         new_email body' = Some query ->
         Js.truthy_str (new_password_hash body') = true ->
         Js.truthy_str (new_role body') = true ->
         create_user (Users (readUsers store ++ [u])) body' now'
         = (Users (readUsers store ++ [u]), Conflict409 "User already exists").
Proof.
  intros He Hne Hh Hr Hfresh Hq.
  assert (Hqne : query <> "").
  { intros ->. apply Hne. apply Js.toLowerCase_empty. rewrite <- Hq.
    by apply Js.toLowerCase_empty. }
  apply String.eqb_neq in Hne as Hne'. apply String.eqb_neq in Hqne as Hqne'.
  unfold create_user. rewrite He, Hh, Hr. simpl. rewrite Hne'. simpl.
  rewrite find_is_none by done.
  eexists. split; [reflexivity|]. simpl. repeat split.
  - unfold get_user. simpl. rewrite Hqne'. simpl.
    rewrite find_none_app; [done| |].
    + intros y Hy. rewrite (same_email_lower _ _ e) by done. by apply Hfresh.
    + unfold same_email. simpl. rewrite Hq. apply String.eqb_refl.
  - intros body' now' He' Hh' Hr'. rewrite He', Hh', Hr'. simpl. rewrite Hqne'. simpl.
    rewrite find_none_app; [done| |].
    + intros y Hy. rewrite (same_email_lower _ _ e) by done. by apply Hfresh.
    + unfold same_email. simpl. rewrite Hq. apply String.eqb_refl.
Qed.

Lemma create_then_get_witness :
  exists u,
    create_user Unparsable ExMore.registration 1718000000000
    = (Users (readUsers Unparsable ++ [u]), Created201 u)
    /\ email u = "Rao@Clinic.example"
    /\ password u = None
    /\ id u = Js.decimal 1718000000000
    /\ get_user (Users (readUsers Unparsable ++ [u])) (Some "rao@clinic.EXAMPLE") = Ok200 u
    /\ forall body' now',
         new_email body' = Some "rao@clinic.EXAMPLE" ->
         Js.truthy_str (new_password_hash body') = true ->
         Js.truthy_str (new_role body') = true ->
         create_user (Users (readUsers Unparsable ++ [u])) body' now'
         = (Users (readUsers Unparsable ++ [u]), Conflict409 "User already exists").
Proof.
  apply (create_then_get Unparsable ExMore.registration 1718000000000
           "Rao@Clinic.example" "rao@clinic.EXAMPLE");
    try reflexivity; try discriminate.
  intros u H. by apply elem_of_nil in H.
Defined.

(** X27. The addresses of the store stay unique.  When no two records
    of the file have the same address up to case (the same lower-cased
    form), this is so after any [POST /users], and the records the file
    held are still there, in front and unchanged. *)
Theorem emails_stay_unique {engine : Js.Engine} store body now :
  unique_emails store ->
  unique_emails (create_user store body now).1
  /\ readUsers store `prefix_of` readUsers (create_user store body now).1.
Proof.
  intros Hu. unfold create_user.
  destruct (negb _ || negb _ || negb _); [done|].
  destruct (List.find _ (readUsers store)) as [existing|] eqn:Hfind; [done|].
  simpl. split; [|by eexists].
  unfold unique_emails. simpl. rewrite fmap_app. simpl.
  apply NoDup_app. split; [done|]. split; [|apply NoDup_singleton].
  intros x Hx ->%list_elem_of_singleton.
  apply list_elem_of_fmap in Hx as (u & Heq & Hin).
  apply list_elem_of_In in Hin.
  apply (List.find_none _ _ Hfind) in Hin. unfold same_email in Hin.
  rewrite <- Heq, String.eqb_refl in Hin. discriminate.
Qed.

Lemma emails_stay_unique_witness :
  unique_emails (create_user Missing ExMore.registration 1718000000000).1.
Proof.
  apply (emails_stay_unique Missing ExMore.registration 1718000000000).
  apply NoDup_nil_2.
Defined.

End UserFacts.

(** ** Registration and login *)

Module AuthFacts.
Import UserService Auth.

(** X28. Registration through this router never succeeds against the
    user service.  The router posts [email], [password], [role] and
    [full_name]; the service requires [password_hash] and answers 400, so
    [createUser] throws: whatever the request and the file, the answer is
    400 (a field is missing, or the address is taken) or 500, never 201,
    and the file is not written. *)
Theorem register_never_succeeds {engine : Js.Engine} store body token now :
  (register store body token now).1 = store
  /\ (forall t u, (register store body token now).2 <> Registered t u)
  /\ (Js.truthy_str (cred_email body) = true ->
      Js.truthy_str (cred_password body) = true ->
      Js.truthy_str (cred_role body) = true ->
      getUser store (default "" (cred_email body)) = None ->
      (register store body token now).2 = Error500 "Server error").
Proof.
  unfold register.
  destruct (Js.truthy_str (cred_email body)) eqn:He; simpl; [|by repeat split].
  destruct (Js.truthy_str (cred_password body)); simpl; [|by repeat split].
  destruct (Js.truthy_str (cred_role body)) eqn:Hr; simpl; [|by repeat split].
  destruct (getUser store _); [by repeat split|].
  unfold createUser, create_user. simpl. rewrite He. simpl. by repeat split.
Qed.

Lemma create_user_service_written {engine : Js.Engine} store body now :
  service_written store -> service_written (create_user store body now).1.
Proof.
  intros H. unfold create_user.
  destruct (negb _ || negb _ || negb _); [done|].
  destruct (List.find _ (readUsers store)); [done|].
  unfold service_written. simpl. apply Forall_app. split; [done|].
  by apply Forall_singleton.
Qed.

Lemma find_Forall {A} (P : A -> Prop) f l x :
  Forall P l -> List.find f l = Some x -> P x.
Proof.
  intros H Hf. apply find_some in Hf as [Hin _].
  rewrite Forall_forall in H. by apply H, list_elem_of_In.
Qed.

(** X29. No account the user service has created can log in.  The
    login compares the request's password with the [password] property of
    the stored record; the records [POST /users] writes have none.  So
    after any sequence of [POST /users] requests on a missing file, every
    login is refused, whatever address and password it gives. *)
Theorem service_accounts_cannot_log_in {engine : Js.Engine} (reqs : list (NewUser * Z))
    body token :
  forall t u,
    login (foldl (fun store r => (create_user store r.1 r.2).1) Missing reqs) body token
    <> LoggedIn t u.
Proof.
  assert (Hw : service_written
                 (foldl (fun store r => (create_user store r.1 r.2).1) Missing reqs)).
  { assert (H0 : service_written Missing) by constructor.
    revert H0. generalize Missing. induction reqs as [|r reqs IH]; intros s Hs; [done|].
    simpl. apply IH. by apply create_user_service_written. }
  intros t u. unfold login.
  destruct (negb _ || negb _) eqn:Hreq; [done|].
  unfold getUser, get_user. simpl.
  destruct (negb (negb _)); [done|].
  destruct (List.find _ _) as [user|] eqn:Hfind; [|done].
  apply (find_Forall _ _ _ _ Hw) in Hfind. simpl in Hfind. rewrite Hfind.
  apply orb_false_iff in Hreq as [_ Hp]. apply negb_false_iff in Hp.
  destruct (cred_password body); [|done].
  by rewrite bool_decide_eq_false_2.
Qed.

End AuthFacts.


(** ** The room lists *)

Module RoomListFacts.
Import InvitationFacts.

Lemma listed_by_doctor {engine : Js.Engine} st hash inv email entry :
  roomInvitations st !! hash = Some inv ->
  Some (Invitation.doctorEmail inv) = (Js.toLowerCase <$> email) ->
  entry = mkRoomEntry hash (Invitation.roomId inv) (Invitation.patientEmail inv)
            (Invitation.createdAt inv)
            (slot_not_null Room.patient st (Invitation.roomId inv)) ("/chat/" ++ hash) ->
  entry ∈ doctor_rooms st email.
Proof.
  intros Hinv Hmail ->. unfold doctor_rooms. apply list_elem_of_fmap.
  exists (hash, inv). split; [done|].
  apply list_elem_of_In, filter_In. split.
  - by apply list_elem_of_In, elem_of_map_to_list.
  - by apply bool_decide_eq_true.
Qed.

(** X30. A booked room in the lists.  After [POST /api/create-room]
    for a doctor and a patient, the doctor's list, asked with the doctor's
    address in any case (an address with the same lower-cased form),
    holds the new link with [hasPatientJoined] false, and the patient's
    list, asked with the patient's address in any case, holds it with
    [isDoctorOnline] false.  The flag of the doctor's list turns true as
    soon as any connection joins the room with the role "patient". *)
Theorem booked_room_is_listed {engine : Js.Engine} st d p h now asDoctor asPatient :
  d <> "" ->
  p <> "" ->
  Js.toLowerCase asDoctor = Js.toLowerCase d ->
  Js.toLowerCase asPatient = Js.toLowerCase p ->
  let st' := (create_room st (Some d) (Some p) h now).1 in
  let roomId := "room_" ++ Js.decimal now in
  mkRoomEntry h roomId (Js.toLowerCase p) now false ("/chat/" ++ h)
    ∈ doctor_rooms st' (Some asDoctor)
  /\ (exists l,
        patient_rooms st' (Some asPatient) = Some l
        /\ mkRoomEntry h roomId (Js.toLowerCase d) now false ("/chat/" ++ h) ∈ l)
  /\ forall sid nickname avatarUrl email,
       mkRoomEntry h roomId (Js.toLowerCase p) now true ("/chat/" ++ h)
         ∈ doctor_rooms
             (join_room st' sid (mkJoin roomId nickname "patient" avatarUrl email)).1
             (Some asDoctor).
Proof.
  intros Hd Hp Hqd Hqp st' roomId. subst st' roomId. unfold create_room.
  rewrite !truthy_str_Some by done. simpl.
  split; [|split].
  - eapply (listed_by_doctor _ h
              (Invitation.mk ("room_" ++ Js.decimal now) (Js.toLowerCase p)
                 (Js.toLowerCase d) now false)).
    + simpl. apply lookup_insert_eq.
    + simpl. by rewrite Hqd.
    + unfold slot_not_null. simpl. by rewrite !lookup_insert_eq.
  - unfold patient_rooms.
    assert (Hne : asPatient <> "").
    { intros ->. apply Hp. apply Js.toLowerCase_empty. rewrite <- Hqp.
      by apply Js.toLowerCase_empty. }
    rewrite truthy_str_Some by done. simpl. eexists. split; [done|].
    apply list_elem_of_fmap.
    exists (h, Invitation.mk ("room_" ++ Js.decimal now) (Js.toLowerCase p)
                 (Js.toLowerCase d) now false).
    simpl. unfold slot_not_null. simpl. rewrite lookup_insert_eq. simpl.
    split; [done|]. apply list_elem_of_In, filter_In. split.
    + apply list_elem_of_In, elem_of_map_to_list. by rewrite lookup_insert_eq.
    + apply bool_decide_eq_true. by rewrite Hqp.
  - intros sid nickname avatarUrl email.
    unfold join_room, reads_runtime_object.
    cbn [join_roomId rooms with_rooms with_invitations]. rewrite lookup_insert_eq.
    rewrite (bool_decide_eq_false_2 (Some _ = None)) by done. cbn [andb].
    eapply (listed_by_doctor _ h
              (Invitation.mk ("room_" ++ Js.decimal now) (Js.toLowerCase p)
                 (Js.toLowerCase d) now false)).
    + simpl. apply lookup_insert_eq.
    + simpl. by rewrite Hqd.
    + unfold slot_not_null. simpl. by rewrite !lookup_insert_eq.
Qed.

Lemma booked_room_is_listed_witness :
  mkRoomEntry "5d41402abc4b2a76b9719d911017c592" Ex.room "alex@mail.example" 1718000000000
    false "/chat/5d41402abc4b2a76b9719d911017c592"
  ∈ doctor_rooms Ex.booked (Some "RAO@clinic.example").
Proof.
  pose proof (booked_room_is_listed initial "Rao@Clinic.example" "alex@mail.example"
                "5d41402abc4b2a76b9719d911017c592" 1718000000000
                "RAO@clinic.example" "alex@mail.example") as H.
  cbv zeta in H. destruct H as (H & _); try reflexivity; try discriminate.
  exact H.
Defined.

End RoomListFacts.
